(** * Payback: binary-queue matcher and payment / confirmation state machine

    A shallow embedding of the handlers and effects of the two dashboard
    implementations of the repository:

    - [Home]      : the component of [src/Home.tsx] (one [useState] cell per
                    aggregate, functional updates);
    - [Dashboard] : the component of the second copy of the page (the
                    multi-user one, whose handlers build a partial update and
                    send it through [onUpdateUserData]).

    JavaScript numbers that the handlers manipulate are integers (amounts in
    rupees, millisecond timestamps, positions) and are modelled by [Z].
    One run of a handler is taken to be instantaneous: every [Date.now()] it
    reads returns the same value [now], and [isoNow] stands for
    [new Date().toISOString().slice(0, 16).replace('T', ' ')].
    A handler runs on the state of the latest render, so the aggregates it
    closes over and the [prev] arguments of its functional updates are the
    same state; only the [setTimeout] callbacks of the second dashboard keep
    an older render, and they are modelled with the state they captured. *)

From Stdlib Require Import String ZArith QArith List Bool Lia Permutation.
From Stdlib Require Import DecimalString Qround Qpower.
Import ListNotations.
Local Open Scope string_scope.
Local Open Scope Z_scope.

Set Implicit Arguments.

(** ** JavaScript array and string primitives used by the handlers *)

Module JS.

(** [Array.prototype.findIndex]: index of the first element satisfying
    [f], or [-1]. *)
Fixpoint findIndex {A} (f : A -> bool) (l : list A) : Z :=
  match l with
  | [] => -1
  | x :: t => if f x then 0
              else let r := findIndex f t in
                   if r <? 0 then -1 else r + 1
  end.

(** [arr[i]]: [None] is [undefined]. *)
Definition at_ {A} (l : list A) (i : Z) : option A :=
  if i <? 0 then None else nth_error l (Z.to_nat i).

(** Relative index of [Array.prototype.slice]: negative indices count from
    the end, everything is clamped to [0 .. len]. *)
Definition rel (len i : Z) : Z :=
  if i <? 0 then Z.max (len + i) 0 else Z.min i len.

(** [arr.slice(start, stop)]. *)
Definition slice {A} (l : list A) (start stop : Z) : list A :=
  let len := Z.of_nat (length l) in
  let k := rel len start in
  let final := rel len stop in
  firstn (Z.to_nat (Z.max (final - k) 0)) (skipn (Z.to_nat k) l).

(** [arr.slice(start)]. *)
Definition sliceFrom {A} (l : list A) (start : Z) : list A :=
  slice l start (Z.of_nat (length l)).

(** [arr.map((x, index) => f(x, index))]. *)
Fixpoint mapi_from {A B} (f : A -> Z -> B) (i : Z) (l : list A) : list B :=
  match l with
  | [] => []
  | x :: t => f x i :: mapi_from f (i + 1) t
  end.

Definition mapi {A B} (f : A -> Z -> B) (l : list A) : list B :=
  mapi_from f 0 l.

(** [arr.includes(s)] on an array of strings. *)
Definition includes (l : list string) (s : string) : bool :=
  existsb (String.eqb s) l.

(** [s.startsWith(p)]. *)
Definition startsWith (s p : string) : bool := String.prefix p s.

(** Truthiness of the values the guards test. *)
Definition truthyString (s : string) : bool := negb (String.eqb s "").

Definition truthyOptString (s : option string) : bool :=
  match s with Some x => truthyString x | None => false end.

Definition truthyOptNumber (n : option Z) : bool :=
  match n with Some x => negb (x =? 0) | None => false end.

(** [null + d] coerces [null] to [0]. *)
Definition numberOfOpt (n : option Z) : Z :=
  match n with Some x => x | None => 0 end.

(** Interpolation of an integer in a template literal. *)
Definition numberToString (n : Z) : string :=
  NilZero.string_of_int (Z.to_int n).

(** [arr[i] = v] for an index inside the array. *)
Fixpoint setAt {A} (l : list A) (i : nat) (v : A) : list A :=
  match l, i with
  | [], _ => []
  | _ :: t, O => v :: t
  | x :: t, S j => x :: setAt t j v
  end.

End JS.

(** ** Data model (the interfaces of the two files) *)

Module Payment.

Inductive status_t : Type :=
| unpaid | pending | confirmed | expired | verifying | failed | disputed.

Definition status_eqb (a b : status_t) : bool :=
  match a, b with
  | unpaid, unpaid | pending, pending | confirmed, confirmed
  | expired, expired | verifying, verifying | failed, failed
  | disputed, disputed => true
  | _, _ => false
  end.

Record bankAccount_t : Type := mkBank {
  name : string;
  number : string;
  ifsc : string
}.

Record t : Type := mk {
  id : string;
  title : string;
  amount : Z;
  description : string;
  receiverContact : string;
  type : string;
  iconClass : string;
  status : status_t;
  transactionId : string;
  proof : option string;
  qrCodeUrl : string;
  bankAccount : bankAccount_t;
  upiId : string;
  usdtAddress : string;
  assignedTimestamp : option Z;
  receiverId : string;
  uniqueUsdtAmount : option Q
}.

(** [{ ...p, status: s }] *)
Definition with_status (p : t) (s : status_t) : t :=
  mk (id p) (title p) (amount p) (description p) (receiverContact p) (type p)
     (iconClass p) s (transactionId p) (proof p) (qrCodeUrl p)
     (bankAccount p) (upiId p) (usdtAddress p) (assignedTimestamp p)
     (receiverId p) (uniqueUsdtAmount p).

(** [{ ...p, status: s, transactionId: '' }] *)
Definition with_status_tx (p : t) (s : status_t) (tx : string) : t :=
  mk (id p) (title p) (amount p) (description p) (receiverContact p) (type p)
     (iconClass p) s tx (proof p) (qrCodeUrl p)
     (bankAccount p) (upiId p) (usdtAddress p) (assignedTimestamp p)
     (receiverId p) (uniqueUsdtAmount p).

(** [{ ...p, status: 'unpaid', transactionId: '', proof: null,
       assignedTimestamp: Date.now() }] *)
Definition reset (p : t) (now : Z) : t :=
  mk (id p) (title p) (amount p) (description p) (receiverContact p) (type p)
     (iconClass p) unpaid "" None (qrCodeUrl p)
     (bankAccount p) (upiId p) (usdtAddress p) (Some now)
     (receiverId p) (uniqueUsdtAmount p).

End Payment.

Module Transaction.
Record t : Type := mk {
  date : string;
  type : string;
  details : string;
  amount : Z;
  status : string
}.
End Transaction.

Module Confirmation.
Record t : Type := mk {
  id : string;
  paymentId : option string;
  senderName : string;
  amount : Z;
  transactionId : string;
  proof : option string;
  date : string;
  type : string;
  submittedTimestamp : Z;
  receiverId : string;
  paymentTitle : string
}.
End Confirmation.

Module Notification.
Inductive type_t : Type :=
| income | referral | payment_confirmed | payment_received | system | error.
Record t : Type := mk {
  id : string;
  type : type_t;
  message : string;
  timestamp : Z;
  isRead : bool
}.
End Notification.

Module AdminUser.
Inductive status_t : Type := active | pending | on_hold.
Record t : Type := mk {
  id : string;
  name : string;
  profilePicture : string;
  joinDate : string;
  paymentsConfirmed : Z;
  totalPayments : Z;
  notes : string;
  status : status_t;
  transactions : list Transaction.t
}.
(** [{ ...u, status: s }] *)
Definition with_status (u : t) (s : status_t) : t :=
  mk (id u) (name u) (profilePicture u) (joinDate u) (paymentsConfirmed u)
     (totalPayments u) (notes u) s (transactions u).
End AdminUser.

Module MatchedPair.
Inductive status_t : Type := paid | pending.
Record t : Type := mk {
  pairNumber : Z;
  leftUsers : list string;
  rightUsers : list string;
  date : string;
  amount : Z;
  status : status_t
}.
End MatchedPair.

(** An entry of [BinaryData.matchingQueue]. *)
Module QueueUser.
Record t : Type := mk {
  id : string;
  name : string;
  profilePicture : string;
  joinTime : string;
  queuePosition : Z;
  isQualified : bool
}.
(** [{ ...user, queuePosition: n }] *)
Definition with_queuePosition (u : t) (n : Z) : t :=
  mk (id u) (name u) (profilePicture u) (joinTime u) n (isQualified u).
End QueueUser.

Module BinaryData.
Record t : Type := mk {
  leftTeam : list string;
  rightTeam : list string;
  matchedPairs : list MatchedPair.t;
  pendingPairs : list MatchedPair.t;
  matchingQueue : list QueueUser.t;
  currentUserPosition : Z
}.
End BinaryData.

Module SponsorData.
Record direct_t : Type := mkDirect {
  date : string;
  name : string;
  position : string;
  amount : Z;
  status : string
}.
Record t : Type := mk { directs : list direct_t }.
End SponsorData.

(** [SystemConfig]; [src/Home.tsx] has the four amounts only and the constant
    [PAYMENT_TIMER_DURATION] in place of [paymentTimerDuration]. *)
Module SystemConfig.
Record t : Type := mk {
  referralAmount : Z;
  binaryAmount : Z;
  uplineAmount : Z;
  adminFeeAmount : Z;
  paymentTimerDuration : Z;
  bscScanApiKey : string;
  cryptoReceivingAddress : string;
  enableCryptoVerification : bool;
  requiredConfirmations : Z
}.
End SystemConfig.

(** The fields of the profile that the handlers read. *)
Module UserProfile.
Record t : Type := mk {
  id : string;
  name : string
}.
End UserProfile.

(** The aggregates a dashboard owns.  [allUsers] is a state cell of
    [src/Home.tsx] only; the second dashboard derives its list of users and
    never writes one. *)
Module UserData.
Record t : Type := mk {
  profile : UserProfile.t;
  paymentsData : list Payment.t;
  pendingConfirmations : list Confirmation.t;
  transactionsData : list Transaction.t;
  disputes : list Confirmation.t;
  notifications : list Notification.t;
  binaryData : BinaryData.t;
  sponsorData : SponsorData.t;
  allUsers : list AdminUser.t
}.

Definition set_paymentsData (s : t) (v : list Payment.t) : t :=
  mk (profile s) v (pendingConfirmations s) (transactionsData s) (disputes s)
     (notifications s) (binaryData s) (sponsorData s) (allUsers s).

Definition set_pendingConfirmations (s : t) (v : list Confirmation.t) : t :=
  mk (profile s) (paymentsData s) v (transactionsData s) (disputes s)
     (notifications s) (binaryData s) (sponsorData s) (allUsers s).

Definition set_transactionsData (s : t) (v : list Transaction.t) : t :=
  mk (profile s) (paymentsData s) (pendingConfirmations s) v (disputes s)
     (notifications s) (binaryData s) (sponsorData s) (allUsers s).

Definition set_disputes (s : t) (v : list Confirmation.t) : t :=
  mk (profile s) (paymentsData s) (pendingConfirmations s)
     (transactionsData s) v (notifications s) (binaryData s) (sponsorData s)
     (allUsers s).

Definition set_notifications (s : t) (v : list Notification.t) : t :=
  mk (profile s) (paymentsData s) (pendingConfirmations s)
     (transactionsData s) (disputes s) v (binaryData s) (sponsorData s)
     (allUsers s).

Definition set_binaryData (s : t) (v : BinaryData.t) : t :=
  mk (profile s) (paymentsData s) (pendingConfirmations s)
     (transactionsData s) (disputes s) (notifications s) v (sponsorData s)
     (allUsers s).

Definition set_allUsers (s : t) (v : list AdminUser.t) : t :=
  mk (profile s) (paymentsData s) (pendingConfirmations s)
     (transactionsData s) (disputes s) (notifications s) (binaryData s)
     (sponsorData s) v.

Definition set_sponsorData (s : t) (v : SponsorData.t) : t :=
  mk (profile s) (paymentsData s) (pendingConfirmations s)
     (transactionsData s) (disputes s) (notifications s) (binaryData s)
     v (allUsers s).
End UserData.

(** A partial update, the argument of [onUpdateUserData]: an absent key is
    [None]. *)
Module Updates.
Record t : Type := mk {
  paymentsData : option (list Payment.t);
  pendingConfirmations : option (list Confirmation.t);
  transactionsData : option (list Transaction.t);
  disputes : option (list Confirmation.t);
  notifications : option (list Notification.t);
  binaryData : option BinaryData.t
}.

Definition none : t := mk None None None None None None.

Definition orElse {A} (o : option A) (d : A) : A :=
  match o with Some v => v | None => d end.

(** [{ ...prevDb.users[currentUserId], ...updates }] *)
Definition apply (u : t) (s : UserData.t) : UserData.t :=
  UserData.mk (UserData.profile s)
    (orElse (paymentsData u) (UserData.paymentsData s))
    (orElse (pendingConfirmations u) (UserData.pendingConfirmations s))
    (orElse (transactionsData u) (UserData.transactionsData s))
    (orElse (disputes u) (UserData.disputes s))
    (orElse (notifications u) (UserData.notifications s))
    (orElse (binaryData u) (UserData.binaryData s))
    (UserData.sponsorData s)
    (UserData.allUsers s).
End Updates.

(** The double quote of the template literals. *)
Definition dq : string := String (Ascii.ascii_of_nat 34) EmptyString.

(** [p.id === c.paymentId], where [paymentId] may be [undefined]. *)
Definition idIs (pid : option string) (p : Payment.t) : bool :=
  match pid with
  | Some x => String.eqb (Payment.id p) x
  | None => false
  end.

(** ** The payment card and the submit dialog (the same in both files) *)

Module PaymentCard.

Definition isCrypto (activeMethod : string) : bool :=
  String.eqb activeMethod "crypto".

(** [isCrypto ? !!payment.transactionId
             : (!!payment.transactionId && !!payment.proof)] *)
Definition canSubmit (activeMethod : string) (payment : Payment.t) : bool :=
  if isCrypto activeMethod
  then JS.truthyString (Payment.transactionId payment)
  else JS.truthyString (Payment.transactionId payment)
       && JS.truthyOptString (Payment.proof payment).

(** What a click on the card's button calls. *)
Inductive call : Type :=
| onAutoVerify (payment : Payment.t)
| onSubmit (payment : Payment.t).

(** The button sits in the block rendered under
    [payment.status === 'unpaid'], carries [disabled={!canSubmit}], and its
    [onClick] is [isCrypto ? onAutoVerify(payment) : onSubmit(payment)].
    [None]: there is no button to click, or it is disabled. *)
Definition click (activeMethod : string) (payment : Payment.t) : option call :=
  if Payment.status_eqb (Payment.status payment) Payment.unpaid then
    if canSubmit activeMethod payment then
      Some (if isCrypto activeMethod
            then onAutoVerify payment else onSubmit payment)
    else None
  else None.

End PaymentCard.

Module JoinTab.

(** [handleSubmitClick]: the card's [onSubmit] stores the payment it was
    rendered with in [modalPayment] and opens the dialog. *)
Definition handleSubmitClick (payment : Payment.t) : option Payment.t :=
  Some payment.

(** [handleConfirmSubmit]: the dialog's confirm button passes the stored
    payment to the dashboard's [handleSubmitPayment]. *)
Definition handleConfirmSubmit
    (modalPayment : option Payment.t)
    (onSubmitPayment : Payment.t -> UserData.t -> UserData.t)
    (st : UserData.t) : UserData.t :=
  match modalPayment with
  | Some p => onSubmitPayment p st
  | None => st
  end.

End JoinTab.

(** The double-precision value of the literal [0.1]. *)
Definition zeroPointOne : Q := 3602879701896397 # 36028797018963968.

(** ** Products of doubles

    Non-negative binary64 numbers as the rationals they denote, and their
    product rounded as IEEE 754 rounds it (to nearest, ties to even). *)

Module Binary64.

(** [2^e] *)
Definition pow2 (e : Z) : Q := Qpower (2 # 1) e.

(** [floor (log2 x)] for [x > 0]. *)
Definition ilog2 (x : Q) : Z :=
  let d := Z.log2 (Qnum x) - Z.log2 (Zpos (Qden x)) in
  if Qle_bool (pow2 d) x then d else d - 1.

(** The integer nearest to [q], the even one of two that are as near. *)
Definition roundEven (q : Q) : Z :=
  let f := Qfloor q in
  match Qcompare (q - inject_Z f) (1 # 2) with
  | Lt => f
  | Gt => f + 1
  | Eq => if Z.even f then f else f + 1
  end.

(** The binary64 number nearest to [x >= 0]: 53 significant bits, least
    exponent [-1074]; the numbers met here are far below the overflow
    threshold. *)
Definition round (x : Q) : Q :=
  if Qle_bool x 0 then 0%Q
  else
    let e := Z.max (ilog2 x - 52) (-1074) in
    (inject_Z (roundEven (x / pow2 e)) * pow2 e)%Q.

(** [x] is a binary64 number. *)
Definition isDouble (x : Q) : bool := Qeq_bool (round x) x.

(** [x * y] on binary64 numbers. *)
Definition mul (x y : Q) : Q := round (x * y).

End Binary64.

(** [hasLeftSponsor && hasRightSponsor] *)
Definition isQualifiedForBinary (sponsorData : SponsorData.t) : bool :=
  let hasLeftSponsor :=
    existsb (fun d => String.eqb (SponsorData.position d) "left"
                      && String.eqb (SponsorData.status d) "paid")
            (SponsorData.directs sponsorData) in
  let hasRightSponsor :=
    existsb (fun d => String.eqb (SponsorData.position d) "right"
                      && String.eqb (SponsorData.status d) "paid")
            (SponsorData.directs sponsorData) in
  hasLeftSponsor && hasRightSponsor.

(** The guard of the payment timer, the same expression in both files:
    [p.status === 'unpaid' && p.assignedTimestamp && p.type !== 'admin'
     && Date.now() > p.assignedTimestamp + duration]. *)
Definition paymentTimedOut (duration now : Z) (p : Payment.t) : bool :=
  Payment.status_eqb (Payment.status p) Payment.unpaid
  && JS.truthyOptNumber (Payment.assignedTimestamp p)
  && negb (String.eqb (Payment.type p) "admin")
  && (now >? JS.numberOfOpt (Payment.assignedTimestamp p) + duration).

(** [now > c.submittedTimestamp + duration] *)
Definition confirmationTimedOut (duration now : Z) (c : Confirmation.t) : bool :=
  now >? Confirmation.submittedTimestamp c + duration.

(** [reduce((sum, p) => sum + p.amount, 0)] *)
Definition totalAmount (pairs : list MatchedPair.t) : Z :=
  fold_left (fun sum p => sum + MatchedPair.amount p) pairs 0.

(** The [field] argument of [handleUpdatePayment]. *)
Inductive paymentField : Type := fieldTransactionId | fieldProof.

(** [{ ...p, [field]: value }] *)
Definition setField (p : Payment.t) (field : paymentField) (value : string)
  : Payment.t :=
  match field with
  | fieldTransactionId =>
    Payment.mk (Payment.id p) (Payment.title p) (Payment.amount p)
      (Payment.description p) (Payment.receiverContact p) (Payment.type p)
      (Payment.iconClass p) (Payment.status p) value (Payment.proof p)
      (Payment.qrCodeUrl p) (Payment.bankAccount p) (Payment.upiId p)
      (Payment.usdtAddress p) (Payment.assignedTimestamp p)
      (Payment.receiverId p) (Payment.uniqueUsdtAmount p)
  | fieldProof =>
    Payment.mk (Payment.id p) (Payment.title p) (Payment.amount p)
      (Payment.description p) (Payment.receiverContact p) (Payment.type p)
      (Payment.iconClass p) (Payment.status p) (Payment.transactionId p)
      (Some value)
      (Payment.qrCodeUrl p) (Payment.bankAccount p) (Payment.upiId p)
      (Payment.usdtAddress p) (Payment.assignedTimestamp p)
      (Payment.receiverId p) (Payment.uniqueUsdtAmount p)
  end.

(** The [favor] argument of [handleResolveDispute]. *)
Inductive favor : Type := sender | receiver.

(** The space character. *)
Definition space : Ascii.ascii := Ascii.ascii_of_nat 32.

(** [s.split(' ')[0]]: the part of [s] before its first space. *)
Fixpoint firstWord (s : string) : string :=
  match s with
  | EmptyString => EmptyString
  | String c rest =>
    if Ascii.eqb c space then EmptyString else String c (firstWord rest)
  end.

(** [{ ...n, isRead: true }] *)
Definition markRead (n : Notification.t) : Notification.t :=
  Notification.mk (Notification.id n) (Notification.type n)
    (Notification.message n) (Notification.timestamp n) true.

(** [{ ...d, status: 'paid' }] *)
Definition markPaid (d : SponsorData.direct_t) : SponsorData.direct_t :=
  SponsorData.mkDirect (SponsorData.date d) (SponsorData.name d)
    (SponsorData.position d) (SponsorData.amount d) "paid".

(** ** The dashboard of [src/Home.tsx] *)

Module Home.

Definition PAYMENT_TIMER_DURATION : Z := 2 * 60 * 60 * 1000.

(** Effect "process pending binary payments upon qualification".  The first
    component is the new value of [prevIsQualifiedRef.current]. *)
Definition qualificationEffect (toLocaleString : Z -> string)
    (now : Z) (isoNow : string)
    (prevIsQualifiedRef : bool) (st : UserData.t) : bool * UserData.t :=
  let binaryData := UserData.binaryData st in
  let isQ := isQualifiedForBinary (UserData.sponsorData st) in
  let st' :=
    if isQ && negb prevIsQualifiedRef
       && (0 <? Z.of_nat (List.length (BinaryData.pendingPairs binaryData)))
    then
      let totalPayout := totalAmount (BinaryData.pendingPairs binaryData) in
      let st1 :=
        UserData.set_notifications st
          (Notification.mk ("n" ++ JS.numberToString now) Notification.income
             ("Congratulations! You've qualified for binary income. Pending income of ₹"
                ++ toLocaleString totalPayout ++ " has been paid out.")
             now false
           :: UserData.notifications st) in
      let prev := UserData.binaryData st1 in
      let paidOutPairs :=
        map (fun p => MatchedPair.mk (MatchedPair.pairNumber p)
                        (MatchedPair.leftUsers p) (MatchedPair.rightUsers p)
                        isoNow (MatchedPair.amount p) MatchedPair.paid)
            (BinaryData.pendingPairs prev) in
      let newTransactions :=
        map (fun p => Transaction.mk isoNow "binary"
                        ("Pending match #"
                           ++ JS.numberToString (MatchedPair.pairNumber p)
                           ++ " paid out")
                        (MatchedPair.amount p) "paid")
            paidOutPairs in
      let st2 :=
        UserData.set_transactionsData st1
          (newTransactions ++ UserData.transactionsData st1) in
      UserData.set_binaryData st2
        (BinaryData.mk (BinaryData.leftTeam prev) (BinaryData.rightTeam prev)
           (BinaryData.matchedPairs prev ++ paidOutPairs) []
           (BinaryData.matchingQueue prev)
           (BinaryData.currentUserPosition prev))
    else st in
  (isQ, st').

(** One run of the [timerInterval] callback: the payment-expiry sweep. *)
Definition timerInterval (now : Z) (st : UserData.t) : UserData.t :=
  let prevPayments := UserData.paymentsData st in
  let updatedPayments :=
    map (fun p => if paymentTimedOut PAYMENT_TIMER_DURATION now p
                  then Payment.with_status p Payment.expired else p)
        prevPayments in
  let hasChanged :=
    existsb (paymentTimedOut PAYMENT_TIMER_DURATION now) prevPayments in
  UserData.set_paymentsData st
    (if hasChanged then updatedPayments else prevPayments).

(** The local variables of the confirmation sweep's updater. *)
Record sweep : Type := mkSweep {
  newPayments : list Payment.t;
  newDisputes : list Confirmation.t;
  usersToPutOnHold : list string
}.

(** [Set.prototype.add] *)
Definition setAdd (s : list string) (x : string) : list string :=
  if JS.includes s x then s else s ++ [x].

(** Body of [for (const confirmation of expiredConfirmations)]. *)
Definition sweepStep (now : Z) (acc : sweep) (confirmation : Confirmation.t)
  : sweep :=
  let paymentIndex :=
    JS.findIndex (idIs (Confirmation.paymentId confirmation))
                 (newPayments acc) in
  if paymentIndex =? -1 then acc
  else
    match JS.at_ (newPayments acc) paymentIndex with
    | None => acc
    | Some payment =>
      let isMatrixPayment := JS.startsWith (Payment.type payment) "upline" in
      if isMatrixPayment then
        mkSweep (JS.setAt (newPayments acc) (Z.to_nat paymentIndex)
                   (Payment.with_status payment Payment.disputed))
                (newDisputes acc ++ [confirmation])
                (setAdd (usersToPutOnHold acc) (Payment.receiverId payment))
      else
        mkSweep (JS.setAt (newPayments acc) (Z.to_nat paymentIndex)
                   (Payment.reset payment now))
                (newDisputes acc)
                (usersToPutOnHold acc)
    end.

(** One run of the [confirmationTimerInterval] callback: the
    confirmation-expiry sweep. *)
Definition confirmationTimerInterval (now : Z) (st : UserData.t) : UserData.t :=
  let pendingConfirmations := UserData.pendingConfirmations st in
  let expiredConfirmations :=
    filter (confirmationTimedOut PAYMENT_TIMER_DURATION now)
           pendingConfirmations in
  if 0 <? Z.of_nat (List.length expiredConfirmations) then
    let expiredConfirmationIds :=
      map Confirmation.id expiredConfirmations in
    let st1 :=
      UserData.set_pendingConfirmations st
        (filter (fun c => negb (JS.includes expiredConfirmationIds
                                            (Confirmation.id c)))
                pendingConfirmations) in
    let acc :=
      fold_left (sweepStep now) expiredConfirmations
                (mkSweep (UserData.paymentsData st1) [] []) in
    let st2 :=
      if 0 <? Z.of_nat (List.length (newDisputes acc)) then
        UserData.set_allUsers
          (UserData.set_disputes st1 (UserData.disputes st1 ++ newDisputes acc))
          (map (fun u => if JS.includes (usersToPutOnHold acc) (AdminUser.id u)
                         then AdminUser.with_status u AdminUser.on_hold
                         else u)
               (UserData.allUsers st1))
      else st1 in
    UserData.set_paymentsData st2 (newPayments acc)
  else st.

(** [handleSubmitPayment] *)
Definition handleSubmitPayment (now : Z) (isoNow : string)
    (payment : Payment.t) (st : UserData.t) : UserData.t :=
  let st1 :=
    UserData.set_paymentsData st
      (map (fun p => if String.eqb (Payment.id p) (Payment.id payment)
                     then Payment.with_status p Payment.pending else p)
           (UserData.paymentsData st)) in
  UserData.set_pendingConfirmations st1
    (UserData.pendingConfirmations st1
     ++ [Confirmation.mk ("conf_" ++ JS.numberToString now)
           (Some (Payment.id payment))
           (UserProfile.name (UserData.profile st))
           (Payment.amount payment)
           (Payment.transactionId payment)
           (Payment.proof payment)
           isoNow
           (Payment.title payment)
           now
           (Payment.receiverId payment)
           (Payment.title payment)]).

(** The callbacks [handleAutoVerify] hands to [setTimeout], as closures over
    the payment they were created for. *)
Inductive task : Type :=
| settle (payment : Payment.t)
| resetFailed (payment : Payment.t).

Record timer : Type := mkTimer { delay : Z; callback : task }.

Definition setStatusOf (payment : Payment.t) (s : Payment.status_t)
    (st : UserData.t) : UserData.t :=
  UserData.set_paymentsData st
    (map (fun p => if String.eqb (Payment.id p) (Payment.id payment)
                   then Payment.with_status p s else p)
         (UserData.paymentsData st)).

(** [handleAutoVerify]: the immediate update and the timer it starts. *)
Definition handleAutoVerify (payment : Payment.t) (st : UserData.t)
  : UserData.t * list timer :=
  (setStatusOf payment Payment.verifying st, [mkTimer 3000 (settle payment)]).

(** A timer firing; [random] is the value [Math.random()] returns. *)
Definition fire (random : Q) (isoNow : string) (t : task) (st : UserData.t)
  : UserData.t * list timer :=
  match t with
  | settle payment =>
    let isSuccess := negb (Qle_bool random zeroPointOne) in
    if isSuccess then
      let st1 := setStatusOf payment Payment.confirmed st in
      (UserData.set_transactionsData st1
         (Transaction.mk isoNow (Payment.type payment)
            ("Auto-verified: " ++ Payment.title payment)
            (Payment.amount payment) "confirmed"
          :: UserData.transactionsData st1),
       [])
    else
      (setStatusOf payment Payment.failed st,
       [mkTimer 3000 (resetFailed payment)])
  | resetFailed payment =>
    (UserData.set_paymentsData st
       (map (fun p => if String.eqb (Payment.id p) (Payment.id payment)
                      then Payment.with_status_tx p Payment.unpaid ""
                      else p)
            (UserData.paymentsData st)),
     [])
  end.

(** [handleRejectPayment] *)
Definition handleRejectPayment (now : Z) (confirmationId : string)
    (st : UserData.t) : UserData.t :=
  match find (fun c => String.eqb (Confirmation.id c) confirmationId)
             (UserData.pendingConfirmations st) with
  | None => st
  | Some confirmation =>
    let st1 :=
      UserData.set_pendingConfirmations st
        (filter (fun c => negb (String.eqb (Confirmation.id c) confirmationId))
                (UserData.pendingConfirmations st)) in
    UserData.set_paymentsData st1
      (map (fun p => if idIs (Confirmation.paymentId confirmation) p
                     then Payment.reset p now else p)
           (UserData.paymentsData st1))
  end.

(** The queue entry of the local participant. *)
Definition currentUser : string := "bq_5".

(** [handleProcessBinaryQueue].  [None]: the updater throws, reading
    [winner.id] of [undefined]. *)
Definition handleProcessBinaryQueue (toLocaleString : Z -> string)
    (systemConfig : SystemConfig.t) (now : Z) (isoNow : string)
    (st : UserData.t) : option UserData.t :=
  let binaryData := UserData.binaryData st in
  let qualifiedUserFound :=
    existsb QueueUser.isQualified (BinaryData.matchingQueue binaryData) in
  if negb qualifiedUserFound then
    Some (UserData.set_notifications st
            (Notification.mk ("n" ++ JS.numberToString now)
               Notification.system
               "Binary queue process ran, but no qualified users were found to receive a match."
               now false
             :: UserData.notifications st))
  else
    let prev := UserData.binaryData st in
    let queue := BinaryData.matchingQueue prev in
    let firstQualifiedIndex := JS.findIndex QueueUser.isQualified queue in
    match JS.at_ queue firstQualifiedIndex with
    | None => None
    | Some winner =>
      let usersToRequeue := JS.slice queue 0 firstQualifiedIndex in
      let remainingQueueAfterWinner :=
        JS.sliceFrom queue (firstQualifiedIndex + 1) in
      let newQueue := (remainingQueueAfterWinner ++ usersToRequeue)%list in
      let updatedQueue :=
        JS.mapi (fun user index =>
                   QueueUser.with_queuePosition user (index + 1))
                newQueue in
      let newMatch :=
        MatchedPair.mk
          (Z.of_nat (List.length (BinaryData.matchedPairs prev))
           + Z.of_nat (List.length (BinaryData.pendingPairs prev)) + 1)
          ["System Match L"] ["System Match R"] isoNow
          (SystemConfig.binaryAmount systemConfig) MatchedPair.paid in
      let winnerMessage :=
        if String.eqb (QueueUser.id winner) currentUser
        then "Congratulations! You received a binary match of ₹"
               ++ toLocaleString (MatchedPair.amount newMatch)
               ++ " from the global queue."
        else "User " ++ dq ++ QueueUser.name winner ++ dq
               ++ " received a binary match from the global queue." in
      let newNotifications :=
        Notification.mk ("n_win_" ++ JS.numberToString now)
          Notification.income winnerMessage now false
        :: flat_map
             (fun user =>
                if String.eqb (QueueUser.id user) currentUser
                then [Notification.mk ("n_skip_" ++ JS.numberToString now)
                        Notification.system
                        "You missed a binary match as you were not qualified. You have been moved to the end of the queue."
                        now false]
                else [])
             usersToRequeue in
      let st1 :=
        UserData.set_notifications st
          (newNotifications ++ UserData.notifications st) in
      let currentUserNewPosition :=
        JS.findIndex (fun u => String.eqb (QueueUser.id u) currentUser)
                     updatedQueue + 1 in
      Some (UserData.set_binaryData st1
              (BinaryData.mk (BinaryData.leftTeam prev)
                 (BinaryData.rightTeam prev)
                 (if String.eqb (QueueUser.id winner) currentUser
                  then BinaryData.matchedPairs prev ++ [newMatch]
                  else BinaryData.matchedPairs prev)
                 (BinaryData.pendingPairs prev)
                 updatedQueue
                 (if currentUserNewPosition >? 0
                  then currentUserNewPosition
                  else BinaryData.currentUserPosition prev)))
    end.


(** [handleUpdatePayment] *)
Definition handleUpdatePayment (id : string) (field : paymentField)
    (value : string) (st : UserData.t) : UserData.t :=
  UserData.set_paymentsData st
    (map (fun p => if String.eqb (Payment.id p) id
                   then setField p field value else p)
         (UserData.paymentsData st)).

(** [handleConfirmPayment]; [toLowerCase] is [String.prototype.toLowerCase]. *)
Definition handleConfirmPayment (toLowerCase : string -> string)
    (now : Z) (isoNow : string) (confirmationId : string)
    (st : UserData.t) : UserData.t :=
  match find (fun c => String.eqb (Confirmation.id c) confirmationId)
             (UserData.pendingConfirmations st) with
  | None => st
  | Some confirmation =>
    let st1 :=
      UserData.set_pendingConfirmations st
        (filter (fun c => negb (String.eqb (Confirmation.id c) confirmationId))
                (UserData.pendingConfirmations st)) in
    let st2 :=
      UserData.set_paymentsData st1
        (map (fun p => if idIs (Confirmation.paymentId confirmation) p
                       then Payment.with_status p Payment.confirmed else p)
             (UserData.paymentsData st1)) in
    let st3 :=
      UserData.set_transactionsData st2
        (Transaction.mk isoNow
           (toLowerCase (firstWord (Confirmation.type confirmation)))
           ("Payment from " ++ Confirmation.senderName confirmation)
           (Confirmation.amount confirmation) "confirmed"
         :: UserData.transactionsData st2) in
    UserData.set_notifications st3
      (Notification.mk ("n" ++ JS.numberToString now)
         Notification.payment_confirmed
         ("Your payment for " ++ dq ++ Confirmation.paymentTitle confirmation
            ++ dq ++ " was approved.")
         now false
       :: UserData.notifications st3)
  end.

(** [handleSaveNotes] *)
Definition handleSaveNotes (userId notes : string) (st : UserData.t)
  : UserData.t :=
  UserData.set_allUsers st
    (map (fun u => if String.eqb (AdminUser.id u) userId
                   then AdminUser.mk (AdminUser.id u) (AdminUser.name u)
                          (AdminUser.profilePicture u) (AdminUser.joinDate u)
                          (AdminUser.paymentsConfirmed u)
                          (AdminUser.totalPayments u) notes
                          (AdminUser.status u) (AdminUser.transactions u)
                   else u)
         (UserData.allUsers st)).

(** [handleResolveDispute] *)
Definition handleResolveDispute (now : Z) (disputeId : string) (f : favor)
    (st : UserData.t) : UserData.t :=
  match find (fun d => String.eqb (Confirmation.id d) disputeId)
             (UserData.disputes st) with
  | None => st
  | Some dispute =>
    let st1 :=
      UserData.set_disputes st
        (filter (fun d => negb (String.eqb (Confirmation.id d) disputeId))
                (UserData.disputes st)) in
    let st2 :=
      match f with
      | sender =>
        UserData.set_paymentsData st1
          (map (fun p => if idIs (Confirmation.paymentId dispute) p
                         then Payment.with_status p Payment.confirmed else p)
               (UserData.paymentsData st1))
      | receiver =>
        UserData.set_paymentsData st1
          (map (fun p => if idIs (Confirmation.paymentId dispute) p
                         then Payment.reset p now else p)
               (UserData.paymentsData st1))
      end in
    UserData.set_allUsers st2
      (map (fun u => if String.eqb (AdminUser.id u)
                                   (Confirmation.receiverId dispute)
                     then AdminUser.with_status u AdminUser.active else u)
           (UserData.allUsers st2))
  end.

(** [handleQualifyForBinary] *)
Definition handleQualifyForBinary (st : UserData.t) : UserData.t :=
  UserData.set_sponsorData st
    (SponsorData.mk (map markPaid
                         (SponsorData.directs (UserData.sponsorData st)))).

(** The effect that copies the qualification flag into the queue entry of
    the local participant. *)
Definition qualificationSyncEffect (st : UserData.t) : UserData.t :=
  let isQualifiedForBinary := isQualifiedForBinary (UserData.sponsorData st) in
  let prev := UserData.binaryData st in
  UserData.set_binaryData st
    (BinaryData.mk (BinaryData.leftTeam prev) (BinaryData.rightTeam prev)
       (BinaryData.matchedPairs prev) (BinaryData.pendingPairs prev)
       (map (fun user =>
               if String.eqb (QueueUser.id user) currentUser
               then QueueUser.mk (QueueUser.id user) (QueueUser.name user)
                      (QueueUser.profilePicture user) (QueueUser.joinTime user)
                      (QueueUser.queuePosition user) isQualifiedForBinary
               else user)
            (BinaryData.matchingQueue prev))
       (BinaryData.currentUserPosition prev)).

(** [handleMarkNotificationRead] *)
Definition handleMarkNotificationRead (notificationId : string)
    (st : UserData.t) : UserData.t :=
  UserData.set_notifications st
    (map (fun n => if String.eqb (Notification.id n) notificationId
                   then markRead n else n)
         (UserData.notifications st)).

(** [handleMarkAllNotificationsRead] *)
Definition handleMarkAllNotificationsRead (st : UserData.t) : UserData.t :=
  UserData.set_notifications st (map markRead (UserData.notifications st)).

(** [paymentsData.every(p => p.status === 'confirmed')] *)
Definition isAccountActive (st : UserData.t) : bool :=
  forallb (fun p => Payment.status_eqb (Payment.status p) Payment.confirmed)
          (UserData.paymentsData st).

Definition notificationPool : list (Notification.type_t * string) :=
  [(Notification.income, "You just earned a binary income of ₹1000!");
   (Notification.referral,
    "New user " ++ dq ++ "Kevin H." ++ dq
      ++ " was placed in your left team.");
   (Notification.payment_confirmed,
    "Your payment for Upline Level 2 has been successfully confirmed.");
   (Notification.payment_received,
    dq ++ "Sarah M." ++ dq
      ++ " sent you a payment of ₹500 for Matrix Level 1.");
   (Notification.system,
    "Reminder: Update your payment receiving details in your profile for faster payouts.")].

(** One run of the callback that simulates incoming notifications, with
    [random] the binary64 number [Math.random()] returns; the product is the
    product of doubles.  An index outside the pool would give a notification
    without type and message, which is [None] here. *)
Definition simulateNotification (random : Q) (now : Z) (st : UserData.t)
  : option UserData.t :=
  match JS.at_ notificationPool
               (Qfloor (Binary64.mul random
                          (inject_Z
                             (Z.of_nat (List.length notificationPool)))))
  with
  | Some (type, message) =>
    Some (UserData.set_notifications st
            (Notification.mk ("n" ++ JS.numberToString now) type message now
                             false
             :: UserData.notifications st))
  | None => None
  end.

End Home.

(** ** The dashboard of the second copy of the page

    Every handler reads the aggregates of the render it was created in (here:
    the state it is applied to) and writes through [onUpdateUserData]. *)

Module Dashboard.

(** [systemConfig.paymentTimerDuration * 60 * 60 * 1000] *)
Definition paymentTimerDurationMs (systemConfig : SystemConfig.t) : Z :=
  SystemConfig.paymentTimerDuration systemConfig * 60 * 60 * 1000.

Definition onUpdateUserData (updates : Updates.t) (st : UserData.t)
  : UserData.t := Updates.apply updates st.

(** Effect "process pending binary payments upon qualification". *)
Definition qualificationEffect (toLocaleString : Z -> string)
    (now : Z) (isoNow : string)
    (prevIsQualifiedRef : bool) (st : UserData.t) : bool * UserData.t :=
  let binaryData := UserData.binaryData st in
  let isQ := isQualifiedForBinary (UserData.sponsorData st) in
  let st' :=
    if isQ && negb prevIsQualifiedRef
       && (0 <? Z.of_nat (List.length (BinaryData.pendingPairs binaryData)))
    then
      let totalPayout := totalAmount (BinaryData.pendingPairs binaryData) in
      let newNotification :=
        Notification.mk ("n" ++ JS.numberToString now) Notification.income
          ("Congratulations! You've qualified for binary income. Pending income of ₹"
             ++ toLocaleString totalPayout ++ " has been paid out.")
          now false in
      let paidOutPairs :=
        map (fun p => MatchedPair.mk (MatchedPair.pairNumber p)
                        (MatchedPair.leftUsers p) (MatchedPair.rightUsers p)
                        isoNow (MatchedPair.amount p) MatchedPair.paid)
            (BinaryData.pendingPairs binaryData) in
      let newTransactions :=
        map (fun p => Transaction.mk isoNow "binary"
                        ("Pending match #"
                           ++ JS.numberToString (MatchedPair.pairNumber p)
                           ++ " paid out")
                        (MatchedPair.amount p) "paid")
            paidOutPairs in
      onUpdateUserData
        (Updates.mk None None
           (Some (newTransactions ++ UserData.transactionsData st)%list)
           None
           (Some (newNotification :: UserData.notifications st))
           (Some (BinaryData.mk (BinaryData.leftTeam binaryData)
                    (BinaryData.rightTeam binaryData)
                    (BinaryData.matchedPairs binaryData ++ paidOutPairs) []
                    (BinaryData.matchingQueue binaryData)
                    (BinaryData.currentUserPosition binaryData))))
        st
    else st in
  (isQ, st').

(** One run of the [timerInterval] callback.  The two [JSON.stringify] results differ
    exactly when the map changed a status, that is when some payment timed
    out. *)
Definition timerInterval (systemConfig : SystemConfig.t) (now : Z)
    (st : UserData.t) : UserData.t :=
  let paymentsData := UserData.paymentsData st in
  let updatedPayments :=
    map (fun p =>
           if paymentTimedOut (paymentTimerDurationMs systemConfig) now p
           then Payment.with_status p Payment.expired else p)
        paymentsData in
  if existsb (paymentTimedOut (paymentTimerDurationMs systemConfig) now)
             paymentsData
  then onUpdateUserData
         (Updates.mk (Some updatedPayments) None None None None None) st
  else st.

(** [expiredConfirmations.find(ec => ec.paymentId === p.id)] *)
Definition expiredConfOf (expiredConfirmations : list Confirmation.t)
    (p : Payment.t) : option Confirmation.t :=
  find (fun ec => idIs (Confirmation.paymentId ec) p) expiredConfirmations.

(** One run of the [confirmationTimerInterval] callback. *)
Definition confirmationTimerInterval (systemConfig : SystemConfig.t) (now : Z)
    (st : UserData.t) : UserData.t :=
  let pendingConfirmations := UserData.pendingConfirmations st in
  let expiredConfirmations :=
    filter (confirmationTimedOut (paymentTimerDurationMs systemConfig) now)
           pendingConfirmations in
  if 0 <? Z.of_nat (List.length expiredConfirmations) then
    let expiredIds := map Confirmation.id expiredConfirmations in
    let updatedConfirmations :=
      filter (fun c => negb (JS.includes expiredIds (Confirmation.id c)))
             pendingConfirmations in
    let pushed :=
      flat_map (fun p => match expiredConfOf expiredConfirmations p with
                         | Some expiredConf => [expiredConf]
                         | None => []
                         end)
               (UserData.paymentsData st) in
    let newDisputes := (UserData.disputes st ++ pushed)%list in
    let updatedPayments :=
      map (fun p => match expiredConfOf expiredConfirmations p with
                    | Some _ => Payment.with_status p Payment.disputed
                    | None => p
                    end)
          (UserData.paymentsData st) in
    onUpdateUserData
      (Updates.mk (Some updatedPayments) (Some updatedConfirmations) None
                  (Some newDisputes) None None)
      st
  else st.

(** [handleSubmitPayment] *)
Definition handleSubmitPayment (now : Z) (isoNow : string)
    (payment : Payment.t) (st : UserData.t) : UserData.t :=
  let newPayments :=
    map (fun p => if String.eqb (Payment.id p) (Payment.id payment)
                  then Payment.with_status p Payment.pending else p)
        (UserData.paymentsData st) in
  let newConfirmation :=
    Confirmation.mk ("conf_" ++ JS.numberToString now)
      (Some (Payment.id payment))
      (UserProfile.name (UserData.profile st))
      (Payment.amount payment)
      (Payment.transactionId payment)
      (Payment.proof payment)
      isoNow
      (Payment.title payment)
      now
      (Payment.receiverId payment)
      (Payment.title payment) in
  onUpdateUserData
    (Updates.mk (Some newPayments)
       (Some (UserData.pendingConfirmations st ++ [newConfirmation])%list)
       None None None None)
    st.

(** [handleRejectPayment] *)
Definition handleRejectPayment (now : Z) (confirmationId : string)
    (st : UserData.t) : UserData.t :=
  match find (fun c => String.eqb (Confirmation.id c) confirmationId)
             (UserData.pendingConfirmations st) with
  | None => st
  | Some confirmation =>
    onUpdateUserData
      (Updates.mk
         (Some (map (fun p => if idIs (Confirmation.paymentId confirmation) p
                              then Payment.reset p now else p)
                    (UserData.paymentsData st)))
         (Some (filter (fun c => negb (String.eqb (Confirmation.id c)
                                                  confirmationId))
                       (UserData.pendingConfirmations st)))
         None None None None)
      st
  end.

(** The callbacks [handleAutoVerify] hands to [setTimeout].  Each one closes
    over the payment and over the aggregates of the render in which
    [handleAutoVerify] ran ([closure]); [errorReset] also holds the
    notification list [addErrorNotification] built before starting it. *)
Inductive task : Type :=
| settle (payment : Payment.t) (closure : UserData.t)
| errorReset (payment : Payment.t) (newNotifications : list Notification.t)
             (closure : UserData.t).

Record timer : Type := mkTimer { delay : Z; callback : task }.

(** [addErrorNotification(message)] *)
Definition addErrorNotification (message : string) (now : Z)
    (payment : Payment.t) (closure : UserData.t) : list timer :=
  let newNotifications :=
    Notification.mk ("n_err_" ++ JS.numberToString now) Notification.error
      message now false
    :: UserData.notifications closure in
  [mkTimer 3000 (errorReset payment newNotifications closure)].

(** [handleAutoVerify]: the immediate update and the timer it starts. *)
Definition handleAutoVerify (systemConfig : SystemConfig.t) (now : Z)
    (payment : Payment.t) (st : UserData.t) : UserData.t * list timer :=
  if negb (SystemConfig.enableCryptoVerification systemConfig)
     || negb (JS.truthyString (SystemConfig.bscScanApiKey systemConfig))
     || negb (JS.truthyString
                (SystemConfig.cryptoReceivingAddress systemConfig))
  then
    (st, addErrorNotification
           "Crypto auto-verification is not configured correctly."
           now payment st)
  else
    (onUpdateUserData
       (Updates.mk
          (Some (map (fun p =>
                        if String.eqb (Payment.id p) (Payment.id payment)
                        then Payment.with_status p Payment.verifying else p)
                     (UserData.paymentsData st)))
          None None None None None)
       st,
     [mkTimer 3000 (settle payment st)]).

(** A timer firing; [random] is the value [Math.random()] returns. *)
Definition fire (random : Q) (now : Z) (isoNow : string) (t : task)
    (st : UserData.t) : UserData.t * list timer :=
  match t with
  | settle payment closure =>
    let isSuccess := negb (Qle_bool random zeroPointOne) in
    if isSuccess then
      let newPayments :=
        map (fun p => if String.eqb (Payment.id p) (Payment.id payment)
                      then Payment.with_status p Payment.confirmed else p)
            (UserData.paymentsData closure) in
      let newTransaction :=
        Transaction.mk isoNow (Payment.type payment)
          ("Auto-verified: " ++ Payment.title payment)
          (Payment.amount payment) "confirmed" in
      (onUpdateUserData
         (Updates.mk (Some newPayments) None
            (Some (newTransaction :: UserData.transactionsData closure))
            None None None)
         st,
       [])
    else
      (st, addErrorNotification
             "Crypto auto-verification failed. Please try again or contact support."
             now payment closure)
  | errorReset payment newNotifications closure =>
    (onUpdateUserData
       (Updates.mk
          (Some (map (fun p =>
                        if String.eqb (Payment.id p) (Payment.id payment)
                        then Payment.with_status_tx p Payment.unpaid ""
                        else p)
                     (UserData.paymentsData closure)))
          None None None (Some newNotifications) None)
       st,
     [])
  end.

(** [handleProcessBinaryQueue].  [None]: the handler throws, reading
    [winner.id] of [undefined]. *)
Definition handleProcessBinaryQueue (systemConfig : SystemConfig.t)
    (now : Z) (isoNow : string) (st : UserData.t) : option UserData.t :=
  let binaryData := UserData.binaryData st in
  let profile := UserData.profile st in
  let notifications := UserData.notifications st in
  let qualifiedUserFound :=
    existsb QueueUser.isQualified (BinaryData.matchingQueue binaryData) in
  if negb qualifiedUserFound then
    Some (onUpdateUserData
            (Updates.mk None None None None
               (Some (Notification.mk ("n" ++ JS.numberToString now)
                        Notification.system
                        "Binary queue process ran, but no qualified users were found."
                        now false
                      :: notifications))
               None)
            st)
  else
    let queue := BinaryData.matchingQueue binaryData in
    let firstQualifiedIndex := JS.findIndex QueueUser.isQualified queue in
    let usersToRequeue := JS.slice queue 0 firstQualifiedIndex in
    let remainingQueue := JS.sliceFrom queue (firstQualifiedIndex + 1) in
    let newQueue :=
      JS.mapi (fun user index =>
                 QueueUser.with_queuePosition user (index + 1))
              (remainingQueue ++ usersToRequeue)%list in
    let newMatch :=
      MatchedPair.mk
        (Z.of_nat (List.length (BinaryData.matchedPairs binaryData))
         + Z.of_nat (List.length (BinaryData.pendingPairs binaryData)) + 1)
        ["System Match L"] ["System Match R"] isoNow
        (SystemConfig.binaryAmount systemConfig) MatchedPair.paid in
    match JS.at_ queue firstQualifiedIndex with
    | None => None
    | Some winner =>
      let isCurrentUserWinner :=
        String.eqb (QueueUser.id winner) (UserProfile.id profile) in
      let newNotifications :=
        (Notification.mk ("n_win_" ++ JS.numberToString now)
           Notification.income
           ("User " ++ dq ++ QueueUser.name winner ++ dq
              ++ " received a binary match.")
           now false
         :: (if existsb (fun u => String.eqb (QueueUser.id u)
                                             (UserProfile.id profile))
                        usersToRequeue
             then [Notification.mk ("n_skip_" ++ JS.numberToString now)
                     Notification.system
                     "You missed a binary match as you were not qualified."
                     now false]
             else []))%list in
      let currentUserNewPosition :=
        JS.findIndex (fun u => String.eqb (QueueUser.id u)
                                          (UserProfile.id profile))
                     newQueue + 1 in
      Some (onUpdateUserData
              (Updates.mk None None None None
                 (Some (newNotifications ++ notifications)%list)
                 (Some (BinaryData.mk (BinaryData.leftTeam binaryData)
                          (BinaryData.rightTeam binaryData)
                          (if isCurrentUserWinner
                           then (BinaryData.matchedPairs binaryData
                                 ++ [newMatch])%list
                           else BinaryData.matchedPairs binaryData)
                          (BinaryData.pendingPairs binaryData)
                          newQueue
                          (if currentUserNewPosition >? 0
                           then currentUserNewPosition
                           else BinaryData.currentUserPosition binaryData))))
              st)
    end.


(** [handleUpdatePayment] *)
Definition handleUpdatePayment (id : string) (field : paymentField)
    (value : string) (st : UserData.t) : UserData.t :=
  let newPayments :=
    map (fun p => if String.eqb (Payment.id p) id
                  then setField p field value else p)
        (UserData.paymentsData st) in
  onUpdateUserData (Updates.mk (Some newPayments) None None None None None)
                   st.

(** [handleConfirmPayment]; [toLowerCase] is [String.prototype.toLowerCase]. *)
Definition handleConfirmPayment (toLowerCase : string -> string)
    (now : Z) (isoNow : string) (confirmationId : string)
    (st : UserData.t) : UserData.t :=
  match find (fun c => String.eqb (Confirmation.id c) confirmationId)
             (UserData.pendingConfirmations st) with
  | None => st
  | Some confirmation =>
    let newPayments :=
      map (fun p => if idIs (Confirmation.paymentId confirmation) p
                    then Payment.with_status p Payment.confirmed else p)
          (UserData.paymentsData st) in
    let newTransaction :=
      Transaction.mk isoNow
        (toLowerCase (firstWord (Confirmation.type confirmation)))
        ("Payment from " ++ Confirmation.senderName confirmation)
        (Confirmation.amount confirmation) "confirmed" in
    let newNotification :=
      Notification.mk ("n" ++ JS.numberToString now)
        Notification.payment_confirmed
        ("Your payment for " ++ dq ++ Confirmation.paymentTitle confirmation
           ++ dq ++ " was approved.")
        now false in
    onUpdateUserData
      (Updates.mk (Some newPayments)
         (Some (filter (fun c => negb (String.eqb (Confirmation.id c)
                                                  confirmationId))
                       (UserData.pendingConfirmations st)))
         (Some (newTransaction :: UserData.transactionsData st))
         None
         (Some (newNotification :: UserData.notifications st))
         None)
      st
  end.

(** [handleResolveDispute] *)
Definition handleResolveDispute (now : Z) (disputeId : string) (f : favor)
    (st : UserData.t) : UserData.t :=
  match find (fun d => String.eqb (Confirmation.id d) disputeId)
             (UserData.disputes st) with
  | None => st
  | Some dispute =>
    let newPayments :=
      map (fun p =>
             if idIs (Confirmation.paymentId dispute) p then
               match f with
               | sender => Payment.with_status p Payment.confirmed
               | receiver => Payment.reset p now
               end
             else p)
          (UserData.paymentsData st) in
    onUpdateUserData
      (Updates.mk (Some newPayments) None None
         (Some (filter (fun d => negb (String.eqb (Confirmation.id d)
                                                  disputeId))
                       (UserData.disputes st)))
         None None)
      st
  end.

(** [handleQualifyForBinary]: [onUpdateUserData({ sponsorData: ... })]. *)
Definition handleQualifyForBinary (st : UserData.t) : UserData.t :=
  UserData.set_sponsorData st
    (SponsorData.mk (map markPaid
                         (SponsorData.directs (UserData.sponsorData st)))).

(** [handleMarkNotificationRead] *)
Definition handleMarkNotificationRead (notificationId : string)
    (st : UserData.t) : UserData.t :=
  onUpdateUserData
    (Updates.mk None None None None
       (Some (map (fun n => if String.eqb (Notification.id n) notificationId
                            then markRead n else n)
                  (UserData.notifications st)))
       None)
    st.

(** [handleMarkAllNotificationsRead] *)
Definition handleMarkAllNotificationsRead (st : UserData.t) : UserData.t :=
  onUpdateUserData
    (Updates.mk None None None None
       (Some (map markRead (UserData.notifications st))) None)
    st.

(** [paymentsData.every(p => p.status === 'confirmed')] *)
Definition isAccountActive (st : UserData.t) : bool :=
  forallb (fun p => Payment.status_eqb (Payment.status p) Payment.confirmed)
          (UserData.paymentsData st).

End Dashboard.

(** ** Selecting one of the two implementations *)

Inductive page : Type := HomePage | DashboardPage.

Definition localParticipant (pg : page) (st : UserData.t) : string :=
  match pg with
  | HomePage => Home.currentUser
  | DashboardPage => UserProfile.id (UserData.profile st)
  end.

(** The configured timer duration, in milliseconds. *)
Definition timerDuration (pg : page) (systemConfig : SystemConfig.t) : Z :=
  match pg with
  | HomePage => Home.PAYMENT_TIMER_DURATION
  | DashboardPage => Dashboard.paymentTimerDurationMs systemConfig
  end.

Definition processQueue (pg : page) (toLocaleString : Z -> string)
    (systemConfig : SystemConfig.t) (now : Z) (isoNow : string)
    (st : UserData.t) : option UserData.t :=
  match pg with
  | HomePage =>
    Home.handleProcessBinaryQueue toLocaleString systemConfig now isoNow st
  | DashboardPage =>
    Dashboard.handleProcessBinaryQueue systemConfig now isoNow st
  end.

Definition expirePayments (pg : page) (systemConfig : SystemConfig.t)
    (now : Z) (st : UserData.t) : UserData.t :=
  match pg with
  | HomePage => Home.timerInterval now st
  | DashboardPage => Dashboard.timerInterval systemConfig now st
  end.

Definition expireConfirmations (pg : page) (systemConfig : SystemConfig.t)
    (now : Z) (st : UserData.t) : UserData.t :=
  match pg with
  | HomePage => Home.confirmationTimerInterval now st
  | DashboardPage => Dashboard.confirmationTimerInterval systemConfig now st
  end.

Definition submit (pg : page) (now : Z) (isoNow : string)
    (payment : Payment.t) (st : UserData.t) : UserData.t :=
  match pg with
  | HomePage => Home.handleSubmitPayment now isoNow payment st
  | DashboardPage => Dashboard.handleSubmitPayment now isoNow payment st
  end.

Definition reject (pg : page) (now : Z) (confirmationId : string)
    (st : UserData.t) : UserData.t :=
  match pg with
  | HomePage => Home.handleRejectPayment now confirmationId st
  | DashboardPage => Dashboard.handleRejectPayment now confirmationId st
  end.

Definition onQualificationChange (pg : page) (toLocaleString : Z -> string)
    (now : Z) (isoNow : string) (prevIsQualifiedRef : bool)
    (st : UserData.t) : bool * UserData.t :=
  match pg with
  | HomePage =>
    Home.qualificationEffect toLocaleString now isoNow prevIsQualifiedRef st
  | DashboardPage =>
    Dashboard.qualificationEffect toLocaleString now isoNow
                                  prevIsQualifiedRef st
  end.

(** ** Vocabulary of the statements *)

Definition queueOf (st : UserData.t) : list QueueUser.t :=
  BinaryData.matchingQueue (UserData.binaryData st).

(** [k] is the smallest index of a qualified entrant of [q], and [w] is the
    entrant there. *)
Definition firstQualifiedAt (q : list QueueUser.t) (k : nat) (w : QueueUser.t)
  : Prop :=
  nth_error q k = Some w
  /\ QueueUser.isQualified w = true
  /\ forall j u, (j < k)%nat -> nth_error q j = Some u ->
                 QueueUser.isQualified u = false.

(** [dst] is [src] with the entrant at every index [i] given
    [queuePosition = i + 1] and nothing else changed. *)
Definition renumbered (src dst : list QueueUser.t) : Prop :=
  List.length dst = List.length src
  /\ forall i u, nth_error src i = Some u ->
                 nth_error dst i
                 = Some (QueueUser.with_queuePosition u (Z.of_nat i + 1)).

(** The positions [1 .. n]. *)
Definition positions (n : nat) : list Z := map Z.of_nat (seq 1 n).

(** The queue both handlers build when the winner is at index [k]: the
    entrants after [k], then the entrants before [k], numbered from 1. *)
Definition rotation (q : list QueueUser.t) (k : nat) : list QueueUser.t :=
  JS.mapi (fun user index => QueueUser.with_queuePosition user (index + 1))
          (skipn (S k) q ++ firstn k q).

(** The pair [handleProcessBinaryQueue] constructs. *)
Definition newMatchOf (systemConfig : SystemConfig.t) (isoNow : string)
    (bd : BinaryData.t) : MatchedPair.t :=
  MatchedPair.mk
    (Z.of_nat (List.length (BinaryData.matchedPairs bd))
     + Z.of_nat (List.length (BinaryData.pendingPairs bd)) + 1)
    ["System Match L"] ["System Match R"] isoNow
    (SystemConfig.binaryAmount systemConfig) MatchedPair.paid.

(** Index test for the local participant. *)
Definition isLocal (pg : page) (st : UserData.t) (u : QueueUser.t) : bool :=
  String.eqb (QueueUser.id u) (localParticipant pg st).

(** The text of the notification that names the winner. *)
Definition winAnnouncement (pg : page) (toLocaleString : Z -> string)
    (systemConfig : SystemConfig.t) (winner : QueueUser.t) : string :=
  match pg with
  | HomePage =>
    if String.eqb (QueueUser.id winner) Home.currentUser
    then "Congratulations! You received a binary match of ₹"
           ++ toLocaleString (SystemConfig.binaryAmount systemConfig)
           ++ " from the global queue."
    else "User " ++ dq ++ QueueUser.name winner ++ dq
           ++ " received a binary match from the global queue."
  | DashboardPage =>
    "User " ++ dq ++ QueueUser.name winner ++ dq
      ++ " received a binary match."
  end%string.

(** The payment-expiry sweep is due on [p]: it is unpaid, not the admin fee,
    carries an assigned timestamp (neither [null] nor [0]) and the clock has
    passed that timestamp plus the duration. *)
Definition dueToExpire (duration now : Z) (p : Payment.t) : Prop :=
  Payment.status p = Payment.unpaid
  /\ Payment.type p <> "admin"%string
  /\ exists t, Payment.assignedTimestamp p = Some t /\ t <> 0
               /\ now > t + duration.

(** The payment carries a clock reading as its [assignedTimestamp]: the
    field is written from [Date.now()] only, when the payment is created and
    when it is reset. *)
Definition stamped (p : Payment.t) : Prop :=
  exists t, Payment.assignedTimestamp p = Some t /\ t <> 0.

(** [p'] is the same slot as [p]: it agrees with [p] on every field but
    [status], [transactionId], [proof] and [assignedTimestamp]. *)
Definition sameSlot (p p' : Payment.t) : Prop :=
  Payment.id p' = Payment.id p
  /\ Payment.title p' = Payment.title p
  /\ Payment.amount p' = Payment.amount p
  /\ Payment.description p' = Payment.description p
  /\ Payment.receiverContact p' = Payment.receiverContact p
  /\ Payment.type p' = Payment.type p
  /\ Payment.iconClass p' = Payment.iconClass p
  /\ Payment.qrCodeUrl p' = Payment.qrCodeUrl p
  /\ Payment.bankAccount p' = Payment.bankAccount p
  /\ Payment.upiId p' = Payment.upiId p
  /\ Payment.usdtAddress p' = Payment.usdtAddress p
  /\ Payment.receiverId p' = Payment.receiverId p
  /\ Payment.uniqueUsdtAmount p' = Payment.uniqueUsdtAmount p.

(** Every aggregate other than the payments and the pending confirmations is
    the same in [s] and [s']. *)
Definition sameElsewhere (s s' : UserData.t) : Prop :=
  UserData.profile s' = UserData.profile s
  /\ UserData.transactionsData s' = UserData.transactionsData s
  /\ UserData.disputes s' = UserData.disputes s
  /\ UserData.notifications s' = UserData.notifications s
  /\ UserData.binaryData s' = UserData.binaryData s
  /\ UserData.sponsorData s' = UserData.sponsorData s
  /\ UserData.allUsers s' = UserData.allUsers s.

(** What holds of the flag recorded in [prevIsQualifiedRef] and of the state
    between two runs of the qualification effect.  The pending pairs (seeded
    non-empty, emptied by the payout alone) are gone only once [true] is
    recorded, and once [true] is recorded the participant is qualified (the
    sponsor data is written by [handleQualifyForBinary] alone, which only
    marks directs paid). *)
Definition payoutPending (prev : bool) (st : UserData.t) : Prop :=
  (BinaryData.pendingPairs (UserData.binaryData st) = [] -> prev = true)
  /\ (prev = true ->
      isQualifiedForBinary (UserData.sponsorData st) = true).

(** A pending pair once paid out at [isoNow]. *)
Definition paidOut (isoNow : string) (p : MatchedPair.t) : MatchedPair.t :=
  MatchedPair.mk (MatchedPair.pairNumber p) (MatchedPair.leftUsers p)
    (MatchedPair.rightUsers p) isoNow (MatchedPair.amount p)
    MatchedPair.paid.

(** The ledger line of a paid-out pair. *)
Definition payoutLine (isoNow : string) (p : MatchedPair.t) : Transaction.t :=
  Transaction.mk isoNow "binary"
    ("Pending match #" ++ JS.numberToString (MatchedPair.pairNumber p)
       ++ " paid out")%string
    (MatchedPair.amount p) "paid".

(** The lump-sum notification. *)
Definition payoutNotice (toLocaleString : Z -> string) (now : Z)
    (pending : list MatchedPair.t) : Notification.t :=
  Notification.mk ("n" ++ JS.numberToString now) Notification.income
    ("Congratulations! You've qualified for binary income. Pending income of ₹"
       ++ toLocaleString (totalAmount pending) ++ " has been paid out.")
    now false.

(** The payment a confirmation is about: the first stored payment whose id
    is the confirmation's [paymentId], if any. *)
Definition underlying (payments : list Payment.t) (c : Confirmation.t)
  : option Payment.t :=
  JS.at_ payments (JS.findIndex (idIs (Confirmation.paymentId c)) payments).

(** An upline (matrix) slot. *)
Definition isMatrix (p : Payment.t) : bool :=
  JS.startsWith (Payment.type p) "upline".

(** The confirmation is about a stored upline slot. *)
Definition escalates (payments : list Payment.t) (c : Confirmation.t) : bool :=
  match underlying payments c with
  | Some p => isMatrix p
  | None => false
  end.

(** What the sweep of [src/Home.tsx] makes of a payment with an expired
    confirmation. *)
Definition settled (now : Z) (p : Payment.t) : Payment.t :=
  if isMatrix p then Payment.with_status p Payment.disputed
  else Payment.reset p now.

(** [c] is about the payment stored at index [i]. *)
Definition targets (payments : list Payment.t) (i : nat) (c : Confirmation.t)
  : bool :=
  JS.findIndex (idIs (Confirmation.paymentId c)) payments =? Z.of_nat i.

(** [after] is [before] with [g] applied to exactly the payments that have
    the id of [payment]. *)
Definition updatedFor (payment : Payment.t) (g : Payment.t -> Payment.t)
    (before after : list Payment.t) : Prop :=
  after = map (fun p => if String.eqb (Payment.id p) (Payment.id payment)
                        then g p else p) before.

(** [c] is about an upline slot whose receiver is [x]. *)
Definition holds (payments : list Payment.t) (x : string) (c : Confirmation.t)
  : bool :=
  match underlying payments c with
  | Some p => isMatrix p && String.eqb x (Payment.receiverId p)
  | None => false
  end.

(** The loop of the sweep of [src/Home.tsx], started on [payments0], after
    it has gone through the confirmations [processed]. *)
Definition sweepInv (now : Z) (payments0 : list Payment.t)
    (processed : list Confirmation.t) (acc : Home.sweep) : Prop :=
  List.length (Home.newPayments acc) = List.length payments0
  /\ (forall i p, nth_error payments0 i = Some p ->
                  nth_error (Home.newPayments acc) i
                  = Some (if existsb (targets payments0 i) processed
                          then settled now p else p))
  /\ Home.newDisputes acc = filter (escalates payments0) processed
  /\ (forall x,
        JS.includes (Home.usersToPutOnHold acc) x
        = existsb (holds payments0 x) processed).

(** The crypto verification is switched on and has its key and address. *)
Definition configured (systemConfig : SystemConfig.t) : bool :=
  SystemConfig.enableCryptoVerification systemConfig
  && JS.truthyString (SystemConfig.bscScanApiKey systemConfig)
  && JS.truthyString (SystemConfig.cryptoReceivingAddress systemConfig).

(** The ledger line of an auto-verified payment. *)
Definition autoVerifiedLine (isoNow : string) (payment : Payment.t)
  : Transaction.t :=
  Transaction.mk isoNow (Payment.type payment)
    ("Auto-verified: " ++ Payment.title payment)%string
    (Payment.amount payment) "confirmed".

(** The notification [addErrorNotification] builds. *)
Definition errorNotice (message : string) (now : Z) : Notification.t :=
  Notification.mk ("n_err_" ++ JS.numberToString now) Notification.error
                  message now false.

(** ** Sample data *)

Module Sample.

Definition entrant (id name : string) (pos : Z) (q : bool) : QueueUser.t :=
  QueueUser.mk id name "" "2024-02-21 10:00" pos q.

(** The queue [A (unqualified), B (qualified), C (unqualified)]. *)
Definition queue : list QueueUser.t :=
  [entrant "A" "Ann" 1 false; entrant "B" "Bob" 2 true;
   entrant "C" "Cid" 3 false].

Definition config : SystemConfig.t :=
  SystemConfig.mk 1000 1000 500 500 2 "" "" false 12.

Definition pair (n : Z) (s : MatchedPair.status_t) : MatchedPair.t :=
  MatchedPair.mk n ["L"] ["R"] "2024-02-20 09:00" 1000 s.

Definition binary (q : list QueueUser.t) (me : Z) : BinaryData.t :=
  BinaryData.mk [] [] [pair 1 MatchedPair.paid] [pair 2 MatchedPair.pending]
                q me.

Definition payment (id type : string) (s : Payment.status_t) (tx : string)
    (proof : option string) (ts : option Z) : Payment.t :=
  Payment.mk id "title" 500 "" "+91" type "fa" s tx proof "qr"
    (Payment.mkBank "n" "1" "i") "upi" "0x" ts "U1" None.

Definition confirmation (id pid : string) (submitted : Z) : Confirmation.t :=
  Confirmation.mk id (Some pid) "John" 500 "TX" (Some "img") "d" "title"
                  submitted "U1" "title".

Definition user (id : string) : AdminUser.t :=
  AdminUser.mk id "n" "" "" 0 8 "" AdminUser.active [].

Definition state (me : string) (payments : list Payment.t)
    (confs : list Confirmation.t) (q : list QueueUser.t) : UserData.t :=
  UserData.mk (UserProfile.mk me "John") payments confs [] [] []
    (binary q 3) (SponsorData.mk []) [user "U1"; user "U2"].

Definition sponsors : SponsorData.t :=
  SponsorData.mk [SponsorData.mkDirect "2024-01-01" "Lea" "left" 1000 "paid";
                  SponsorData.mkDirect "2024-01-02" "Rob" "right" 1000 "paid"].

(** A participant with a paid direct on each leg. *)
Definition qualified (pending : list MatchedPair.t) : UserData.t :=
  UserData.mk (UserProfile.mk "me" "John") [] [] [] [] []
    (BinaryData.mk [] [] [pair 1 MatchedPair.paid] pending queue 3)
    sponsors [].

Definition cryptoConfig : SystemConfig.t :=
  SystemConfig.mk 1000 1000 500 500 2 "KEY" "0xabc" true 12.

Definition clock : Z := 1700000000000.
Definition iso : string := "2023-11-14 22:13".

End Sample.

(** ** Further handlers, by page *)

Definition updatePayment (pg : page) (id : string) (field : paymentField)
    (value : string) (st : UserData.t) : UserData.t :=
  match pg with
  | HomePage => Home.handleUpdatePayment id field value st
  | DashboardPage => Dashboard.handleUpdatePayment id field value st
  end.

Definition confirm (pg : page) (toLowerCase : string -> string) (now : Z)
    (isoNow : string) (confirmationId : string) (st : UserData.t)
  : UserData.t :=
  match pg with
  | HomePage =>
    Home.handleConfirmPayment toLowerCase now isoNow confirmationId st
  | DashboardPage =>
    Dashboard.handleConfirmPayment toLowerCase now isoNow confirmationId st
  end.

Definition resolveDispute (pg : page) (now : Z) (disputeId : string)
    (f : favor) (st : UserData.t) : UserData.t :=
  match pg with
  | HomePage => Home.handleResolveDispute now disputeId f st
  | DashboardPage => Dashboard.handleResolveDispute now disputeId f st
  end.

Definition qualifyForBinary (pg : page) (st : UserData.t) : UserData.t :=
  match pg with
  | HomePage => Home.handleQualifyForBinary st
  | DashboardPage => Dashboard.handleQualifyForBinary st
  end.

Definition markNotificationRead (pg : page) (notificationId : string)
    (st : UserData.t) : UserData.t :=
  match pg with
  | HomePage => Home.handleMarkNotificationRead notificationId st
  | DashboardPage => Dashboard.handleMarkNotificationRead notificationId st
  end.

Definition markAllNotificationsRead (pg : page) (st : UserData.t)
  : UserData.t :=
  match pg with
  | HomePage => Home.handleMarkAllNotificationsRead st
  | DashboardPage => Dashboard.handleMarkAllNotificationsRead st
  end.

Definition isAccountActive (pg : page) (st : UserData.t) : bool :=
  match pg with
  | HomePage => Home.isAccountActive st
  | DashboardPage => Dashboard.isAccountActive st
  end.

(** ** The header, the confirmations tab and the join tab *)

Module Header.

(** [notifications.filter(n => !n.isRead).length] *)
Definition unreadCount (notifications : list Notification.t) : Z :=
  Z.of_nat (List.length
              (filter (fun n => negb (Notification.isRead n)) notifications)).

(** The [onClick] of an item of the notification panel:
    [!n.isRead && onMarkAsRead(n.id)]. *)
Definition clickItem (onMarkAsRead : string -> UserData.t -> UserData.t)
    (n : Notification.t) (st : UserData.t) : UserData.t :=
  if negb (Notification.isRead n) then onMarkAsRead (Notification.id n) st
  else st.

End Header.

Module ConfirmationsTab.

Inductive action : Type := actConfirm | actReject.

(** The part of [dialogState] the confirm button reads. *)
Record dialogState : Type := mkDialog {
  dialogAction : option action;
  confirmationId : option string
}.

(** [openConfirmationDialog(action, confirmation)] *)
Definition openConfirmationDialog (a : action) (c : Confirmation.t)
  : dialogState :=
  mkDialog (Some a) (Some (Confirmation.id c)).

(** [handleDialogConfirm]: calls [onConfirm] or [onReject] when the dialog
    holds an action and a non-empty id, and closes the dialog. *)
Definition handleDialogConfirm (d : dialogState)
    (onConfirm onReject : string -> UserData.t -> UserData.t)
    (st : UserData.t) : dialogState * UserData.t :=
  (mkDialog None None,
   match dialogAction d, confirmationId d with
   | Some a, Some cid =>
     if JS.truthyString cid then
       match a with
       | actConfirm => onConfirm cid st
       | actReject => onReject cid st
       end
     else st
   | _, _ => st
   end).

End ConfirmationsTab.

Module JoinTabView.

(** [payments.find(p => p.status !== 'confirmed')], then its id: the value
    the effect stores in [activePaymentId]. *)
Definition activePaymentId (payments : list Payment.t) : option string :=
  match find (fun p => negb (Payment.status_eqb (Payment.status p)
                                                Payment.confirmed))
             payments with
  | Some firstUnconfirmed => Some (Payment.id firstUnconfirmed)
  | None => None
  end.

(** [payments.filter(p => p.status === 'confirmed').length] *)
Definition confirmedCount (payments : list Payment.t) : Z :=
  Z.of_nat (List.length
              (filter (fun p => Payment.status_eqb (Payment.status p)
                                                   Payment.confirmed)
                      payments)).

End JoinTabView.

(** ** Further sample data *)

Module Scenario.

(** An upline payment awaiting confirmation, and its confirmation. *)
Definition upline : Payment.t :=
  Sample.payment "pay_up1" "upline1" Payment.pending "TX" (Some "img")
                 (Some 5).

Definition uplineConf : Confirmation.t :=
  Sample.confirmation "conf_7" "pay_up1" 7.

Definition awaiting : UserData.t :=
  Sample.state "me" [upline] [uplineConf] [].

(** An unpaid referral payment with nothing filled in. *)
Definition blank : Payment.t :=
  Sample.payment "pay_ref" "referral" Payment.unpaid "" None (Some 5).

Definition fresh : UserData.t := Sample.state "me" [blank] [] [].

(** Two pending confirmations that carry the same id and name different
    payments. *)
Definition referral : Payment.t :=
  Sample.payment "pay_ref" "referral" Payment.pending "TX" (Some "img")
                 (Some 5).

Definition referralConf : Confirmation.t :=
  Sample.confirmation "conf_7" "pay_ref" 7.

Definition twins : UserData.t :=
  Sample.state "me" [upline; referral] [uplineConf; referralConf] [].


(** Six entrants, the last of them qualified: two pages of the queue. *)
Definition sixEntrants : list QueueUser.t :=
  [Sample.entrant "A" "Ann" 1 false; Sample.entrant "B" "Bob" 2 false;
   Sample.entrant "C" "Cid" 3 false; Sample.entrant "D" "Dee" 4 false;
   Sample.entrant "E" "Eve" 5 false; Sample.entrant "F" "Fay" 6 true].

End Scenario.

(** ** The binary tab of [src/Home.tsx] *)

Module BinaryTab.

(** [binaryData.matchedPairs.reduce((sum, pair) => sum + pair.amount, 0)] *)
Definition totalBinaryIncome (binaryData : BinaryData.t) : Z :=
  fold_left (fun sum pair => sum + MatchedPair.amount pair)
            (BinaryData.matchedPairs binaryData) 0.

(** [binaryData.pendingPairs.reduce((sum, pair) => sum + pair.amount, 0)] *)
Definition totalPendingIncome (binaryData : BinaryData.t) : Z :=
  fold_left (fun sum pair => sum + MatchedPair.amount pair)
            (BinaryData.pendingPairs binaryData) 0.

Definition itemsPerPage : Z := 5.

(** [Math.ceil(binaryData.matchingQueue.length / itemsPerPage)] *)
Definition totalPages (binaryData : BinaryData.t) : Z :=
  Qceiling (inject_Z (Z.of_nat (List.length
                                  (BinaryData.matchingQueue binaryData)))
            / inject_Z itemsPerPage).

Definition startIndex (currentPage : Z) : Z :=
  (currentPage - 1) * itemsPerPage.

Definition endIndex (currentPage : Z) : Z :=
  startIndex currentPage + itemsPerPage.

(** [binaryData.matchingQueue.slice(startIndex, endIndex)] *)
Definition currentQueueItems (binaryData : BinaryData.t) (currentPage : Z)
  : list QueueUser.t :=
  JS.slice (BinaryData.matchingQueue binaryData) (startIndex currentPage)
           (endIndex currentPage).


End BinaryTab.

Module PaginationControls.

(** [if (totalPages <= 1) return null] *)
Definition rendered (totalPages : Z) : bool := negb (totalPages <=? 1).

Inductive button : Type := previous | next.

(** The page after a click: the previous button is disabled on page 1, the
    next button on the last page, and without controls there is nothing to
    click. *)
Definition click (currentPage totalPages : Z) (b : button) : Z :=
  if rendered totalPages then
    match b with
    | previous =>
      if currentPage =? 1 then currentPage else currentPage - 1
    | next =>
      if currentPage =? totalPages then currentPage else currentPage + 1
    end
  else currentPage.

End PaginationControls.

(** [processQueue] called [n] times in a row. *)
Fixpoint processQueueTimes (n : nat) (pg : page)
    (toLocaleString : Z -> string) (systemConfig : SystemConfig.t)
    (now : Z) (isoNow : string) (st : UserData.t) : option UserData.t :=
  match n with
  | O => Some st
  | S m =>
    match processQueue pg toLocaleString systemConfig now isoNow st with
    | Some st1 =>
      processQueueTimes m pg toLocaleString systemConfig now isoNow st1
    | None => None
    end
  end.

(** The number of qualified entrants of a queue. *)
Definition qualifiedCount (q : list QueueUser.t) : nat :=
  List.length (filter QueueUser.isQualified q).

(** The ids of the unqualified entrants of a queue, in queue order. *)
Definition unqualifiedIds (q : list QueueUser.t) : list string :=
  map QueueUser.id (filter (fun u => negb (QueueUser.isQualified u)) q).

(** ** Numbers on the screen

    The two components below divide and round integers of milliseconds and
    seconds.  The divisions are taken in exact rational arithmetic. *)

Module JSMath.

(** [Math.trunc]: rounding toward zero, used by the remainder below. *)
Definition trunc (x : Q) : Z :=
  if Qle_bool 0 x then Qfloor x else Qceiling x.

(** [x % y]: the remainder has the sign of the dividend. *)
Definition rem (x y : Q) : Q := (x - y * inject_Z (trunc (x / y)))%Q.

(** [s.padStart(targetLength, c)] for a one-character pad string. *)
Definition padStart (s : string) (targetLength : nat) (c : Ascii.ascii)
  : string :=
  (string_of_list_ascii (repeat c (targetLength - String.length s)) ++ s)
    %string.

End JSMath.

(** [CountdownTimer] of [src/Home.tsx]. *)
Module CountdownTimer.

(** [useState(expiryTimestamp - Date.now())] *)
Definition initial (expiryTimestamp now : Z) : Z := expiryTimestamp - now.

(** One run of the interval callback: the new [timeLeft], and whether the
    interval is cleared. *)
Definition tick (expiryTimestamp now : Z) : Z * bool :=
  let remaining := expiryTimestamp - now in
  (if remaining >? 0 then remaining else 0, remaining <=? 0).

(** [Math.floor((timeLeft / (1000 * 60 * 60)))] *)
Definition hours (timeLeft : Z) : Z :=
  Qfloor (inject_Z timeLeft / inject_Z (1000 * 60 * 60)).

(** [Math.floor((timeLeft / 1000 / 60) % 60)] *)
Definition minutes (timeLeft : Z) : Z :=
  Qfloor (JSMath.rem (inject_Z timeLeft / inject_Z 1000 / inject_Z 60)
                     (inject_Z 60)).

(** [Math.floor((timeLeft / 1000) % 60)] *)
Definition seconds (timeLeft : Z) : Z :=
  Qfloor (JSMath.rem (inject_Z timeLeft / inject_Z 1000) (inject_Z 60)).

Definition zero : Ascii.ascii := Ascii.ascii_of_nat 48.

(** The text of the timer: the three numbers padded to two characters. *)
Definition display (timeLeft : Z) : string :=
  JSMath.padStart (JS.numberToString (hours timeLeft)) 2 zero ++ ":"
  ++ JSMath.padStart (JS.numberToString (minutes timeLeft)) 2 zero ++ ":"
  ++ JSMath.padStart (JS.numberToString (seconds timeLeft)) 2 zero.

End CountdownTimer.

(** [TimeAgo] of [src/unnamed/part_001]. *)
Module TimeAgo.

(** [interval > 1] *)
Definition above1 (interval : Q) : bool := negb (Qle_bool interval 1).

(** The text set by [update] when the clock reads [now]. *)
Definition update (now timestamp : Z) : string :=
  let seconds := Qfloor (inject_Z (now - timestamp) / inject_Z 1000) in
  let interval := (inject_Z seconds / inject_Z 31536000)%Q in
  if above1 interval
  then JS.numberToString (Qfloor interval) ++ "y ago" else
  let interval := (inject_Z seconds / inject_Z 2592000)%Q in
  if above1 interval
  then JS.numberToString (Qfloor interval) ++ "mo ago" else
  let interval := (inject_Z seconds / inject_Z 86400)%Q in
  if above1 interval
  then JS.numberToString (Qfloor interval) ++ "d ago" else
  let interval := (inject_Z seconds / inject_Z 3600)%Q in
  if above1 interval
  then JS.numberToString (Qfloor interval) ++ "h ago" else
  let interval := (inject_Z seconds / inject_Z 60)%Q in
  if above1 interval
  then JS.numberToString (Qfloor interval) ++ "m ago" else
  "Just now".

End TimeAgo.

(** ** The accounts of [src/unnamed/part_000]

    The top-level component of [src/unnamed/part_000] keeps every user's data in one
    database object and shows the dashboard of the user logged in. *)

Module JSObject.

(** A plain object used as a map from strings: its own properties, in
    insertion order. *)
Definition t (A : Type) : Type := list (string * A).

(** The property names every plain object inherits from
    [Object.prototype]; all of them are truthy. *)
Definition prototypeKeys : list string :=
  ["constructor"; "__proto__"; "hasOwnProperty"; "isPrototypeOf";
   "propertyIsEnumerable"; "toLocaleString"; "toString"; "valueOf";
   "__defineGetter__"; "__defineSetter__"; "__lookupGetter__";
   "__lookupSetter__"].

(** What [obj[key]] evaluates to. *)
Inductive slot (A : Type) : Type :=
| own (v : A)
| inherited
| undefined.

Arguments inherited {A}.
Arguments undefined {A}.

Fixpoint getOwn {A} (o : t A) (key : string) : option A :=
  match o with
  | [] => None
  | (k, v) :: rest => if String.eqb k key then Some v else getOwn rest key
  end.

(** [obj[key]] *)
Definition get {A} (o : t A) (key : string) : slot A :=
  match getOwn o key with
  | Some v => own v
  | None => if JS.includes prototypeKeys key then inherited else undefined
  end.

(** Truthiness of [obj[key]] when the own values are objects. *)
Definition truthy {A} (s : slot A) : bool :=
  match s with
  | undefined => false
  | _ => true
  end.

(** [obj[key] = v], and [{ ...obj, [key]: v }]: an existing own property
    keeps its place, a new one goes last. *)
Fixpoint set {A} (o : t A) (key : string) (v : A) : t A :=
  match o with
  | [] => [(key, v)]
  | (k, x) :: rest =>
    if String.eqb k key then (k, v) :: rest else (k, x) :: set rest key v
  end.

End JSObject.

Module Account.
Record t : Type := mk {
  password : string;
  userId : string
}.
End Account.

(** The fields of the database the handlers below read or write. *)
Module AppDatabase.
Record t : Type := mk {
  accounts : JSObject.t Account.t;
  users : JSObject.t UserData.t;
  systemConfig : SystemConfig.t
}.
End AppDatabase.

(** The fields of the signup form that [handleSignup] reads. *)
Module FormData.
Record t : Type := mk {
  fullName : string;
  email : string;
  password : string
}.
End FormData.

(** The top-level component of [src/unnamed/part_000] (named [Home] there). *)
Module App.

(** The state cells [db], [currentUserId] and [publicView]. *)
Record t : Type := mk {
  db : AppDatabase.t;
  currentUserId : option string;
  publicView : string
}.

Definition set_currentUserId (s : t) (c : option string) : t :=
  mk (db s) c (publicView s).

Definition invalidLogin : string := "Invalid email or password.".

Definition emailTaken : string :=
  "An account with this email already exists.".

(** [handleLogin]: the new state and the text alerted, if any.  For an
    inherited property [account.password] is [undefined]. *)
Definition handleLogin (email password : string) (s : t)
  : t * option string :=
  match JSObject.get (AppDatabase.accounts (db s)) email with
  | JSObject.own account =>
    if String.eqb (Account.password account) password
    then (set_currentUserId s (Some (Account.userId account)), None)
    else (s, Some invalidLogin)
  | _ => (s, Some invalidLogin)
  end.

(** [`user_${Date.now()}`] *)
Definition newUserIdAt (now : Z) : string := "user_" ++ JS.numberToString now.

(** [handleSignup].  [newUser] is the record [generateNewUserData] returns
    for the new id; its random draws are not part of the model. *)
Definition handleSignup (formData : FormData.t) (now : Z)
    (newUser : UserData.t) (s : t) : t * option string :=
  if JSObject.truthy (JSObject.get (AppDatabase.accounts (db s))
                                   (FormData.email formData))
  then (s, Some emailTaken)
  else
    let newUserId := newUserIdAt now in
    let prevDb := db s in
    let newDb :=
      AppDatabase.mk
        (JSObject.set (AppDatabase.accounts prevDb)
                      (FormData.email formData)
                      (Account.mk (FormData.password formData) newUserId))
        (JSObject.set (AppDatabase.users prevDb) newUserId newUser)
        (AppDatabase.systemConfig prevDb) in
    (mk newDb (Some newUserId) (publicView s), None).

(** [handleLogout] *)
Definition handleLogout (s : t) : t := mk (db s) None "landing".

(** [!currentUserId] is false *)
Definition loggedInAs (s : t) : option string :=
  match currentUserId s with
  | Some c => if JS.truthyString c then Some c else None
  | None => None
  end.


(** [handleUpdateSystemConfig] *)
Definition handleUpdateSystemConfig (newConfig : SystemConfig.t) (s : t)
  : t :=
  mk (AppDatabase.mk (AppDatabase.accounts (db s))
                     (AppDatabase.users (db s)) newConfig)
     (currentUserId s) (publicView s).

(** The [userData] handed to the dashboard when the user logged in has an
    own record in [db.users]. *)
Definition currentUserData (s : t) : option UserData.t :=
  match loggedInAs s with
  | Some c =>
    match JSObject.get (AppDatabase.users (db s)) c with
    | JSObject.own u => Some u
    | _ => None
    end
  | None => None
  end.

End App.

(** A database with one account, nobody logged in, and two signup forms. *)
Module Registry.

Definition main : UserData.t := Sample.state "user_main" [] [] [].

Definition db0 : AppDatabase.t :=
  AppDatabase.mk [("user@example.com", Account.mk "password" "user_main")]
                 [("user_main", main)] Sample.config.

Definition landing : App.t := App.mk db0 None "landing".

Definition ann : FormData.t := FormData.mk "Ann Lee" "ann@example.com" "pw".

Definition bob : FormData.t := FormData.mk "Bob Ray" "bob@example.com" "pw2".

(** A session of a user who owes one unpaid payment, and a configuration
    with a timer of one hour instead of two. *)
Definition session : App.t :=
  App.mk (AppDatabase.mk [] [("me", Scenario.fresh)] Sample.config)
         (Some "me") "landing".

Definition oneHour : SystemConfig.t :=
  SystemConfig.mk 1000 1000 500 500 1 "" "" false 12.

Definition annData : UserData.t := Sample.state "user_1700000000000" [] [] [].

Definition bobData : UserData.t :=
  Sample.state "user_1700000000000" [Scenario.blank] [] [].

End Registry.

(** ** The payments a new user owes

    [generateInitialPayments] reads the clock once per payment and draws at
    random twice, and every payment gets the result of one call of
    [generateUniqueAmount]; the readings, the draws and those results are
    given by [draws], numbered in the order of the calls. *)

From Stdlib Require HexadecimalString.

Module AdminPaymentOption.
Record t : Type := mk {
  id : string;
  name : string;
  upiId : string;
  bankAccount : Payment.bankAccount_t;
  usdtAddress : string;
  qrCodeUrl : option string;
  receiverContact : string
}.
End AdminPaymentOption.

Module Draws.
Record t : Type := mk {
  dateNow : nat -> Z;
  mathRandom : nat -> Q;
  uniqueAmount : nat -> Q
}.
End Draws.

Module InitialPayments.

(** [n.toString(16)] for a natural number. *)
Definition toString16 (n : Z) : string :=
  HexadecimalString.NilZero.string_of_uint (N.to_hex_uint (Z.to_N n)).

Definition qrServer : string :=
  "https://api.qrserver.com/v1/create-qr-code/?size=150x150&data=upi://pay?pa=".

(** [getQrUrl] *)
Definition getQrUrl (upiId : string) (amount : Z) (customUrl : option string)
  : string :=
  match customUrl with
  | Some url =>
    if JS.truthyString url then url
    else qrServer ++ upiId ++ "&pn=Payment&am=" ++ JS.numberToString amount
  | None =>
    qrServer ++ upiId ++ "&pn=Payment&am=" ++ JS.numberToString amount
  end.

Definition fallback : AdminPaymentOption.t :=
  AdminPaymentOption.mk "fallback" "Fallback" "fallback@upi"
    (Payment.mkBank "N/A" "N/A" "N/A") "N/A" None "N/A".

(** [getRandomAdminOption], with [random] the value of [Math.random()];
    [None] is [undefined]. *)
Definition getRandomAdminOption (adminOptions : list AdminPaymentOption.t)
    (random : Q) : option AdminPaymentOption.t :=
  if Z.of_nat (List.length adminOptions) =? 0 then Some fallback
  else JS.at_ adminOptions
              (Qfloor (random
                       * inject_Z (Z.of_nat (List.length adminOptions)))).

(** The callback of [Array.from({ length: 5 }, (_, i) => ...)]. *)
Definition uplinePayment (d : Draws.t) (config : SystemConfig.t) (i : nat)
  : Payment.t :=
  let n := JS.numberToString (Z.of_nat i + 1) in
  Payment.mk
    ("pay_up" ++ n)
    (JS.numberToString (3 + Z.of_nat i) ++ ". Upline " ++ n)
    (SystemConfig.uplineAmount config)
    ("Payment to your upline sponsor at level " ++ n
       ++ " to unlock matrix commissions.")
    ("+91 12345 6789" ++ JS.numberToString (2 + Z.of_nat i))
    ("upline" ++ n)
    "fa-arrow-up"
    Payment.unpaid
    ""
    None
    (qrServer ++ "upline" ++ n ++ "@ybl&pn=Upline" ++ n ++ "&am="
       ++ JS.numberToString (SystemConfig.uplineAmount config))
    (Payment.mkBank ("Upline " ++ n)
                    (JS.numberToString (345678901234 + Z.of_nat i))
                    ("BANK000567" ++ JS.numberToString (Z.of_nat i)))
    ("upline" ++ n ++ "@ybl")
    ("0x" ++ toString16 (789 + Z.of_nat i)
       ++ "ijklm789ijklm789ijklm789ijklm789ijklm")
    (Some (Draws.dateNow d (2 + i)))
    ("usr_0" ++ JS.numberToString (2 + Z.of_nat i))
    (Some (Draws.uniqueAmount d (2 + i))).

(** [generateInitialPayments]; [None] when an option drawn is [undefined],
    where the source throws on reading its [receiverContact]. *)
Definition generateInitialPayments (d : Draws.t) (config : SystemConfig.t)
    (adminOptions : list AdminPaymentOption.t) : option (list Payment.t) :=
  match getRandomAdminOption adminOptions (Draws.mathRandom d 0),
        getRandomAdminOption adminOptions (Draws.mathRandom d 1) with
  | Some binaryOption, Some adminOption =>
    Some
      ([Payment.mk "pay_ref" "1. Referral"
          (SystemConfig.referralAmount config)
          "Payment to your direct sponsor for referring you to the system."
          "+91 12345 67890" "referral" "fa-user-plus" Payment.unpaid "" None
          (qrServer ++ "sponsor@ybl&pn=SponsorName&am="
             ++ JS.numberToString (SystemConfig.referralAmount config))
          (Payment.mkBank "Sponsor Name" "123456789012" "BANK0001234")
          "sponsor@ybl" "0x123abcde123abcde123abcde123abcde123abcde"
          (Some (Draws.dateNow d 0)) "usr_sponsor"
          (Some (Draws.uniqueAmount d 0));
        Payment.mk "pay_bin" "2. Binary"
          (SystemConfig.binaryAmount config)
          "Activates your position in the binary income plan."
          (AdminPaymentOption.receiverContact binaryOption)
          "binary" "fa-balance-scale" Payment.unpaid "" None
          (getQrUrl (AdminPaymentOption.upiId binaryOption)
                    (SystemConfig.binaryAmount config)
                    (AdminPaymentOption.qrCodeUrl binaryOption))
          (AdminPaymentOption.bankAccount binaryOption)
          (AdminPaymentOption.upiId binaryOption)
          (AdminPaymentOption.usdtAddress binaryOption)
          (Some (Draws.dateNow d 1)) "system_binary"
          (Some (Draws.uniqueAmount d 1))]
       ++ map (uplinePayment d config) (seq 0 5)
       ++ [Payment.mk "pay_adm" "8. Admin Fee"
             (SystemConfig.adminFeeAmount config)
             "One-time fee for account setup and maintenance."
             (AdminPaymentOption.receiverContact adminOption)
             "admin" "fa-user-shield" Payment.unpaid "" None
             (getQrUrl (AdminPaymentOption.upiId adminOption)
                       (SystemConfig.adminFeeAmount config)
                       (AdminPaymentOption.qrCodeUrl adminOption))
             (AdminPaymentOption.bankAccount adminOption)
             (AdminPaymentOption.upiId adminOption)
             (AdminPaymentOption.usdtAddress adminOption)
             (Some (Draws.dateNow d 7)) "system_admin"
             (Some (Draws.uniqueAmount d 7))])%list
  | _, _ => None
  end.

End InitialPayments.

(** Draws at the middle of the interval, a clock that advances by one
    millisecond per call, and the two admin options of the source. *)
Module Onboarding.

Definition draws : Draws.t :=
  Draws.mk (fun k => Sample.clock + Z.of_nat k) (fun _ => 1 # 2)
           (fun _ => 1000005 # 1000).

Definition initialAdminPaymentOptions : list AdminPaymentOption.t :=
  [AdminPaymentOption.mk "admin_opt_1" "Default Admin Account" "admin@ybl"
     (Payment.mkBank "Admin Fee" "890123456789" "BANK0000123")
     "0xcde456cde456cde456cde456cde456cde456cde" None "+91 12345 67897";
   AdminPaymentOption.mk "admin_opt_2" "Default Binary Account"
     "system-binary@ybl"
     (Payment.mkBank "System Payments" "210987654321" "BANK0004321")
     "0x456defgh456defgh456defgh456defgh456defgh" None "+91 12345 67891"].

End Onboarding.
(** ** Lemmas on the array primitives *)

Local Open Scope list_scope.

Lemma findIndex_lower_bound {A} (f : A -> bool) (l : list A) :
  -1 <= JS.findIndex f l.
Proof.
  induction l as [|x t IH]; simpl; [lia|].
  destruct (f x); [lia|].
  destruct (JS.findIndex f t <? 0) eqn:E; [lia|].
  apply Z.ltb_ge in E. lia.
Qed.

Lemma findIndex_found {A} (f : A -> bool) (l : list A) :
  existsb f l = true ->
  exists k w, JS.findIndex f l = Z.of_nat k
              /\ nth_error l k = Some w /\ f w = true
              /\ forall j u, (j < k)%nat -> nth_error l j = Some u ->
                             f u = false.
Proof.
  induction l as [|x t IH]; simpl; [discriminate|].
  destruct (f x) eqn:Fx; intros H.
  - exists 0%nat, x. repeat split; auto. intros j u Hj. lia.
  - simpl in H. destruct (IH H) as (k & w & Hk & Hn & Hw & Hlt).
    exists (S k), w. rewrite Hk.
    replace (Z.of_nat k <? 0) with false
      by (symmetry; apply Z.ltb_ge; lia).
    repeat split; auto; [lia|].
    intros [|j] u Hj Hu; simpl in Hu.
    + now inversion Hu; subst.
    + apply (Hlt j); auto; lia.
Qed.

Lemma findIndex_absent {A} (f : A -> bool) (l : list A) :
  existsb f l = false -> JS.findIndex f l = -1.
Proof.
  induction l as [|x t IH]; simpl; auto.
  destruct (f x); simpl; [discriminate|].
  intros H. now rewrite (IH H).
Qed.

Lemma at_of_nat {A} (l : list A) (k : nat) :
  JS.at_ l (Z.of_nat k) = nth_error l k.
Proof.
  unfold JS.at_.
  replace (Z.of_nat k <? 0) with false by (symmetry; apply Z.ltb_ge; lia).
  now rewrite Nat2Z.id.
Qed.

Lemma slice_prefix {A} (l : list A) (k : nat) :
  (k <= List.length l)%nat -> JS.slice l 0 (Z.of_nat k) = firstn k l.
Proof.
  intros H. unfold JS.slice, JS.rel. simpl.
  replace (Z.of_nat k <? 0) with false by (symmetry; apply Z.ltb_ge; lia).
  rewrite Z.min_l by lia. rewrite Z.min_l by lia. simpl.
  rewrite Z.sub_0_r, Z.max_l by lia. now rewrite Nat2Z.id.
Qed.

Lemma sliceFrom_suffix {A} (l : list A) (k : nat) :
  (k <= List.length l)%nat -> JS.sliceFrom l (Z.of_nat k) = skipn k l.
Proof.
  intros H. unfold JS.sliceFrom, JS.slice, JS.rel.
  replace (Z.of_nat k <? 0) with false by (symmetry; apply Z.ltb_ge; lia).
  replace (Z.of_nat (List.length l) <? 0) with false
    by (symmetry; apply Z.ltb_ge; lia).
  rewrite Z.min_l by lia. rewrite Z.min_l by lia.
  rewrite Z.max_l by lia. rewrite Nat2Z.id.
  apply firstn_all2. rewrite length_skipn. lia.
Qed.

Lemma mapi_from_length {A B} (f : A -> Z -> B) (l : list A) (i : Z) :
  List.length (JS.mapi_from f i l) = List.length l.
Proof.
  revert i; induction l as [|x t IH]; intros i; simpl; auto.
Qed.

Lemma mapi_from_nth {A B} (f : A -> Z -> B) (l : list A) :
  forall (i : Z) (n : nat) (x : A),
    nth_error l n = Some x ->
    nth_error (JS.mapi_from f i l) n = Some (f x (i + Z.of_nat n)).
Proof.
  induction l as [|y t IH]; intros i [|n] x H; simpl in *; try discriminate.
  - inversion H; subst. now rewrite Z.add_0_r.
  - rewrite (IH (i + 1) n x H). f_equal. f_equal. lia.
Qed.

Lemma mapi_from_map {A B C} (f : A -> Z -> B) (g : B -> C) (h : A -> C)
      (l : list A) :
  (forall x i, g (f x i) = h x) ->
  forall i, map g (JS.mapi_from f i l) = map h l.
Proof.
  intros E. induction l as [|x t IH]; intros i; simpl; auto.
  now rewrite E, IH.
Qed.

Lemma mapi_from_positions (l : list QueueUser.t) :
  forall i : nat,
    map QueueUser.queuePosition
        (JS.mapi_from (fun user index =>
                         QueueUser.with_queuePosition user (index + 1))
                      (Z.of_nat i) l)
    = map Z.of_nat (seq (S i) (List.length l)).
Proof.
  induction l as [|x t IH]; intros i; simpl; auto.
  f_equal; [lia|].
  replace (Z.of_nat i + 1) with (Z.of_nat (S i)) by lia. apply IH.
Qed.

Lemma nth_error_lt {A} (l : list A) (k : nat) (x : A) :
  nth_error l k = Some x -> (k < List.length l)%nat.
Proof.
  intros H. apply nth_error_Some. congruence.
Qed.

Lemma split_at {A} (l : list A) :
  forall (k : nat) (x : A),
    nth_error l k = Some x -> l = firstn k l ++ x :: skipn (S k) l.
Proof.
  induction l as [|y t IH]; intros [|k] x H; simpl in *; try discriminate.
  - now inversion H.
  - f_equal. now apply IH.
Qed.

Lemma rotation_length (q : list QueueUser.t) (k : nat) :
  (k < List.length q)%nat ->
  List.length (rotation q k) = (List.length q - 1)%nat.
Proof.
  intros H. unfold rotation, JS.mapi.
  rewrite mapi_from_length, length_app, length_skipn, length_firstn. lia.
Qed.

Lemma rotation_renumbered (q : list QueueUser.t) (k : nat) :
  renumbered (skipn (S k) q ++ firstn k q) (rotation q k).
Proof.
  split.
  - apply mapi_from_length.
  - intros i u H. unfold rotation, JS.mapi.
    now rewrite (mapi_from_nth _ _ 0 _ H).
Qed.

Lemma rotation_position (q : list QueueUser.t) (k i : nat) (u : QueueUser.t) :
  nth_error (rotation q k) i = Some u ->
  QueueUser.queuePosition u = Z.of_nat i + 1.
Proof.
  intros H. destruct (rotation_renumbered q k) as [Hl Hn].
  pose proof (nth_error_lt _ _ H) as Hi. rewrite Hl in Hi.
  destruct (nth_error (skipn (S k) q ++ firstn k q) i) as [v|] eqn:E.
  - rewrite (Hn _ _ E) in H. now inversion H.
  - apply nth_error_None in E. lia.
Qed.

Lemma rotation_ids (q : list QueueUser.t) (k : nat) :
  map QueueUser.id (rotation q k)
  = map QueueUser.id (skipn (S k) q) ++ map QueueUser.id (firstn k q).
Proof.
  unfold rotation, JS.mapi.
  rewrite (mapi_from_map _ QueueUser.id QueueUser.id) by reflexivity.
  apply map_app.
Qed.

Lemma rotation_positions (q : list QueueUser.t) (k : nat) :
  (k < List.length q)%nat ->
  map QueueUser.queuePosition (rotation q k)
  = positions (List.length q - 1).
Proof.
  intros H. unfold rotation, JS.mapi, positions.
  rewrite (mapi_from_positions _ 0). f_equal. f_equal.
  rewrite length_app, length_skipn, length_firstn. lia.
Qed.

Lemma rotation_ids_perm (q : list QueueUser.t) (k : nat) (w : QueueUser.t) :
  nth_error q k = Some w ->
  Permutation (map QueueUser.id q)
              (QueueUser.id w :: map QueueUser.id (rotation q k)).
Proof.
  intros H. rewrite rotation_ids.
  rewrite (split_at _ _ H) at 1. rewrite map_app. simpl.
  apply Permutation_sym.
  apply Permutation_trans
    with (QueueUser.id w
          :: map QueueUser.id (firstn k q) ++ map QueueUser.id (skipn (S k) q)).
  - apply perm_skip, Permutation_app_comm.
  - apply Permutation_middle.
Qed.

Lemma qualified_entrant_found (q : list QueueUser.t) :
  (exists u, In u q /\ QueueUser.isQualified u = true) ->
  existsb QueueUser.isQualified q = true.
Proof.
  intros H. now apply existsb_exists.
Qed.

(** ** The queue matcher *)

(** What one call of the matcher does when some entrant is qualified. *)
Lemma processQueue_run (pg : page) (toLocaleString : Z -> string)
      (systemConfig : SystemConfig.t) (now : Z) (isoNow : string)
      (st : UserData.t) :
  existsb QueueUser.isQualified (queueOf st) = true ->
  exists k w st',
    firstQualifiedAt (queueOf st) k w
    /\ processQueue pg toLocaleString systemConfig now isoNow st = Some st'
    /\ queueOf st' = rotation (queueOf st) k
    /\ BinaryData.pendingPairs (UserData.binaryData st')
       = BinaryData.pendingPairs (UserData.binaryData st)
    /\ BinaryData.matchedPairs (UserData.binaryData st')
       = (if isLocal pg st w
          then BinaryData.matchedPairs (UserData.binaryData st)
               ++ [newMatchOf systemConfig isoNow (UserData.binaryData st)]
          else BinaryData.matchedPairs (UserData.binaryData st))
    /\ BinaryData.currentUserPosition (UserData.binaryData st')
       = (if JS.findIndex (isLocal pg st) (rotation (queueOf st) k) + 1 >? 0
          then JS.findIndex (isLocal pg st) (rotation (queueOf st) k) + 1
          else BinaryData.currentUserPosition (UserData.binaryData st))
    /\ (exists n rest,
          UserData.notifications st' = n :: rest
          /\ Notification.type n = Notification.income
          /\ Notification.message n
             = winAnnouncement pg toLocaleString systemConfig w)
    /\ UserData.profile st' = UserData.profile st.
Proof.
  intros Hq. unfold queueOf in *.
  destruct (findIndex_found _ _ Hq) as (k & w & Hk & Hn & Hw & Hlt).
  pose proof (nth_error_lt _ _ Hn) as Hlen.
  exists k, w.
  destruct pg; unfold processQueue, Home.handleProcessBinaryQueue,
    Dashboard.handleProcessBinaryQueue; rewrite Hq; cbn [negb];
    rewrite Hk, at_of_nat, Hn;
    rewrite slice_prefix by lia;
    replace (Z.of_nat k + 1) with (Z.of_nat (S k)) by lia;
    rewrite sliceFrom_suffix by lia;
    eexists; (split; [now repeat split|]); (split; [reflexivity|]);
    cbn; repeat split; eauto.
Qed.

(** C1. For every queue with at least one qualified entrant, the matcher
    awards the match to the qualified entrant at the smallest index [k]
    (every entrant before [k] is unqualified; the income notification names
    that entrant) and the new queue is the entrants after [k] followed by the
    entrants before [k], in their order, each with [queuePosition] equal to
    its index plus one; the winner's slot is gone (one entrant fewer, and with
    distinct ids the winner's id does not occur in the new queue). *)
Theorem processQueue_awards_first_qualified
    (pg : page) (toLocaleString : Z -> string)
    (systemConfig : SystemConfig.t) (now : Z) (isoNow : string)
    (st : UserData.t) :
  (exists u, In u (queueOf st) /\ QueueUser.isQualified u = true) ->
  exists k winner st',
    processQueue pg toLocaleString systemConfig now isoNow st = Some st'
    /\ firstQualifiedAt (queueOf st) k winner
    /\ (exists n rest,
          UserData.notifications st' = n :: rest
          /\ Notification.type n = Notification.income
          /\ Notification.message n
             = winAnnouncement pg toLocaleString systemConfig winner)
    /\ renumbered (skipn (S k) (queueOf st) ++ firstn k (queueOf st))
                  (queueOf st')
    /\ (forall i u, nth_error (queueOf st') i = Some u ->
                    QueueUser.queuePosition u = Z.of_nat i + 1)
    /\ List.length (queueOf st') = (List.length (queueOf st) - 1)%nat
    /\ (NoDup (map QueueUser.id (queueOf st)) ->
        ~ In (QueueUser.id winner) (map QueueUser.id (queueOf st'))).
Proof.
  intros Hq. apply qualified_entrant_found in Hq.
  destruct (processQueue_run pg toLocaleString systemConfig now isoNow st Hq)
    as (k & w & st' & Hfirst & Hrun & Hqueue & _ & _ & _ & Hnote & _).
  exists k, w, st'. rewrite Hqueue.
  destruct Hfirst as (Hn & Hw & Hlt).
  repeat split; auto.
  - apply mapi_from_length.
  - apply rotation_renumbered.
  - intros i u. apply rotation_position.
  - apply rotation_length. eapply nth_error_lt; eauto.
  - intros Hnd Hin. rewrite rotation_ids in Hin.
    rewrite (split_at _ _ Hn), map_app in Hnd. simpl in Hnd.
    apply NoDup_remove_2 in Hnd. apply Hnd.
    apply in_app_or in Hin. apply in_or_app. tauto.
Qed.

Lemma processQueue_awards_first_qualified_witness :
  (exists u, In u Sample.queue /\ QueueUser.isQualified u = true)
  /\ exists k winner st',
       processQueue HomePage JS.numberToString Sample.config Sample.clock
                    Sample.iso (Sample.state "C" [] [] Sample.queue)
       = Some st'
       /\ firstQualifiedAt Sample.queue k winner
       /\ QueueUser.id winner = "B"%string
       /\ map QueueUser.id (queueOf st') = ["C"; "A"]%string.
Proof.
  split.
  - exists (Sample.entrant "B" "Bob" 2 true). simpl. auto.
  - destruct (processQueue_awards_first_qualified HomePage JS.numberToString
                Sample.config Sample.clock Sample.iso
                (Sample.state "C" [] [] Sample.queue))
      as (k & w & st' & Hrun & Hfirst & _).
    + exists (Sample.entrant "B" "Bob" 2 true). simpl. auto.
    + exists k, w, st'. vm_compute in Hrun. inversion Hrun; subst st'.
      destruct Hfirst as (Hn & Hw & Hlt).
      destruct k as [|[|k]].
      * vm_compute in Hn. inversion Hn; subst. discriminate Hw.
      * vm_compute in Hn. inversion Hn; subst.
        repeat split; try reflexivity. intros j u Hj Hu.
        destruct j as [|j]; [|lia]. vm_compute in Hu. now inversion Hu.
      * assert (Hb : QueueUser.isQualified (Sample.entrant "B" "Bob" 2 true)
                     = false)
          by (apply (Hlt 1%nat); [lia | reflexivity]).
        discriminate Hb.
Defined.

(** C2, as stated, fails: on the queue [A, B (qualified), C] the matcher
    returns the two entrants [C, A] numbered 1, 2.  The identities are not
    those of the three entrants it started from, and the positions are not
    [1; 2; 3]. *)
Lemma processQueue_drops_the_winner :
  exists st',
    processQueue DashboardPage JS.numberToString Sample.config Sample.clock
                 Sample.iso (Sample.state "C" [] [] Sample.queue)
    = Some st'
    /\ map QueueUser.id (queueOf st') = ["C"; "A"]%string
    /\ ~ Permutation (map QueueUser.id Sample.queue)
                     (map QueueUser.id (queueOf st'))
    /\ map QueueUser.queuePosition (queueOf st')
       <> positions (List.length Sample.queue).
Proof.
  eexists. split; [reflexivity|]. split; [reflexivity|]. split.
  - intros P. apply Permutation_length in P. discriminate P.
  - discriminate.
Qed.

(** C2, amended. On a queue of [N] entrants with a qualified one, the matcher
    removes exactly the winner: the identities of the old queue are those of
    the new queue plus the winner's, the new queue has [N - 1] entrants, and
    its [queuePosition] values are exactly [1 .. N - 1], each the entrant's
    index plus one. *)
Theorem processQueue_permutes_the_others
    (pg : page) (toLocaleString : Z -> string)
    (systemConfig : SystemConfig.t) (now : Z) (isoNow : string)
    (st : UserData.t) :
  (exists u, In u (queueOf st) /\ QueueUser.isQualified u = true) ->
  exists k winner st',
    processQueue pg toLocaleString systemConfig now isoNow st = Some st'
    /\ firstQualifiedAt (queueOf st) k winner
    /\ Permutation (map QueueUser.id (queueOf st))
                   (QueueUser.id winner :: map QueueUser.id (queueOf st'))
    /\ List.length (queueOf st') = (List.length (queueOf st) - 1)%nat
    /\ map QueueUser.queuePosition (queueOf st')
       = positions (List.length (queueOf st) - 1)
    /\ (forall i u, nth_error (queueOf st') i = Some u ->
                    QueueUser.queuePosition u = Z.of_nat i + 1).
Proof.
  intros Hq. apply qualified_entrant_found in Hq.
  destruct (processQueue_run pg toLocaleString systemConfig now isoNow st Hq)
    as (k & w & st' & Hfirst & Hrun & Hqueue & _).
  exists k, w, st'. rewrite Hqueue.
  pose proof Hfirst as (Hn & _).
  pose proof (nth_error_lt _ _ Hn) as Hk.
  split; [assumption|]. split; [assumption|].
  split; [now apply rotation_ids_perm|].
  split; [now apply rotation_length|].
  split; [now apply rotation_positions|].
  intros i u. apply rotation_position.
Qed.

Lemma processQueue_permutes_the_others_witness :
  (exists u, In u Sample.queue /\ QueueUser.isQualified u = true)
  /\ exists k winner st',
       processQueue DashboardPage JS.numberToString Sample.config
                    Sample.clock Sample.iso
                    (Sample.state "C" [] [] Sample.queue) = Some st'
       /\ firstQualifiedAt Sample.queue k winner
       /\ Permutation (map QueueUser.id Sample.queue)
                      (QueueUser.id winner :: map QueueUser.id (queueOf st'))
       /\ List.length (queueOf st') = 2%nat
       /\ map QueueUser.queuePosition (queueOf st') = positions 2
       /\ (forall i u, nth_error (queueOf st') i = Some u ->
                       QueueUser.queuePosition u = Z.of_nat i + 1).
Proof.
  split.
  - exists (Sample.entrant "B" "Bob" 2 true). simpl. auto.
  - apply (processQueue_permutes_the_others DashboardPage JS.numberToString
             Sample.config Sample.clock Sample.iso
             (Sample.state "C" [] [] Sample.queue)).
    exists (Sample.entrant "B" "Bob" 2 true). simpl. auto.
Defined.

(** C6, as stated, fails: when the winner is not the local participant the
    constructed pair is dropped and [matchedPairs] is left as it was. *)
Lemma processQueue_other_winner_appends_nothing :
  exists st',
    processQueue DashboardPage JS.numberToString Sample.config Sample.clock
                 Sample.iso (Sample.state "C" [] [] Sample.queue)
    = Some st'
    /\ BinaryData.matchedPairs (UserData.binaryData st')
       = BinaryData.matchedPairs
           (UserData.binaryData (Sample.state "C" [] [] Sample.queue))
    /\ forall m,
         BinaryData.matchedPairs (UserData.binaryData st')
         <> BinaryData.matchedPairs
              (UserData.binaryData (Sample.state "C" [] [] Sample.queue))
            ++ [m].
Proof.
  eexists. split; [reflexivity|]. split; [reflexivity|].
  intros m H. apply (f_equal (@List.length _)) in H. discriminate H.
Qed.

(** C6, amended. Every call of the matcher that selects a winner constructs
    a pair with status [paid], the configured binary amount and
    [pairNumber = count(matchedPairs) + count(pendingPairs) + 1]; the pair is
    appended to [matchedPairs] only when the winner is the local participant,
    and otherwise [matchedPairs] is unchanged; [pendingPairs] is untouched.
    The number of the pair the next call would construct is one more after
    an append and the same otherwise, so the numbers never decrease and
    strictly increase along the appended pairs. *)
Theorem processQueue_new_match
    (pg : page) (toLocaleString : Z -> string)
    (systemConfig : SystemConfig.t) (now : Z) (isoNow isoNext : string)
    (st : UserData.t) :
  (exists u, In u (queueOf st) /\ QueueUser.isQualified u = true) ->
  exists k winner st',
    processQueue pg toLocaleString systemConfig now isoNow st = Some st'
    /\ firstQualifiedAt (queueOf st) k winner
    /\ MatchedPair.status
         (newMatchOf systemConfig isoNow (UserData.binaryData st))
       = MatchedPair.paid
    /\ MatchedPair.amount
         (newMatchOf systemConfig isoNow (UserData.binaryData st))
       = SystemConfig.binaryAmount systemConfig
    /\ MatchedPair.pairNumber
         (newMatchOf systemConfig isoNow (UserData.binaryData st))
       = Z.of_nat (List.length
                     (BinaryData.matchedPairs (UserData.binaryData st)))
         + Z.of_nat (List.length
                       (BinaryData.pendingPairs (UserData.binaryData st)))
         + 1
    /\ BinaryData.matchedPairs (UserData.binaryData st')
       = (if isLocal pg st winner
          then BinaryData.matchedPairs (UserData.binaryData st)
               ++ [newMatchOf systemConfig isoNow (UserData.binaryData st)]
          else BinaryData.matchedPairs (UserData.binaryData st))
    /\ BinaryData.pendingPairs (UserData.binaryData st')
       = BinaryData.pendingPairs (UserData.binaryData st)
    /\ MatchedPair.pairNumber
         (newMatchOf systemConfig isoNext (UserData.binaryData st'))
       = MatchedPair.pairNumber
           (newMatchOf systemConfig isoNow (UserData.binaryData st))
         + (if isLocal pg st winner then 1 else 0).
Proof.
  intros Hq. apply qualified_entrant_found in Hq.
  destruct (processQueue_run pg toLocaleString systemConfig now isoNow st Hq)
    as (k & w & st' & Hfirst & Hrun & _ & Hpend & Hmatched & _).
  exists k, w, st'.
  repeat (split; [first [assumption | reflexivity]|]).
  unfold newMatchOf; cbn [MatchedPair.pairNumber].
  rewrite Hpend, Hmatched.
  destruct (isLocal pg st w); [|lia].
  rewrite length_app; simpl; lia.
Qed.

Lemma processQueue_new_match_witness :
  (exists u, In u Sample.queue /\ QueueUser.isQualified u = true)
  /\ exists k winner st',
       processQueue DashboardPage JS.numberToString Sample.config
                    Sample.clock Sample.iso
                    (Sample.state "B" [] [] Sample.queue) = Some st'
       /\ firstQualifiedAt Sample.queue k winner
       /\ MatchedPair.status
            (newMatchOf Sample.config Sample.iso (Sample.binary Sample.queue 3))
          = MatchedPair.paid
       /\ MatchedPair.amount
            (newMatchOf Sample.config Sample.iso (Sample.binary Sample.queue 3))
          = 1000
       /\ MatchedPair.pairNumber
            (newMatchOf Sample.config Sample.iso (Sample.binary Sample.queue 3))
          = 3
       /\ BinaryData.matchedPairs (UserData.binaryData st')
          = (if isLocal DashboardPage
                        (Sample.state "B" [] [] Sample.queue) winner
             then [Sample.pair 1 MatchedPair.paid;
                   newMatchOf Sample.config Sample.iso
                              (Sample.binary Sample.queue 3)]
             else [Sample.pair 1 MatchedPair.paid])
       /\ BinaryData.pendingPairs (UserData.binaryData st')
          = [Sample.pair 2 MatchedPair.pending]
       /\ MatchedPair.pairNumber
            (newMatchOf Sample.config Sample.iso (UserData.binaryData st'))
          = 3 + (if isLocal DashboardPage
                            (Sample.state "B" [] [] Sample.queue) winner
                 then 1 else 0).
Proof.
  split.
  - exists (Sample.entrant "B" "Bob" 2 true). simpl. auto.
  - apply (processQueue_new_match DashboardPage JS.numberToString
             Sample.config Sample.clock Sample.iso Sample.iso
             (Sample.state "B" [] [] Sample.queue)).
    exists (Sample.entrant "B" "Bob" 2 true). simpl. auto.
Defined.

Lemma findIndex_first {A} (f : A -> bool) (l : list A) :
  forall (i : nat) (x : A),
    nth_error l i = Some x -> f x = true ->
    (forall j y, (j < i)%nat -> nth_error l j = Some y -> f y = false) ->
    JS.findIndex f l = Z.of_nat i.
Proof.
  induction l as [|a t IH]; intros [|i] x Hn Hx Hlt; simpl in *;
    try discriminate.
  - inversion Hn; subst. now rewrite Hx.
  - rewrite (Hlt 0%nat a) by (auto; lia).
    rewrite (IH i x Hn Hx).
    + replace (Z.of_nat i <? 0) with false
        by (symmetry; apply Z.ltb_ge; lia).
      lia.
    + intros j y Hj Hy. apply (Hlt (S j)); auto; lia.
Qed.

Lemma existsb_absent {A} (f : A -> bool) (l : list A) :
  (forall x, In x l -> f x = false) -> existsb f l = false.
Proof.
  intros H. destruct (existsb f l) eqn:E; auto.
  apply existsb_exists in E. destruct E as (x & Hin & Hx).
  rewrite (H x Hin) in Hx. discriminate.
Qed.

Lemma rotation_nth_after (q : list QueueUser.t) (k j : nat)
      (u : QueueUser.t) :
  nth_error q j = Some u -> (k < j)%nat ->
  nth_error (rotation q k) (j - k - 1)
  = Some (QueueUser.with_queuePosition u (Z.of_nat j - Z.of_nat k)).
Proof.
  intros Hn Hlt. pose proof (nth_error_lt _ _ Hn) as Hlen.
  destruct (rotation_renumbered q k) as [_ Hr].
  rewrite (Hr (j - k - 1)%nat u).
  - f_equal. f_equal. lia.
  - rewrite nth_error_app1 by (rewrite length_skipn; lia).
    rewrite nth_error_skipn. rewrite <- Hn. f_equal. lia.
Qed.

Lemma rotation_nth_before (q : list QueueUser.t) (k j : nat)
      (u : QueueUser.t) :
  nth_error q j = Some u -> (j < k)%nat -> (k < List.length q)%nat ->
  nth_error (rotation q k) (List.length q - 1 - k + j)
  = Some (QueueUser.with_queuePosition u
            (Z.of_nat (List.length q) - Z.of_nat k + Z.of_nat j)).
Proof.
  intros Hn Hlt Hk.
  destruct (rotation_renumbered q k) as [_ Hr].
  rewrite (Hr (List.length q - 1 - k + j)%nat u).
  - f_equal. f_equal. lia.
  - rewrite nth_error_app2 by (rewrite length_skipn; lia).
    rewrite length_skipn.
    replace (List.length q - 1 - k + j - (List.length q - S k))%nat
      with j by lia.
    rewrite nth_error_firstn.
    replace (j <? k)%nat with true by (symmetry; apply Nat.ltb_lt; lia).
    exact Hn.
Qed.

Lemma rotation_ids_from (q : list QueueUser.t) (k : nat) (x : string) :
  In x (map QueueUser.id (rotation q k)) -> In x (map QueueUser.id q).
Proof.
  rewrite rotation_ids, in_app_iff, !in_map_iff.
  intros [(u & E & H)|(u & E & H)]; exists u; split; auto.
  - rewrite <- (firstn_skipn (S k) q). apply in_or_app. now right.
  - rewrite <- (firstn_skipn k q). apply in_or_app. now left.
Qed.

Lemma rotation_ids_NoDup (q : list QueueUser.t) (k : nat) (w : QueueUser.t) :
  nth_error q k = Some w ->
  NoDup (map QueueUser.id q) ->
  NoDup (map QueueUser.id (rotation q k))
  /\ ~ In (QueueUser.id w) (map QueueUser.id (rotation q k)).
Proof.
  intros Hn Hnd.
  apply (Permutation_NoDup (rotation_ids_perm _ _ Hn)) in Hnd.
  inversion Hnd; subst. auto.
Qed.

Lemma only_row_with_the_id (l : list QueueUser.t) (i j : nat)
      (u v : QueueUser.t) :
  NoDup (map QueueUser.id l) ->
  nth_error l i = Some u -> nth_error l j = Some v ->
  QueueUser.id v = QueueUser.id u -> j = i.
Proof.
  intros Hnd Hu Hv E.
  apply (proj1 (NoDup_nth_error (map QueueUser.id l)) Hnd).
  - rewrite length_map. eapply nth_error_lt; eauto.
  - rewrite !nth_error_map, Hu, Hv. simpl. now rewrite E.
Qed.

(** C10. The matcher rotates the queue at the first qualified index [k]
    (the entrants after [k], then those before [k]) and stores as
    [currentUserPosition] the local participant's 1-based position in that
    rotated queue, which is also that entrant's new [queuePosition],
    whenever the participant is in it: with distinct ids, a participant who
    stood at index [j] behind the winner ends at position [j - k], and one
    who stood before the winner at position [N - k + j].  When the
    participant is absent from the rotated queue, as after winning or when
    never queued, [currentUserPosition] keeps its previous value. *)
Theorem processQueue_currentUserPosition
    (pg : page) (toLocaleString : Z -> string)
    (systemConfig : SystemConfig.t) (now : Z) (isoNow : string)
    (st : UserData.t) :
  (exists u, In u (queueOf st) /\ QueueUser.isQualified u = true) ->
  exists k winner st',
    processQueue pg toLocaleString systemConfig now isoNow st = Some st'
    /\ firstQualifiedAt (queueOf st) k winner
    /\ queueOf st' = rotation (queueOf st) k
    /\ (forall i u,
          nth_error (queueOf st') i = Some u ->
          QueueUser.id u = localParticipant pg st ->
          (forall j v, (j < i)%nat -> nth_error (queueOf st') j = Some v ->
                       QueueUser.id v <> localParticipant pg st) ->
          BinaryData.currentUserPosition (UserData.binaryData st')
          = Z.of_nat i + 1
          /\ BinaryData.currentUserPosition (UserData.binaryData st')
             = QueueUser.queuePosition u)
    /\ ((forall u, In u (queueOf st') ->
                   QueueUser.id u <> localParticipant pg st) ->
        BinaryData.currentUserPosition (UserData.binaryData st')
        = BinaryData.currentUserPosition (UserData.binaryData st))
    /\ (NoDup (map QueueUser.id (queueOf st)) ->
        forall j u,
          nth_error (queueOf st) j = Some u ->
          QueueUser.id u = localParticipant pg st ->
          ((k < j)%nat ->
           BinaryData.currentUserPosition (UserData.binaryData st')
           = Z.of_nat j - Z.of_nat k
           /\ nth_error (queueOf st') (j - k - 1)
              = Some (QueueUser.with_queuePosition u
                        (Z.of_nat j - Z.of_nat k)))
          /\ ((j < k)%nat ->
              BinaryData.currentUserPosition (UserData.binaryData st')
              = Z.of_nat (List.length (queueOf st)) - Z.of_nat k
                + Z.of_nat j
              /\ nth_error (queueOf st')
                           (List.length (queueOf st) - 1 - k + j)
                 = Some (QueueUser.with_queuePosition u
                           (Z.of_nat (List.length (queueOf st))
                            - Z.of_nat k + Z.of_nat j)))
          /\ (j = k ->
              BinaryData.currentUserPosition (UserData.binaryData st')
              = BinaryData.currentUserPosition (UserData.binaryData st)))
    /\ ((forall u, In u (queueOf st) ->
                   QueueUser.id u <> localParticipant pg st) ->
        BinaryData.currentUserPosition (UserData.binaryData st')
        = BinaryData.currentUserPosition (UserData.binaryData st)).
Proof.
  intros Hq. apply qualified_entrant_found in Hq.
  destruct (processQueue_run pg toLocaleString systemConfig now isoNow st Hq)
    as (k & w & st' & Hfirst & Hrun & Hqueue & _ & _ & Hpos & _).
  exists k, w, st'. split; [assumption|]. split; [assumption|].
  split; [assumption|].
  destruct Hfirst as (Hk & _ & _).
  pose proof (nth_error_lt _ _ Hk) as Hklen.
  rewrite Hqueue, Hpos.
  assert (Present :
            forall i u,
              nth_error (rotation (queueOf st) k) i = Some u ->
              QueueUser.id u = localParticipant pg st ->
              (forall j v, (j < i)%nat ->
                           nth_error (rotation (queueOf st) k) j = Some v ->
                           QueueUser.id v <> localParticipant pg st) ->
              (if JS.findIndex (isLocal pg st) (rotation (queueOf st) k) + 1
                  >? 0
               then JS.findIndex (isLocal pg st) (rotation (queueOf st) k)
                    + 1
               else BinaryData.currentUserPosition (UserData.binaryData st))
              = Z.of_nat i + 1).
  { intros i u Hn Hu Hlt.
    rewrite (@findIndex_first _ (isLocal pg st) _ i u Hn).
    - now replace (Z.of_nat i + 1 >? 0) with true
        by (symmetry; apply Z.gtb_lt; lia).
    - unfold isLocal. rewrite Hu. apply String.eqb_refl.
    - intros j v Hj Hv. unfold isLocal. apply String.eqb_neq. eauto. }
  assert (Absent :
            (forall u, In u (rotation (queueOf st) k) ->
                       QueueUser.id u <> localParticipant pg st) ->
            (if JS.findIndex (isLocal pg st) (rotation (queueOf st) k) + 1
                >? 0
             then JS.findIndex (isLocal pg st) (rotation (queueOf st) k) + 1
             else BinaryData.currentUserPosition (UserData.binaryData st))
            = BinaryData.currentUserPosition (UserData.binaryData st)).
  { intros Habs. rewrite findIndex_absent; [reflexivity|].
    apply existsb_absent. intros u Hin. unfold isLocal.
    apply String.eqb_neq. auto. }
  split.
  { intros i u Hn Hu Hlt. split; [now apply (Present i u)|].
    rewrite (Present i u Hn Hu Hlt). symmetry.
    eapply rotation_position; eauto. }
  split; [exact Absent|]. split.
  - intros Hnd j u Hj Hu.
    destruct (rotation_ids_NoDup _ _ Hk Hnd) as [Hnd' Hw].
    assert (Alone :
              forall i u',
                nth_error (rotation (queueOf st) k) i = Some u' ->
                QueueUser.id u' = localParticipant pg st ->
                forall j' v, (j' < i)%nat ->
                             nth_error (rotation (queueOf st) k) j' = Some v ->
                             QueueUser.id v <> localParticipant pg st).
    { intros i u' Hi Hu' j' v Hlt Hv E.
      assert (j' = i)
        by (eapply (@only_row_with_the_id _ i j' u' v); eauto; congruence).
      lia. }
    split; [|split].
    + intros Hlt.
      pose proof (@rotation_nth_after _ _ _ _ Hj Hlt) as Hnew.
      split; [|exact Hnew].
      rewrite (Present _ _ Hnew Hu (Alone _ _ Hnew Hu)). lia.
    + intros Hlt.
      pose proof (@rotation_nth_before _ _ _ _ Hj Hlt Hklen) as Hnew.
      split; [|exact Hnew].
      rewrite (Present _ _ Hnew Hu (Alone _ _ Hnew Hu)). lia.
    + intros E. subst j. rewrite Hk in Hj. inversion Hj; subst u.
      apply Absent. intros v Hin Ev. apply Hw. rewrite Hu, <- Ev.
      now apply in_map.
  - intros Habs. apply Absent. intros v Hin Ev.
    assert (Hid : In (QueueUser.id v) (map QueueUser.id (queueOf st)))
      by (eapply rotation_ids_from; apply in_map; eauto).
    apply in_map_iff in Hid. destruct Hid as (v0 & E0 & Hin0).
    apply (Habs v0 Hin0). congruence.
Qed.

Lemma processQueue_currentUserPosition_witness :
  exists st',
    processQueue DashboardPage JS.numberToString Sample.config
                 Sample.clock Sample.iso
                 (Sample.state "A" [] [] Sample.queue) = Some st'
    /\ map QueueUser.id (queueOf st') = ["C"; "A"]%string
    /\ BinaryData.currentUserPosition
         (UserData.binaryData (Sample.state "A" [] [] Sample.queue)) = 3
    /\ BinaryData.currentUserPosition (UserData.binaryData st') = 2
    /\ nth_error (queueOf st') 1
       = Some (Sample.entrant "A" "Ann" 2 false).
Proof.
  destruct (@processQueue_currentUserPosition DashboardPage
              JS.numberToString Sample.config Sample.clock Sample.iso
              (Sample.state "A" [] [] Sample.queue)
              (ex_intro _ (Sample.entrant "B" "Bob" 2 true)
                 (conj (or_intror (or_introl eq_refl)) eq_refl)))
    as (k & w & st' & Hrun & (Hn & Hw & Hlt) & Hqueue & _ & _ & Hold & _).
  exists st'. split; [exact Hrun|].
  assert (Hnd : NoDup (map QueueUser.id
                           (queueOf (Sample.state "A" [] [] Sample.queue)))).
  { cbn. repeat constructor; cbn; intuition discriminate. }
  destruct k as [|[|k]].
  - vm_compute in Hn. inversion Hn; subst. discriminate Hw.
  - destruct (Hold Hnd 0%nat (Sample.entrant "A" "Ann" 1 false)
                   eq_refl eq_refl) as (_ & Hbefore & _).
    destruct (Hbefore ltac:(lia)) as [Hp Hrow].
    split; [rewrite Hqueue; reflexivity|]. split; [reflexivity|].
    split; [exact Hp | exact Hrow].
  - assert (Hb : QueueUser.isQualified (Sample.entrant "B" "Bob" 2 true)
                 = false)
      by (apply (Hlt 1%nat); [lia | reflexivity]).
    discriminate Hb.
Defined.

(** ** The payment-expiry sweep *)

Lemma status_eqb_eq (a b : Payment.status_t) :
  Payment.status_eqb a b = true <-> a = b.
Proof.
  destruct a, b; simpl; split; intros H; try reflexivity; discriminate.
Qed.

Lemma paymentTimedOut_iff (duration now : Z) (p : Payment.t) :
  paymentTimedOut duration now p = true <-> dueToExpire duration now p.
Proof.
  unfold paymentTimedOut, dueToExpire, JS.truthyOptNumber, JS.numberOfOpt.
  rewrite !andb_true_iff, status_eqb_eq, negb_true_iff, String.eqb_neq.
  rewrite Z.gtb_gt.
  destruct (Payment.assignedTimestamp p) as [t|].
  - rewrite negb_true_iff, Z.eqb_neq. split.
    + intros (((Hs & Ht) & Hty) & Hn). repeat split; auto. exists t. auto.
    + intros (Hs & Hty & t' & Et & Ht & Hn). inversion Et; subst. auto.
  - split.
    + intros (((_ & Ht) & _) & _). discriminate.
    + intros (_ & _ & t' & Et & _). discriminate.
Qed.

Lemma map_unchanged {A} (c : A -> bool) (g : A -> A) (l : list A) :
  existsb c l = false -> map (fun x => if c x then g x else x) l = l.
Proof.
  induction l as [|x t IH]; simpl; auto.
  destruct (c x); simpl; [discriminate|].
  intros H. now rewrite IH.
Qed.

(** Both sweeps map the timed-out payments to [expired] and touch nothing
    else. *)
Lemma expirePayments_run (pg : page) (systemConfig : SystemConfig.t)
      (now : Z) (st : UserData.t) :
  expirePayments pg systemConfig now st
  = UserData.set_paymentsData st
      (map (fun p =>
              if paymentTimedOut (timerDuration pg systemConfig) now p
              then Payment.with_status p Payment.expired else p)
           (UserData.paymentsData st)).
Proof.
  destruct pg; simpl; unfold Home.timerInterval, Dashboard.timerInterval.
  - destruct (existsb _ _) eqn:E; [reflexivity|].
    now rewrite map_unchanged.
  - destruct (existsb _ _) eqn:E.
    + destruct st; reflexivity.
    + rewrite map_unchanged by assumption. destruct st; reflexivity.
Qed.

(** C4. For a payment that carries the timestamp it was assigned (both
    files write [assignedTimestamp] from the clock only), the payment-expiry
    sweep turns the payment into [expired] exactly when its status is
    [unpaid], its type is not [admin] and the clock exceeds
    [assignedTimestamp] plus the configured duration.  An admin payment is
    never expired, a payment in another status is left as it is, and so is
    the rest of the state. *)
Theorem expirePayments_exactly_when_due
    (pg : page) (systemConfig : SystemConfig.t) (now : Z) (st : UserData.t)
    (i : nat) (p : Payment.t) (t : Z) :
  nth_error (UserData.paymentsData st) i = Some p ->
  Payment.assignedTimestamp p = Some t ->
  t <> 0 ->
  let due :=
    Payment.status p = Payment.unpaid
    /\ Payment.type p <> "admin"%string
    /\ now > t + timerDuration pg systemConfig in
  let after :=
    UserData.paymentsData (expirePayments pg systemConfig now st) in
  (due -> nth_error after i = Some (Payment.with_status p Payment.expired))
  /\ (~ due -> nth_error after i = Some p)
  /\ ((exists p', nth_error after i = Some p'
                  /\ Payment.status p' = Payment.expired
                  /\ Payment.status p <> Payment.expired)
      <-> due)
  /\ (Payment.type p = "admin"%string -> nth_error after i = Some p)
  /\ (Payment.status p <> Payment.unpaid -> nth_error after i = Some p)
  /\ List.length after = List.length (UserData.paymentsData st)
  /\ UserData.pendingConfirmations (expirePayments pg systemConfig now st)
     = UserData.pendingConfirmations st
  /\ sameElsewhere st (expirePayments pg systemConfig now st).
Proof.
  intros Hn Ht H0 due after. subst after.
  assert (D : dueToExpire (timerDuration pg systemConfig) now p <-> due).
  { unfold dueToExpire. subst due. split.
    - intros (Hs & Hty & t' & Et & _ & Hlate).
      rewrite Ht in Et. inversion Et. subst t'. auto.
    - intros (Hs & Hty & Hlate). repeat split; auto. exists t. auto. }
  rewrite expirePayments_run. cbn [UserData.paymentsData
    UserData.set_paymentsData UserData.pendingConfirmations].
  rewrite nth_error_map, Hn. cbn [option_map].
  assert (Hdue : due ->
                 paymentTimedOut (timerDuration pg systemConfig) now p
                 = true)
    by (intros H; apply paymentTimedOut_iff, D, H).
  assert (Hnot : ~ due ->
                 paymentTimedOut (timerDuration pg systemConfig) now p
                 = false).
  { intros H. destruct (paymentTimedOut _ now p) eqn:E; auto.
    apply paymentTimedOut_iff, D in E. contradiction. }
  split; [intros H; now rewrite (Hdue H)|].
  split; [intros H; now rewrite (Hnot H)|].
  split.
  { split.
    - intros (p' & E & Hs' & Hs).
      destruct (paymentTimedOut _ now p) eqn:F.
      + now apply D, paymentTimedOut_iff.
      + inversion E. subst p'. contradiction.
    - intros H. rewrite (Hdue H). eexists. split; [reflexivity|].
      split; [reflexivity|]. destruct H as (Hs & _). rewrite Hs.
      discriminate. }
  split.
  { intros Hadmin. rewrite Hnot; auto. intros (_ & Hty & _). contradiction. }
  split.
  { intros Hst. rewrite Hnot; auto. intros (Hs & _). contradiction. }
  split; [apply length_map|]. repeat split.
Qed.

Lemma expirePayments_exactly_when_due_witness :
  nth_error
    (UserData.paymentsData
       (expirePayments DashboardPage Sample.config Sample.clock
          (Sample.state "me"
             [Sample.payment "pay_up2" "upline2" Payment.unpaid "" None
                             (Some (Sample.clock - 3 * 3600000));
              Sample.payment "pay_adm" "admin" Payment.unpaid "" None
                             (Some (Sample.clock - 3 * 3600000))] [] [])))
    0
  = Some (Sample.payment "pay_up2" "upline2" Payment.expired "" None
                         (Some (Sample.clock - 3 * 3600000)))
  /\ nth_error
       (UserData.paymentsData
          (expirePayments DashboardPage Sample.config Sample.clock
             (Sample.state "me"
                [Sample.payment "pay_up2" "upline2" Payment.unpaid "" None
                                (Some (Sample.clock - 3 * 3600000));
                 Sample.payment "pay_adm" "admin" Payment.unpaid "" None
                                (Some (Sample.clock - 3 * 3600000))] [] [])))
       1
     = Some (Sample.payment "pay_adm" "admin" Payment.unpaid "" None
                            (Some (Sample.clock - 3 * 3600000))).
Proof.
  split.
  - apply (proj1 (@expirePayments_exactly_when_due DashboardPage
                    Sample.config Sample.clock
                    (Sample.state "me"
                       [Sample.payment "pay_up2" "upline2" Payment.unpaid ""
                                       None
                                       (Some (Sample.clock - 3 * 3600000));
                        Sample.payment "pay_adm" "admin" Payment.unpaid ""
                                       None
                                       (Some (Sample.clock - 3 * 3600000))]
                       [] [])
                    0 _ (Sample.clock - 3 * 3600000)
                    eq_refl eq_refl ltac:(discriminate))).
    repeat split; discriminate.
  - reflexivity.
Defined.

(** ** Rejecting a confirmation *)

Lemma idIs_true (pid : option string) (p : Payment.t) :
  idIs pid p = true <-> pid = Some (Payment.id p).
Proof.
  unfold idIs. destruct pid as [x|].
  - rewrite String.eqb_eq. split; intros H; [now subst|now inversion H].
  - split; discriminate.
Qed.

Lemma reset_sameSlot (p : Payment.t) (now : Z) :
  sameSlot p (Payment.reset p now).
Proof.
  repeat split.
Qed.

(** Both handlers, once the confirmation is found. *)
Lemma reject_run (pg : page) (now : Z) (confirmationId : string)
      (st : UserData.t) (c : Confirmation.t) :
  find (fun c => String.eqb (Confirmation.id c) confirmationId)
       (UserData.pendingConfirmations st) = Some c ->
  reject pg now confirmationId st
  = UserData.set_paymentsData
      (UserData.set_pendingConfirmations st
         (filter (fun c => negb (String.eqb (Confirmation.id c)
                                            confirmationId))
                 (UserData.pendingConfirmations st)))
      (map (fun p => if idIs (Confirmation.paymentId c) p
                     then Payment.reset p now else p)
           (UserData.paymentsData st)).
Proof.
  intros H. destruct pg; simpl;
    unfold Home.handleRejectPayment, Dashboard.handleRejectPayment;
    rewrite H; destruct st; reflexivity.
Qed.

(** C9. [reject(confirmationId)] on an existing pending confirmation removes
    it from the pending list (and keeps every confirmation with another id),
    and resets the underlying payment: status [unpaid], empty
    [transactionId], no [proof], [assignedTimestamp = now].  Every other
    field of that payment (receiver, amount, payment details) is unchanged,
    every other payment is unchanged, and so is the rest of the state. *)
Theorem reject_resets_only_the_payment
    (pg : page) (now : Z) (confirmationId : string) (st : UserData.t)
    (c : Confirmation.t) :
  find (fun c => String.eqb (Confirmation.id c) confirmationId)
       (UserData.pendingConfirmations st) = Some c ->
  In c (UserData.pendingConfirmations st)
  /\ Confirmation.id c = confirmationId
  /\ ~ In c (UserData.pendingConfirmations (reject pg now confirmationId st))
  /\ (forall c',
        In c' (UserData.pendingConfirmations (reject pg now confirmationId st))
        <-> In c' (UserData.pendingConfirmations st)
            /\ Confirmation.id c' <> confirmationId)
  /\ List.length (UserData.paymentsData (reject pg now confirmationId st))
     = List.length (UserData.paymentsData st)
  /\ (forall i p,
        nth_error (UserData.paymentsData st) i = Some p ->
        (Confirmation.paymentId c = Some (Payment.id p) ->
         exists p',
           nth_error
             (UserData.paymentsData (reject pg now confirmationId st)) i
           = Some p'
           /\ Payment.status p' = Payment.unpaid
           /\ Payment.transactionId p' = ""%string
           /\ Payment.proof p' = None
           /\ Payment.assignedTimestamp p' = Some now
           /\ sameSlot p p')
        /\ (Confirmation.paymentId c <> Some (Payment.id p) ->
            nth_error
              (UserData.paymentsData (reject pg now confirmationId st)) i
            = Some p))
  /\ sameElsewhere st (reject pg now confirmationId st).
Proof.
  intros Hfind. rewrite (reject_run pg now _ st Hfind).
  cbn [UserData.paymentsData UserData.pendingConfirmations
       UserData.set_paymentsData UserData.set_pendingConfirmations].
  pose proof (find_some _ _ Hfind) as [Hin Hid].
  apply String.eqb_eq in Hid.
  split; [assumption|]. split; [assumption|]. split.
  { intros H. apply filter_In in H. destruct H as [_ H].
    rewrite Hid, String.eqb_refl in H. discriminate. }
  split.
  { intros c'. rewrite filter_In, negb_true_iff, String.eqb_neq. tauto. }
  split; [apply length_map|]. split.
  - intros i p Hn. rewrite nth_error_map, Hn. simpl. split.
    + intros Hp. apply idIs_true in Hp. rewrite Hp.
      exists (Payment.reset p now). repeat split.
    + intros Hp. destruct (idIs (Confirmation.paymentId c) p) eqn:E; auto.
      apply idIs_true in E. contradiction.
  - repeat split.
Qed.

Lemma reject_resets_only_the_payment_witness :
  find (fun c => String.eqb (Confirmation.id c) "conf_1")
       (UserData.pendingConfirmations
          (Sample.state "me"
             [Sample.payment "pay_ref" "referral" Payment.pending "TX"
                             (Some "img") (Some 5)]
             [Sample.confirmation "conf_1" "pay_ref" 7] []))
  = Some (Sample.confirmation "conf_1" "pay_ref" 7)
  /\ UserData.pendingConfirmations
       (reject HomePage Sample.clock "conf_1"
          (Sample.state "me"
             [Sample.payment "pay_ref" "referral" Payment.pending "TX"
                             (Some "img") (Some 5)]
             [Sample.confirmation "conf_1" "pay_ref" 7] []))
     = []
  /\ ~ In (Sample.confirmation "conf_1" "pay_ref" 7)
          (UserData.pendingConfirmations
             (reject HomePage Sample.clock "conf_1"
                (Sample.state "me"
                   [Sample.payment "pay_ref" "referral" Payment.pending "TX"
                                   (Some "img") (Some 5)]
                   [Sample.confirmation "conf_1" "pay_ref" 7] []))).
Proof.
  split; [reflexivity|]. split; [reflexivity|].
  exact (proj1 (proj2 (proj2
           (@reject_resets_only_the_payment HomePage Sample.clock "conf_1"
              (Sample.state "me"
                 [Sample.payment "pay_ref" "referral" Payment.pending "TX"
                                 (Some "img") (Some 5)]
                 [Sample.confirmation "conf_1" "pay_ref" 7] [])
              (Sample.confirmation "conf_1" "pay_ref" 7)
              eq_refl)))).
Defined.

(** ** The qualification effect *)

(** One run of the effect in either file. *)
Lemma onQualificationChange_run (pg : page) (toLocaleString : Z -> string)
      (now : Z) (isoNow : string) (prev : bool) (st : UserData.t) :
  onQualificationChange pg toLocaleString now isoNow prev st
  = (isQualifiedForBinary (UserData.sponsorData st),
     if isQualifiedForBinary (UserData.sponsorData st) && negb prev
        && (0 <? Z.of_nat (List.length
                             (BinaryData.pendingPairs
                                (UserData.binaryData st))))
     then
       UserData.mk (UserData.profile st) (UserData.paymentsData st)
         (UserData.pendingConfirmations st)
         (map (payoutLine isoNow)
              (map (paidOut isoNow)
                   (BinaryData.pendingPairs (UserData.binaryData st)))
          ++ UserData.transactionsData st)
         (UserData.disputes st)
         (payoutNotice toLocaleString now
            (BinaryData.pendingPairs (UserData.binaryData st))
          :: UserData.notifications st)
         (BinaryData.mk
            (BinaryData.leftTeam (UserData.binaryData st))
            (BinaryData.rightTeam (UserData.binaryData st))
            (BinaryData.matchedPairs (UserData.binaryData st)
             ++ map (paidOut isoNow)
                    (BinaryData.pendingPairs (UserData.binaryData st)))
            []
            (BinaryData.matchingQueue (UserData.binaryData st))
            (BinaryData.currentUserPosition (UserData.binaryData st)))
         (UserData.sponsorData st) (UserData.allUsers st)
     else st).
Proof.
  destruct pg; simpl;
    unfold Home.qualificationEffect, Dashboard.qualificationEffect;
    destruct (_ && _ && _); reflexivity.
Qed.

Lemma nonempty_length {A} (l : list A) :
  l <> [] -> (0 <? Z.of_nat (List.length l)) = true.
Proof.
  destruct l; [congruence|]. intros _. apply Z.ltb_lt. simpl. lia.
Qed.

(** C5. Between the runs of the effect the pending pairs are gone only
    once the qualification has been recorded ([payoutPending], kept by every
    run).  On such a state the conversion fires on a run exactly when the
    flag is true and its recorded value is false, the false-to-true
    transition: every pending pair is moved to [matchedPairs] with status
    [paid], [pendingPairs] becomes empty (pending total 0), one income
    notification carrying the lump sum is emitted and one ledger line per
    converted pair is added.  The recorded value becomes true, so the
    conversion fires once: a run with the recorded value true, in particular
    every repeated run, changes nothing, and so does a run with the flag
    false. *)
Theorem qualification_edge_trigger
    (pg : page) (toLocaleString : Z -> string) (now : Z) (isoNow : string)
    (prev : bool) (st : UserData.t) :
  payoutPending prev st ->
  let pending := BinaryData.pendingPairs (UserData.binaryData st) in
  let r := onQualificationChange pg toLocaleString now isoNow prev st in
  fst r = isQualifiedForBinary (UserData.sponsorData st)
  /\ (prev = false ->
      isQualifiedForBinary (UserData.sponsorData st) = true ->
      pending <> []
      /\ BinaryData.matchedPairs (UserData.binaryData (snd r))
         = BinaryData.matchedPairs (UserData.binaryData st)
           ++ map (paidOut isoNow) pending
      /\ (forall p, In p (map (paidOut isoNow) pending) ->
                    MatchedPair.status p = MatchedPair.paid)
      /\ BinaryData.pendingPairs (UserData.binaryData (snd r)) = []
      /\ totalAmount (BinaryData.pendingPairs (UserData.binaryData (snd r)))
         = 0
      /\ UserData.notifications (snd r)
         = payoutNotice toLocaleString now pending
           :: UserData.notifications st
      /\ Notification.type (payoutNotice toLocaleString now pending)
         = Notification.income
      /\ UserData.transactionsData (snd r)
         = map (payoutLine isoNow) (map (paidOut isoNow) pending)
           ++ UserData.transactionsData st
      /\ List.length (map (payoutLine isoNow) (map (paidOut isoNow) pending))
         = List.length pending
      /\ forall now' isoNow',
           onQualificationChange pg toLocaleString now' isoNow' (fst r)
                                 (snd r)
           = (true, snd r))
  /\ (prev = true -> snd r = st)
  /\ (isQualifiedForBinary (UserData.sponsorData st) = false -> snd r = st)
  /\ (snd r <> st ->
      prev = false /\ isQualifiedForBinary (UserData.sponsorData st) = true)
  /\ payoutPending (fst r) (snd r).
Proof.
  intros [Inv1 Inv2] pending r. subst r pending.
  rewrite onQualificationChange_run. cbn [fst snd].
  split; [reflexivity|]. split; [|split; [|split; [|split]]].
  - intros Hp Hq.
    assert (Hne : BinaryData.pendingPairs (UserData.binaryData st) <> []).
    { intros E. specialize (Inv1 E). congruence. }
    split; [exact Hne|].
    rewrite Hp, Hq, (nonempty_length Hne).
    cbn [andb negb UserData.binaryData UserData.notifications
         UserData.transactionsData BinaryData.matchedPairs
         BinaryData.pendingPairs].
    repeat split.
    + intros p Hin. apply in_map_iff in Hin.
      destruct Hin as (p0 & E & _). now subst p.
    + now rewrite !length_map.
    + intros now' isoNow'. rewrite onQualificationChange_run.
      cbn [UserData.sponsorData UserData.binaryData BinaryData.pendingPairs
           List.length Z.of_nat].
      rewrite Hq. reflexivity.
  - intros Hp. rewrite Hp, andb_false_r. reflexivity.
  - intros Hq. rewrite Hq. reflexivity.
  - intros Hch. destruct prev.
    + rewrite andb_false_r in Hch. now elim Hch.
    + destruct (isQualifiedForBinary (UserData.sponsorData st));
        [split; reflexivity | now elim Hch].
  - unfold payoutPending.
    destruct (isQualifiedForBinary (UserData.sponsorData st)) eqn:Hq.
    + split; [reflexivity|]. intros _.
      destruct (true && negb prev && _); cbn [UserData.sponsorData];
        exact Hq.
    + cbn [andb]. split; [|discriminate].
      intros E. specialize (Inv1 E). specialize (Inv2 Inv1). congruence.
Qed.

Lemma qualification_edge_trigger_witness :
  BinaryData.matchedPairs
    (UserData.binaryData
       (snd (onQualificationChange DashboardPage JS.numberToString
               Sample.clock Sample.iso false
               (Sample.qualified [Sample.pair 2 MatchedPair.pending]))))
  = [Sample.pair 1 MatchedPair.paid;
     paidOut Sample.iso (Sample.pair 2 MatchedPair.pending)]
  /\ BinaryData.pendingPairs
       (UserData.binaryData
          (snd (onQualificationChange DashboardPage JS.numberToString
                  Sample.clock Sample.iso false
                  (Sample.qualified [Sample.pair 2 MatchedPair.pending]))))
     = [].
Proof.
  assert (I : payoutPending false
                (Sample.qualified [Sample.pair 2 MatchedPair.pending])).
  { split; intros E; [cbn in E|]; discriminate E. }
  destruct (proj1 (proj2
              (@qualification_edge_trigger DashboardPage JS.numberToString
                 Sample.clock Sample.iso false
                 (Sample.qualified [Sample.pair 2 MatchedPair.pending]) I))
             eq_refl eq_refl)
    as (_ & H1 & _ & H2 & _).
  split; [exact H1 | exact H2].
Defined.

(** ** Submitting a payment *)

(** Both handlers. *)
Lemma submit_run (pg : page) (now : Z) (isoNow : string)
      (payment : Payment.t) (st : UserData.t) :
  submit pg now isoNow payment st
  = UserData.set_pendingConfirmations
      (UserData.set_paymentsData st
         (map (fun p => if String.eqb (Payment.id p) (Payment.id payment)
                        then Payment.with_status p Payment.pending else p)
              (UserData.paymentsData st)))
      (UserData.pendingConfirmations st
       ++ [Confirmation.mk ("conf_" ++ JS.numberToString now)
             (Some (Payment.id payment))
             (UserProfile.name (UserData.profile st))
             (Payment.amount payment) (Payment.transactionId payment)
             (Payment.proof payment) isoNow (Payment.title payment) now
             (Payment.receiverId payment) (Payment.title payment)]).
Proof.
  destruct pg; destruct st; reflexivity.
Qed.

(** C7, as stated, fails: [handleSubmitPayment] checks neither the fields nor
    the status.  The user opens the dialog on an unpaid payment, the expiry
    sweep marks the payment [expired] while the dialog is open, and the
    confirm button then turns the expired payment into [pending] and files a
    confirmation. *)
Lemma submit_acts_on_an_expired_payment :
  PaymentCard.click "bank"
    (Sample.payment "pay_up1" "upline1" Payment.unpaid "TX1" (Some "img")
                    (Some 5))
  = Some (PaymentCard.onSubmit
            (Sample.payment "pay_up1" "upline1" Payment.unpaid "TX1"
                            (Some "img") (Some 5)))
  /\ map Payment.status
         (UserData.paymentsData
            (expirePayments HomePage Sample.config Sample.clock
               (Sample.state "me"
                  [Sample.payment "pay_up1" "upline1" Payment.unpaid "TX1"
                                  (Some "img") (Some 5)] [] [])))
     = [Payment.expired]
  /\ map Payment.status
         (UserData.paymentsData
            (JoinTab.handleConfirmSubmit
               (JoinTab.handleSubmitClick
                  (Sample.payment "pay_up1" "upline1" Payment.unpaid "TX1"
                                  (Some "img") (Some 5)))
               (submit HomePage Sample.clock Sample.iso)
               (expirePayments HomePage Sample.config Sample.clock
                  (Sample.state "me"
                     [Sample.payment "pay_up1" "upline1" Payment.unpaid "TX1"
                                     (Some "img") (Some 5)] [] []))))
     = [Payment.pending]
  /\ map Confirmation.paymentId
         (UserData.pendingConfirmations
            (JoinTab.handleConfirmSubmit
               (JoinTab.handleSubmitClick
                  (Sample.payment "pay_up1" "upline1" Payment.unpaid "TX1"
                                  (Some "img") (Some 5)))
               (submit HomePage Sample.clock Sample.iso)
               (expirePayments HomePage Sample.config Sample.clock
                  (Sample.state "me"
                     [Sample.payment "pay_up1" "upline1" Payment.unpaid "TX1"
                                     (Some "img") (Some 5)] [] []))))
     = [Some "pay_up1"%string]
  /\ map Payment.status
         (UserData.paymentsData
            (submit DashboardPage Sample.clock Sample.iso
               (Sample.payment "pay_ref" "referral" Payment.confirmed ""
                               None (Some 5))
               (Sample.state "me"
                  [Sample.payment "pay_ref" "referral" Payment.confirmed ""
                                  None (Some 5)] [] [])))
     = [Payment.pending].
Proof.
  repeat split.
Qed.

(** C7, amended. The requirements sit in the payment card, not in the
    handler: the card offers its button only while the payment is [unpaid]
    and enables it only with a non-empty [transactionId] (and, for a
    non-crypto method, a proof); a crypto click goes to auto-verify, any
    other to submit.  [handleSubmitPayment] itself, whenever invoked, sets
    every stored payment with the given payment's id to [pending] whatever
    its status was, and appends one confirmation carrying the payment's id,
    amount and [transactionId] with [submittedTimestamp = now]; it changes
    nothing else. *)
Theorem submit_gate_and_effect
    (pg : page) (now : Z) (isoNow : string) (activeMethod : string)
    (payment : Payment.t) (st : UserData.t) :
  (PaymentCard.click activeMethod payment
   = Some (PaymentCard.onSubmit payment)
   <-> Payment.status payment = Payment.unpaid
       /\ activeMethod <> "crypto"%string
       /\ Payment.transactionId payment <> ""%string
       /\ exists proof, Payment.proof payment = Some proof
                        /\ proof <> ""%string)
  /\ (PaymentCard.click activeMethod payment
      = Some (PaymentCard.onAutoVerify payment)
      <-> Payment.status payment = Payment.unpaid
          /\ activeMethod = "crypto"%string
          /\ Payment.transactionId payment <> ""%string)
  /\ (Payment.status payment <> Payment.unpaid ->
      PaymentCard.click activeMethod payment = None)
  /\ (Payment.transactionId payment = ""%string ->
      PaymentCard.click activeMethod payment = None)
  /\ (exists c,
        UserData.pendingConfirmations (submit pg now isoNow payment st)
        = UserData.pendingConfirmations st ++ [c]
        /\ Confirmation.paymentId c = Some (Payment.id payment)
        /\ Confirmation.amount c = Payment.amount payment
        /\ Confirmation.transactionId c = Payment.transactionId payment
        /\ Confirmation.submittedTimestamp c = now)
  /\ (forall i p,
        nth_error (UserData.paymentsData st) i = Some p ->
        nth_error (UserData.paymentsData (submit pg now isoNow payment st)) i
        = Some (if String.eqb (Payment.id p) (Payment.id payment)
                then Payment.with_status p Payment.pending else p))
  /\ sameElsewhere st (submit pg now isoNow payment st).
Proof.
  unfold PaymentCard.click, PaymentCard.canSubmit, PaymentCard.isCrypto,
    JS.truthyOptString, JS.truthyString.
  split; [|split; [|split; [|split]]].
  - destruct (Payment.status_eqb _ _) eqn:Es.
    + apply status_eqb_eq in Es.
      destruct (String.eqb activeMethod "crypto") eqn:Em.
      * apply String.eqb_eq in Em.
        destruct (negb _); split; try discriminate; tauto.
      * apply String.eqb_neq in Em.
        destruct (String.eqb (Payment.transactionId payment) "") eqn:Et;
          simpl.
        -- apply String.eqb_eq in Et. split; [discriminate|tauto].
        -- apply String.eqb_neq in Et.
           destruct (Payment.proof payment) as [pr|]; simpl.
           ++ destruct (String.eqb pr "") eqn:Ep; simpl.
              ** apply String.eqb_eq in Ep. split; [discriminate|].
                 intros (_ & _ & _ & x & Hx & Hne). inversion Hx; subst.
                 contradiction.
              ** apply String.eqb_neq in Ep. split; auto.
                 intros _. repeat split; auto. exists pr. auto.
           ++ split; [discriminate|].
              intros (_ & _ & _ & x & Hx & _). discriminate.
    + split; [discriminate|]. intros (Hs & _).
      apply status_eqb_eq in Hs. congruence.
  - destruct (Payment.status_eqb _ _) eqn:Es.
    + apply status_eqb_eq in Es.
      destruct (String.eqb activeMethod "crypto") eqn:Em.
      * apply String.eqb_eq in Em.
        destruct (String.eqb (Payment.transactionId payment) "") eqn:Et;
          simpl.
        -- apply String.eqb_eq in Et. split; [discriminate|tauto].
        -- apply String.eqb_neq in Et. tauto.
      * apply String.eqb_neq in Em.
        destruct (negb _ && _); split; try discriminate; tauto.
    + split; [discriminate|]. intros (Hs & _).
      apply status_eqb_eq in Hs. congruence.
  - intros Hs. destruct (Payment.status_eqb _ _) eqn:Es; auto.
    apply status_eqb_eq in Es. contradiction.
  - intros Ht. rewrite Ht. simpl.
    destruct (Payment.status_eqb _ _); auto.
    destruct (String.eqb activeMethod "crypto"); reflexivity.
  - rewrite submit_run.
    cbn [UserData.pendingConfirmations UserData.set_pendingConfirmations
         UserData.paymentsData UserData.set_paymentsData].
    split; [|split].
    + eexists. split; [reflexivity|]. repeat split.
    + intros i p Hn. now rewrite nth_error_map, Hn.
    + repeat split.
Qed.

(** ** The confirmation-expiry sweep of [src/Home.tsx] *)

Section HomeSweep.

Variable now : Z.
Variable payments0 : list Payment.t.


Lemma findIndex_ext {A B} (f : A -> bool) (g : B -> bool) :
  forall (l : list A) (l' : list B),
    List.length l = List.length l' ->
    (forall i x y, nth_error l i = Some x -> nth_error l' i = Some y ->
                   f x = g y) ->
    JS.findIndex f l = JS.findIndex g l'.
Proof.
  induction l as [|x t IH]; intros [|y t'] Hlen H; simpl in *;
    try discriminate; auto.
  rewrite (H 0%nat x y eq_refl eq_refl).
  rewrite (IH t'); auto.
  intros i a b Ha Hb. apply (H (S i)); auto.
Qed.

Lemma settled_id (p : Payment.t) : Payment.id (settled now p) = Payment.id p.
Proof.
  unfold settled. destruct (isMatrix p); reflexivity.
Qed.

Lemma sweepInv_findIndex (processed : list Confirmation.t)
      (acc : Home.sweep) (pid : option string) :
  sweepInv now payments0 processed acc ->
  JS.findIndex (idIs pid) (Home.newPayments acc)
  = JS.findIndex (idIs pid) payments0.
Proof.
  intros (Hlen & Hnth & _). apply findIndex_ext; auto.
  intros i x y Hx Hy. rewrite (Hnth _ _ Hy) in Hx. inversion Hx; subst.
  unfold idIs. destruct pid; auto.
  destruct (existsb _ _); now rewrite ?settled_id.
Qed.

Lemma setAt_length {A} (l : list A) :
  forall (i : nat) (v : A), List.length (JS.setAt l i v) = List.length l.
Proof.
  induction l as [|x t IH]; intros [|i] v; simpl; auto.
Qed.

Lemma setAt_nth {A} (l : list A) :
  forall (i j : nat) (v : A),
    (i < List.length l)%nat ->
    nth_error (JS.setAt l i v) j
    = if Nat.eqb j i then Some v else nth_error l j.
Proof.
  induction l as [|x t IH]; intros [|i] [|j] v H; simpl in *;
    try lia; auto.
  apply IH. lia.
Qed.

Lemma includes_setAdd (s : list string) (x y : string) :
  JS.includes (Home.setAdd s x) y = JS.includes s y || String.eqb y x.
Proof.
  unfold Home.setAdd. destruct (JS.includes s x) eqn:E.
  - destruct (String.eqb y x) eqn:Ey; [|now rewrite orb_false_r].
    apply String.eqb_eq in Ey. subst. now rewrite E.
  - unfold JS.includes. rewrite existsb_app. simpl. now rewrite orb_false_r.
Qed.

Lemma settled_again (p : Payment.t) :
  (if isMatrix (settled now p)
   then Payment.with_status (settled now p) Payment.disputed
   else Payment.reset (settled now p) now)
  = settled now p.
Proof.
  unfold settled, isMatrix. destruct (JS.startsWith (Payment.type p) "upline") eqn:E;
    simpl; rewrite E; reflexivity.
Qed.

Lemma sweepStep_inv (processed : list Confirmation.t) (acc : Home.sweep)
      (c : Confirmation.t) :
  sweepInv now payments0 processed acc ->
  sweepInv now payments0 (processed ++ [c]) (Home.sweepStep now acc c).
Proof.
  intros Inv.
  pose proof (sweepInv_findIndex (Confirmation.paymentId c) Inv) as Hfi.
  destruct Inv as (Hlen & Hnth & Hdis & Hhold).
  unfold Home.sweepStep. rewrite Hfi.
  destruct (existsb (idIs (Confirmation.paymentId c)) payments0) eqn:Ex.
  - destruct (findIndex_found _ _ Ex) as (k & p0 & Hk & Hn & Hid & _).
    pose proof (nth_error_lt _ _ Hn) as Hklen.
    assert (Hund : underlying payments0 c = Some p0).
    { unfold underlying. now rewrite Hk, at_of_nat. }
    rewrite Hk, at_of_nat, (Hnth _ _ Hn), Nat2Z.id.
    replace (Z.of_nat k =? -1) with false
      by (symmetry; apply Z.eqb_neq; lia).
    assert (Hty : JS.startsWith
                    (Payment.type (if existsb (targets payments0 k) processed
                                   then settled now p0 else p0)) "upline"
                  = isMatrix p0).
    { unfold settled, isMatrix.
      destruct (existsb (targets payments0 k) processed); auto.
      destruct (JS.startsWith (Payment.type p0) "upline") eqn:E; simpl;
        now rewrite E. }
    rewrite Hty.
    assert (Hnew : (if isMatrix p0
                    then Payment.with_status
                           (if existsb (targets payments0 k) processed
                            then settled now p0 else p0) Payment.disputed
                    else Payment.reset
                           (if existsb (targets payments0 k) processed
                            then settled now p0 else p0) now)
                   = settled now p0).
    { destruct (existsb (targets payments0 k) processed).
      - unfold settled, isMatrix.
        destruct (JS.startsWith (Payment.type p0) "upline"); reflexivity.
      - reflexivity. }
    assert (Hnth' : forall v i p,
               v = settled now p0 ->
               nth_error payments0 i = Some p ->
               nth_error (JS.setAt (Home.newPayments acc) k v) i
               = Some (if existsb (targets payments0 i) (processed ++ [c])
                       then settled now p else p)).
    { intros v i p Hv Hi. rewrite setAt_nth by lia.
      rewrite existsb_app. simpl.
      replace (targets payments0 i c) with (Z.of_nat k =? Z.of_nat i)
        by (unfold targets; now rewrite Hk).
      destruct (Nat.eqb i k) eqn:Eik.
      - apply Nat.eqb_eq in Eik. subst i.
        rewrite Z.eqb_refl, orb_true_r. simpl. congruence.
      - apply Nat.eqb_neq in Eik.
        replace (Z.of_nat k =? Z.of_nat i) with false
          by (symmetry; apply Z.eqb_neq; lia).
        rewrite !orb_false_r. now apply Hnth. }
    assert (Hesc : escalates payments0 c = isMatrix p0).
    { unfold escalates. now rewrite Hund. }
    assert (Hh : forall x, holds payments0 x c
                           = isMatrix p0
                             && String.eqb x (Payment.receiverId p0)).
    { intros x. unfold holds. now rewrite Hund. }
    destruct (isMatrix p0) eqn:Em; repeat split;
      cbn [Home.newPayments Home.newDisputes Home.usersToPutOnHold].
    + now rewrite setAt_length.
    + intros i p Hi. apply Hnth'; auto.
    + rewrite filter_app. simpl. now rewrite Hesc, Hdis.
    + intros x. rewrite includes_setAdd, Hhold, existsb_app. simpl.
      rewrite Hh, orb_false_r. simpl. f_equal. f_equal.
      destruct (existsb (targets payments0 k) processed); auto.
      unfold settled. now rewrite Em.
    + now rewrite setAt_length.
    + intros i p Hi. apply Hnth'; auto.
    + rewrite filter_app. simpl. now rewrite Hesc, app_nil_r.
    + intros x. rewrite Hhold, existsb_app. simpl.
      rewrite Hh. simpl. now rewrite orb_false_r.
  - rewrite (findIndex_absent _ _ Ex). simpl.
    assert (Hund : underlying payments0 c = None).
    { unfold underlying. now rewrite (findIndex_absent _ _ Ex). }
    assert (Hesc : escalates payments0 c = false).
    { unfold escalates. now rewrite Hund. }
    assert (Hh : forall x, holds payments0 x c = false).
    { intros x. unfold holds. now rewrite Hund. }
    repeat split; auto.
    + intros i p Hi. rewrite existsb_app. simpl.
      replace (targets payments0 i c) with false.
      * rewrite !orb_false_r. now apply Hnth.
      * unfold targets. rewrite (findIndex_absent _ _ Ex).
        symmetry; apply Z.eqb_neq; lia.
    + rewrite filter_app. simpl. now rewrite Hesc, app_nil_r.
    + intros x. rewrite Hhold, existsb_app. simpl.
      now rewrite Hh, !orb_false_r.
Qed.

Lemma sweep_fold (l : list Confirmation.t) :
  forall processed acc,
    sweepInv now payments0 processed acc ->
    sweepInv now payments0 (processed ++ l)
             (fold_left (Home.sweepStep now) l acc).
Proof.
  induction l as [|c t IH]; intros processed acc Inv; simpl.
  - now rewrite app_nil_r.
  - replace (processed ++ c :: t) with ((processed ++ [c]) ++ t)
      by (now rewrite <- app_assoc).
    apply IH. now apply sweepStep_inv.
Qed.

Lemma sweep_result (l : list Confirmation.t) :
  sweepInv now payments0 l
           (fold_left (Home.sweepStep now) l (Home.mkSweep payments0 [] [])).
Proof.
  apply (@sweep_fold l [] (Home.mkSweep payments0 [] [])).
  split; [reflexivity|]. split; [|split; [reflexivity|]].
  - intros i p H. exact H.
  - intros x. reflexivity.
Qed.

End HomeSweep.

Lemma includes_In (l : list string) (s : string) :
  JS.includes l s = true <-> In s l.
Proof.
  unfold JS.includes. rewrite existsb_exists. split.
  - intros (x & Hin & E). apply String.eqb_eq in E. now subst.
  - intros H. exists s. split; auto. apply String.eqb_refl.
Qed.

Lemma nonempty_In {A} (x : A) (l : list A) :
  In x l -> (0 <? Z.of_nat (List.length l)) = true.
Proof.
  intros H. apply nonempty_length. intros E. now rewrite E in H.
Qed.

Lemma removed_from_pending (ids : list string) (c : Confirmation.t)
      (l : list Confirmation.t) :
  In (Confirmation.id c) ids ->
  ~ In c (filter (fun c => negb (JS.includes ids (Confirmation.id c))) l).
Proof.
  intros Hid H. apply filter_In in H. destruct H as [_ H].
  apply includes_In in Hid. rewrite Hid in H. discriminate.
Qed.

(** The sweep of [src/Home.tsx] when some confirmation has timed out. *)
Lemma home_sweep_run (now : Z) (st : UserData.t) :
  let expired :=
    filter (confirmationTimedOut Home.PAYMENT_TIMER_DURATION now)
           (UserData.pendingConfirmations st) in
  let acc :=
    fold_left (Home.sweepStep now) expired
              (Home.mkSweep (UserData.paymentsData st) [] []) in
  expired <> [] ->
  Home.confirmationTimerInterval now st
  = UserData.mk (UserData.profile st) (Home.newPayments acc)
      (filter (fun c => negb (JS.includes (map Confirmation.id expired)
                                          (Confirmation.id c)))
              (UserData.pendingConfirmations st))
      (UserData.transactionsData st)
      (UserData.disputes st ++ Home.newDisputes acc)
      (UserData.notifications st) (UserData.binaryData st)
      (UserData.sponsorData st)
      (if 0 <? Z.of_nat (List.length (Home.newDisputes acc))
       then map (fun u => if JS.includes (Home.usersToPutOnHold acc)
                                         (AdminUser.id u)
                          then AdminUser.with_status u AdminUser.on_hold
                          else u)
                (UserData.allUsers st)
       else UserData.allUsers st).
Proof.
  intros expired acc Hne. unfold Home.confirmationTimerInterval.
  fold expired. rewrite (nonempty_length Hne).
  cbn [UserData.paymentsData UserData.set_pendingConfirmations].
  fold acc.
  destruct (Home.newDisputes acc) as [|d ds] eqn:Ed.
  - simpl. rewrite app_nil_r. destruct st; reflexivity.
  - replace (0 <? Z.of_nat (List.length (d :: ds))) with true
      by (symmetry; apply Z.ltb_lt; simpl; lia).
    destruct st; reflexivity.
Qed.

Lemma timedOut_iff (duration now : Z) (c : Confirmation.t) :
  confirmationTimedOut duration now c = true
  <-> now > Confirmation.submittedTimestamp c + duration.
Proof.
  unfold confirmationTimedOut. apply Z.gtb_gt.
Qed.

(** C3, as stated, fails on the second dashboard: the expired confirmation of
    a binary (non-upline) payment is escalated.  The payment becomes
    [disputed] instead of [unpaid], and the confirmation is filed as a
    dispute. *)
Lemma dashboard_sweep_disputes_a_binary_payment :
  isMatrix (Sample.payment "pay_bin" "binary" Payment.pending "TX"
                           (Some "img") (Some 5)) = false
  /\ Sample.clock
     > Confirmation.submittedTimestamp
         (Sample.confirmation "conf_7" "pay_bin" 7)
       + timerDuration DashboardPage Sample.config
  /\ UserData.paymentsData
       (expireConfirmations DashboardPage Sample.config Sample.clock
          (Sample.state "me"
             [Sample.payment "pay_bin" "binary" Payment.pending "TX"
                             (Some "img") (Some 5)]
             [Sample.confirmation "conf_7" "pay_bin" 7] []))
     = [Sample.payment "pay_bin" "binary" Payment.disputed "TX"
                       (Some "img") (Some 5)]
  /\ UserData.disputes
       (expireConfirmations DashboardPage Sample.config Sample.clock
          (Sample.state "me"
             [Sample.payment "pay_bin" "binary" Payment.pending "TX"
                             (Some "img") (Some 5)]
             [Sample.confirmation "conf_7" "pay_bin" 7] []))
     = [Sample.confirmation "conf_7" "pay_bin" 7].
Proof.
  repeat split.
Qed.

(** C3, amended. A pending confirmation whose [submittedTimestamp] plus the
    timer duration has passed is removed from the pending list by either
    sweep.  In [src/Home.tsx] it is escalated to a dispute if and only if its
    underlying payment is an upline (matrix) slot: that payment becomes
    [disputed] and every listed user with the payment's [receiverId] is put
    on hold; any other expired confirmation resets its payment to [unpaid]
    with [transactionId] and [proof] cleared and [assignedTimestamp = now],
    and no dispute is created for it.  In the second dashboard every payment
    with an expired confirmation becomes [disputed] whatever its type and an
    expired confirmation of it is filed as a dispute; nobody is put on hold,
    and a payment without an expired confirmation is left as it is. *)
Theorem expireConfirmations_outcome
    (pg : page) (systemConfig : SystemConfig.t) (now : Z) (st : UserData.t)
    (c : Confirmation.t) :
  In c (UserData.pendingConfirmations st) ->
  now > Confirmation.submittedTimestamp c + timerDuration pg systemConfig ->
  match pg with
  | HomePage =>
    ~ In c (UserData.pendingConfirmations (Home.confirmationTimerInterval now st))
    /\ exists added,
         UserData.disputes (Home.confirmationTimerInterval now st)
         = UserData.disputes st ++ added
         /\ (In c added
             <-> exists p, underlying (UserData.paymentsData st) c = Some p
                           /\ isMatrix p = true)
         /\ forall k p,
              JS.findIndex (idIs (Confirmation.paymentId c))
                           (UserData.paymentsData st) = Z.of_nat k ->
              nth_error (UserData.paymentsData st) k = Some p ->
              (isMatrix p = true ->
               nth_error
                 (UserData.paymentsData (Home.confirmationTimerInterval now st)) k
               = Some (Payment.with_status p Payment.disputed)
               /\ In c added
               /\ forall j u,
                    nth_error (UserData.allUsers st) j = Some u ->
                    AdminUser.id u = Payment.receiverId p ->
                    nth_error
                      (UserData.allUsers (Home.confirmationTimerInterval now st)) j
                    = Some (AdminUser.with_status u AdminUser.on_hold))
              /\ (isMatrix p = false ->
                  nth_error
                    (UserData.paymentsData (Home.confirmationTimerInterval now st))
                    k
                  = Some (Payment.reset p now)
                  /\ ~ In c added)
  | DashboardPage =>
    ~ In c (UserData.pendingConfirmations
              (Dashboard.confirmationTimerInterval systemConfig now st))
    /\ UserData.allUsers (Dashboard.confirmationTimerInterval systemConfig now st)
       = UserData.allUsers st
    /\ (forall i p,
          nth_error (UserData.paymentsData st) i = Some p ->
          Confirmation.paymentId c = Some (Payment.id p) ->
          nth_error
            (UserData.paymentsData
               (Dashboard.confirmationTimerInterval systemConfig now st)) i
          = Some (Payment.with_status p Payment.disputed)
          /\ exists c',
               In c' (UserData.disputes
                        (Dashboard.confirmationTimerInterval systemConfig now st))
               /\ Confirmation.paymentId c' = Some (Payment.id p))
    /\ (forall i p,
          nth_error (UserData.paymentsData st) i = Some p ->
          (forall c', In c' (UserData.pendingConfirmations st) ->
                      now > Confirmation.submittedTimestamp c'
                            + Dashboard.paymentTimerDurationMs systemConfig ->
                      Confirmation.paymentId c' <> Some (Payment.id p)) ->
          nth_error
            (UserData.paymentsData
               (Dashboard.confirmationTimerInterval systemConfig now st)) i
          = Some p)
  end.
Proof.
  destruct pg; unfold timerDuration.
  {
    intros Hin Hlate.
    set (expired := filter (confirmationTimedOut Home.PAYMENT_TIMER_DURATION now)
                           (UserData.pendingConfirmations st)).
    assert (Hexp : In c expired).
    { apply filter_In. split; auto. now apply timedOut_iff. }
    assert (Hne : expired <> []) by (intros E; now rewrite E in Hexp).
    rewrite (home_sweep_run now st Hne). fold expired.
    pose proof (sweep_result now (UserData.paymentsData st) expired)
      as (Hlen & Hnth & Hdis & Hhold).
    set (acc := fold_left (Home.sweepStep now) expired
                          (Home.mkSweep (UserData.paymentsData st) [] [])) in *.
    cbn [UserData.pendingConfirmations UserData.disputes UserData.paymentsData
         UserData.allUsers].
    assert (Hadded : In c (Home.newDisputes acc)
                     <-> escalates (UserData.paymentsData st) c = true).
    { rewrite Hdis, filter_In. tauto. }
    split.
    { apply removed_from_pending. now apply in_map. }
    exists (Home.newDisputes acc). split; [reflexivity|]. split.
    { rewrite Hadded. unfold escalates.
      destruct (underlying (UserData.paymentsData st) c) as [p|].
      - split; [intros H; exists p; auto|].
        intros (p' & E & H). now inversion E; subst.
      - split; [discriminate|]. intros (p' & E & _). discriminate. }
    intros k p Hk Hn.
    assert (Hund : underlying (UserData.paymentsData st) c = Some p).
    { unfold underlying. now rewrite Hk, at_of_nat. }
    assert (Hesc : escalates (UserData.paymentsData st) c = isMatrix p).
    { unfold escalates. now rewrite Hund. }
    assert (Htar : existsb (targets (UserData.paymentsData st) k) expired
                   = true).
    { apply existsb_exists. exists c. split; auto.
      unfold targets. rewrite Hk. apply Z.eqb_refl. }
    pose proof (Hnth _ _ Hn) as Hp. rewrite Htar in Hp. unfold settled in Hp.
    split; intros Hm; rewrite Hm in Hp.
    - assert (Hc : In c (Home.newDisputes acc))
        by (apply Hadded; now rewrite Hesc).
      split; [assumption|]. split; [assumption|].
      intros j u Hu Hid. rewrite (nonempty_In _ _ Hc).
      rewrite nth_error_map, Hu. simpl.
      rewrite Hhold, Hid.
      replace (existsb (holds (UserData.paymentsData st) (Payment.receiverId p))
                       expired) with true; [reflexivity|].
      symmetry. apply existsb_exists. exists c. split; auto.
      unfold holds. rewrite Hund, Hm. apply String.eqb_refl.
    - split; [assumption|]. rewrite Hadded, Hesc, Hm. discriminate.
  }
  {
    intros Hin Hlate. unfold Dashboard.confirmationTimerInterval.
    set (expired := filter (confirmationTimedOut
                              (Dashboard.paymentTimerDurationMs systemConfig)
                              now)
                           (UserData.pendingConfirmations st)).
    assert (Hexp : In c expired).
    { apply filter_In. split; auto. now apply timedOut_iff. }
    rewrite (nonempty_In _ _ Hexp).
    unfold Dashboard.onUpdateUserData, Updates.apply.
    cbn [Updates.paymentsData Updates.pendingConfirmations Updates.disputes
         Updates.orElse UserData.pendingConfirmations UserData.paymentsData
         UserData.disputes UserData.allUsers].
    split; [apply removed_from_pending; now apply in_map|].
    split; [reflexivity|]. split.
    - intros i p Hn Hid. rewrite nth_error_map, Hn. simpl.
      destruct (Dashboard.expiredConfOf expired p) as [c'|] eqn:E.
      + split; [reflexivity|]. exists c'. split.
        * apply in_or_app. right. apply in_flat_map. exists p. split.
          -- eapply nth_error_In; eauto.
          -- rewrite E. now left.
        * apply find_some in E. destruct E as [_ E]. now apply idIs_true in E.
      + exfalso. unfold Dashboard.expiredConfOf in E.
        pose proof (find_none _ _ E c Hexp) as F. simpl in F.
        apply idIs_true in Hid. congruence.
    - intros i p Hn Hnone. rewrite nth_error_map, Hn. simpl.
      destruct (Dashboard.expiredConfOf expired p) as [c'|] eqn:E; auto.
      exfalso. apply find_some in E. destruct E as [E1 E2].
      apply filter_In in E1. destruct E1 as [E1 E3].
      apply timedOut_iff in E3. apply idIs_true in E2.
      now apply (Hnone c' E1 E3).
  }
Qed.

Lemma expireConfirmations_outcome_witness :
  In (Sample.confirmation "conf_7" "pay_up1" 7)
     (UserData.pendingConfirmations
        (Sample.state "me"
           [Sample.payment "pay_up1" "upline1" Payment.pending "TX"
                           (Some "img") (Some 5)]
           [Sample.confirmation "conf_7" "pay_up1" 7] []))
  /\ Sample.clock
     > Confirmation.submittedTimestamp
         (Sample.confirmation "conf_7" "pay_up1" 7)
       + timerDuration HomePage Sample.config
  /\ ~ In (Sample.confirmation "conf_7" "pay_up1" 7)
          (UserData.pendingConfirmations
             (Home.confirmationTimerInterval Sample.clock
                (Sample.state "me"
                   [Sample.payment "pay_up1" "upline1" Payment.pending "TX"
                                   (Some "img") (Some 5)]
                   [Sample.confirmation "conf_7" "pay_up1" 7] []))).
Proof.
  split; [now left|]. split; [reflexivity|].
  exact (proj1
           (@expireConfirmations_outcome HomePage Sample.config Sample.clock
              (Sample.state "me"
                 [Sample.payment "pay_up1" "upline1" Payment.pending "TX"
                                 (Some "img") (Some 5)]
                 [Sample.confirmation "conf_7" "pay_up1" 7] [])
              (Sample.confirmation "conf_7" "pay_up1" 7)
              (or_introl eq_refl) eq_refl)).
Defined.

(** ** Crypto auto-verification *)

Lemma isSuccess_true (random : Q) :
  (zeroPointOne < random)%Q -> negb (Qle_bool random zeroPointOne) = true.
Proof.
  intros H. apply negb_true_iff.
  destruct (Qle_bool random zeroPointOne) eqn:E; auto.
  apply Qle_bool_iff in E. exfalso. now apply (Qlt_not_le _ _ H).
Qed.

Lemma isSuccess_false (random : Q) :
  (random <= zeroPointOne)%Q -> negb (Qle_bool random zeroPointOne) = false.
Proof.
  intros H. apply negb_false_iff. now apply Qle_bool_iff.
Qed.

Lemma configured_guard (systemConfig : SystemConfig.t) :
  negb (SystemConfig.enableCryptoVerification systemConfig)
  || negb (JS.truthyString (SystemConfig.bscScanApiKey systemConfig))
  || negb (JS.truthyString
             (SystemConfig.cryptoReceivingAddress systemConfig))
  = negb (configured systemConfig).
Proof.
  unfold configured.
  destruct (SystemConfig.enableCryptoVerification systemConfig),
    (JS.truthyString (SystemConfig.bscScanApiKey systemConfig)),
    (JS.truthyString (SystemConfig.cryptoReceivingAddress systemConfig));
    reflexivity.
Qed.

(** C8, as stated, fails on the second dashboard: after a failed
    verification the payment is never [failed]; it stays [verifying] until
    the second timer puts it back to [unpaid]. *)
Lemma dashboard_autoVerify_never_failed :
  configured Sample.cryptoConfig = true
  /\ map Payment.status
         (UserData.paymentsData
            (fst (Dashboard.handleAutoVerify Sample.cryptoConfig Sample.clock
                    (Sample.payment "pay_ref" "referral" Payment.unpaid
                                    "0xhash" None (Some 5))
                    (Sample.state "me"
                       [Sample.payment "pay_ref" "referral" Payment.unpaid
                                       "0xhash" None (Some 5)] [] []))))
     = [Payment.verifying]
  /\ Dashboard.fire 0 Sample.clock Sample.iso
       (Dashboard.settle
          (Sample.payment "pay_ref" "referral" Payment.unpaid "0xhash" None
                          (Some 5))
          (Sample.state "me"
             [Sample.payment "pay_ref" "referral" Payment.unpaid "0xhash"
                             None (Some 5)] [] []))
       (Sample.state "me"
          [Sample.payment "pay_ref" "referral" Payment.verifying "0xhash"
                          None (Some 5)] [] [])
     = (Sample.state "me"
          [Sample.payment "pay_ref" "referral" Payment.verifying "0xhash"
                          None (Some 5)] [] [],
        [Dashboard.mkTimer 3000
           (Dashboard.errorReset
              (Sample.payment "pay_ref" "referral" Payment.unpaid "0xhash"
                              None (Some 5))
              [errorNotice
                 "Crypto auto-verification failed. Please try again or contact support."
                 Sample.clock]
              (Sample.state "me"
                 [Sample.payment "pay_ref" "referral" Payment.unpaid "0xhash"
                                 None (Some 5)] [] []))])
  /\ map Payment.status
         (UserData.paymentsData
            (fst (Dashboard.fire 0 Sample.clock Sample.iso
                    (Dashboard.errorReset
                       (Sample.payment "pay_ref" "referral" Payment.unpaid
                                       "0xhash" None (Some 5))
                       [errorNotice
                          "Crypto auto-verification failed. Please try again or contact support."
                          Sample.clock]
                       (Sample.state "me"
                          [Sample.payment "pay_ref" "referral" Payment.unpaid
                                          "0xhash" None (Some 5)] [] []))
                    (Sample.state "me"
                       [Sample.payment "pay_ref" "referral" Payment.verifying
                                       "0xhash" None (Some 5)] [] []))))
     = [Payment.unpaid].
Proof.
  repeat split.
Qed.

(** C8, amended. In [src/Home.tsx], auto-verify puts the payment in
    [verifying] and starts a 3000 ms timer; when it fires with
    [Math.random() > 0.1] the payment becomes [confirmed] and a ledger line
    is added, and otherwise the payment becomes [failed] and a second 3000 ms
    timer puts it back to [unpaid] with [transactionId] cleared.
    In the second dashboard a missing configuration keeps the payment out of
    [verifying] and schedules, 3000 ms later, an error notification and the
    return to [unpaid] with [transactionId] cleared; with the configuration
    present the payment goes to [verifying], a successful draw confirms it
    and adds the ledger line, and a failed draw leaves the state as it is
    (the payment is never [failed]) and schedules the same error reset.  The
    timers of the second dashboard write back the payments, transactions and
    notifications of the render in which auto-verify was invoked. *)
Theorem autoVerify_lifecycle
    (systemConfig : SystemConfig.t) (now now' : Z) (isoNow : string)
    (random : Q) (payment : Payment.t) (st cur : UserData.t)
    (notes : list Notification.t) :
  (updatedFor payment (fun p => Payment.with_status p Payment.verifying)
     (UserData.paymentsData st)
     (UserData.paymentsData (fst (Home.handleAutoVerify payment st)))
   /\ snd (Home.handleAutoVerify payment st)
      = [Home.mkTimer 3000 (Home.settle payment)]
   /\ ((zeroPointOne < random)%Q ->
       updatedFor payment (fun p => Payment.with_status p Payment.confirmed)
         (UserData.paymentsData cur)
         (UserData.paymentsData
            (fst (Home.fire random isoNow (Home.settle payment) cur)))
       /\ UserData.transactionsData
            (fst (Home.fire random isoNow (Home.settle payment) cur))
          = autoVerifiedLine isoNow payment :: UserData.transactionsData cur
       /\ snd (Home.fire random isoNow (Home.settle payment) cur) = [])
   /\ ((random <= zeroPointOne)%Q ->
       updatedFor payment (fun p => Payment.with_status p Payment.failed)
         (UserData.paymentsData cur)
         (UserData.paymentsData
            (fst (Home.fire random isoNow (Home.settle payment) cur)))
       /\ UserData.transactionsData
            (fst (Home.fire random isoNow (Home.settle payment) cur))
          = UserData.transactionsData cur
       /\ snd (Home.fire random isoNow (Home.settle payment) cur)
          = [Home.mkTimer 3000 (Home.resetFailed payment)])
   /\ updatedFor payment
        (fun p => Payment.with_status_tx p Payment.unpaid "")
        (UserData.paymentsData cur)
        (UserData.paymentsData
           (fst (Home.fire random isoNow (Home.resetFailed payment) cur)))
   /\ snd (Home.fire random isoNow (Home.resetFailed payment) cur) = [])
  /\ ((configured systemConfig = false ->
       Dashboard.handleAutoVerify systemConfig now payment st
       = (st,
          [Dashboard.mkTimer 3000
             (Dashboard.errorReset payment
                (errorNotice
                   "Crypto auto-verification is not configured correctly."
                   now
                 :: UserData.notifications st)
                st)]))
      /\ (configured systemConfig = true ->
          updatedFor payment
            (fun p => Payment.with_status p Payment.verifying)
            (UserData.paymentsData st)
            (UserData.paymentsData
               (fst (Dashboard.handleAutoVerify systemConfig now payment st)))
          /\ snd (Dashboard.handleAutoVerify systemConfig now payment st)
             = [Dashboard.mkTimer 3000 (Dashboard.settle payment st)])
      /\ ((zeroPointOne < random)%Q ->
          updatedFor payment
            (fun p => Payment.with_status p Payment.confirmed)
            (UserData.paymentsData st)
            (UserData.paymentsData
               (fst (Dashboard.fire random now' isoNow
                       (Dashboard.settle payment st) cur)))
          /\ UserData.transactionsData
               (fst (Dashboard.fire random now' isoNow
                       (Dashboard.settle payment st) cur))
             = autoVerifiedLine isoNow payment :: UserData.transactionsData st
          /\ snd (Dashboard.fire random now' isoNow
                    (Dashboard.settle payment st) cur) = [])
      /\ ((random <= zeroPointOne)%Q ->
          Dashboard.fire random now' isoNow (Dashboard.settle payment st) cur
          = (cur,
             [Dashboard.mkTimer 3000
                (Dashboard.errorReset payment
                   (errorNotice
                      "Crypto auto-verification failed. Please try again or contact support."
                      now'
                    :: UserData.notifications st)
                   st)]))
      /\ updatedFor payment
           (fun p => Payment.with_status_tx p Payment.unpaid "")
           (UserData.paymentsData st)
           (UserData.paymentsData
              (fst (Dashboard.fire random now' isoNow
                      (Dashboard.errorReset payment notes st) cur)))
      /\ UserData.notifications
           (fst (Dashboard.fire random now' isoNow
                   (Dashboard.errorReset payment notes st) cur))
         = notes
      /\ snd (Dashboard.fire random now' isoNow
                (Dashboard.errorReset payment notes st) cur) = []).
Proof.
  split.
  - split; [reflexivity|]. split; [reflexivity|]. split; [|split].
    + intros H. unfold Home.fire. rewrite (isSuccess_true H).
      repeat split.
    + intros H. unfold Home.fire. rewrite (isSuccess_false H).
      repeat split.
    + repeat split.
  - split; [|split; [|split; [|split]]].
    + intros H. unfold Dashboard.handleAutoVerify.
      rewrite configured_guard, H. reflexivity.
    + intros H. unfold Dashboard.handleAutoVerify.
      rewrite configured_guard, H. split; reflexivity.
    + intros H. unfold Dashboard.fire. rewrite (isSuccess_true H).
      repeat split.
    + intros H. unfold Dashboard.fire. rewrite (isSuccess_false H).
      reflexivity.
    + repeat split.
Qed.

(** ** The handlers on the sample data *)

(** The sweep of [src/Home.tsx] on an upline and a referral payment whose
    confirmations have both timed out. *)
Example home_sweep_sample :
  let st' :=
    Home.confirmationTimerInterval Sample.clock
      (Sample.state "me"
         [Sample.payment "pay_up1" "upline1" Payment.pending "TX"
                         (Some "img") (Some 5);
          Sample.payment "pay_ref" "referral" Payment.pending "TX"
                         (Some "img") (Some 5)]
         [Sample.confirmation "conf_7" "pay_up1" 7;
          Sample.confirmation "conf_8" "pay_ref" 8] []) in
  UserData.pendingConfirmations st' = []
  /\ UserData.paymentsData st'
     = [Sample.payment "pay_up1" "upline1" Payment.disputed "TX"
                       (Some "img") (Some 5);
        Sample.payment "pay_ref" "referral" Payment.unpaid "" None
                       (Some Sample.clock)]
  /\ UserData.disputes st' = [Sample.confirmation "conf_7" "pay_up1" 7]
  /\ map AdminUser.status (UserData.allUsers st')
     = [AdminUser.on_hold; AdminUser.active].
Proof.
  repeat split.
Qed.

(** Auto-verify in [src/Home.tsx] with a failing draw: [verifying], then
    [failed], then [unpaid] with the transaction id cleared. *)
Example home_autoVerify_failure_sample :
  let p := Sample.payment "pay_ref" "referral" Payment.unpaid "0xhash" None
                          (Some 5) in
  let s1 := fst (Home.handleAutoVerify p (Sample.state "me" [p] [] [])) in
  let s2 := fst (Home.fire (1 # 20) Sample.iso (Home.settle p) s1) in
  let s3 := fst (Home.fire 0 Sample.iso (Home.resetFailed p) s2) in
  map Payment.status (UserData.paymentsData s1) = [Payment.verifying]
  /\ map Payment.status (UserData.paymentsData s2) = [Payment.failed]
  /\ UserData.paymentsData s3
     = [Sample.payment "pay_ref" "referral" Payment.unpaid "" None (Some 5)].
Proof.
  repeat split.
Qed.

(** With no qualified entrant the matcher only reports it. *)
Example processQueue_nobody_qualified_sample :
  let st := Sample.state "me" [] []
              [Sample.entrant "A" "Ann" 1 false;
               Sample.entrant "C" "Cid" 2 false] in
  exists st',
    processQueue DashboardPage JS.numberToString Sample.config Sample.clock
                 Sample.iso st = Some st'
    /\ UserData.binaryData st' = UserData.binaryData st
    /\ map Notification.type (UserData.notifications st')
       = [Notification.system].
Proof.
  eexists. repeat split.
Qed.

(** ** Confirming a payment and resolving a dispute *)

Lemma find_after_filter (cid : string) (l : list Confirmation.t) :
  find (fun c => String.eqb (Confirmation.id c) cid)
       (filter (fun c => negb (String.eqb (Confirmation.id c) cid)) l)
  = None.
Proof.
  induction l as [|x t IH]; simpl; auto.
  destruct (String.eqb (Confirmation.id x) cid) eqn:E; simpl; auto.
  now rewrite E.
Qed.

(** Both confirm handlers, once the confirmation is found. *)
Lemma confirm_run (pg : page) (toLowerCase : string -> string) (now : Z)
      (isoNow : string) (confirmationId : string) (st : UserData.t)
      (c : Confirmation.t) :
  find (fun c => String.eqb (Confirmation.id c) confirmationId)
       (UserData.pendingConfirmations st) = Some c ->
  confirm pg toLowerCase now isoNow confirmationId st
  = UserData.mk (UserData.profile st)
      (map (fun p => if idIs (Confirmation.paymentId c) p
                     then Payment.with_status p Payment.confirmed else p)
           (UserData.paymentsData st))
      (filter (fun c => negb (String.eqb (Confirmation.id c) confirmationId))
              (UserData.pendingConfirmations st))
      (Transaction.mk isoNow (toLowerCase (firstWord (Confirmation.type c)))
         ("Payment from " ++ Confirmation.senderName c)%string
         (Confirmation.amount c) "confirmed"
       :: UserData.transactionsData st)
      (UserData.disputes st)
      (Notification.mk ("n" ++ JS.numberToString now)%string
         Notification.payment_confirmed
         ("Your payment for " ++ dq ++ Confirmation.paymentTitle c ++ dq
            ++ " was approved.")%string
         now false
       :: UserData.notifications st)
      (UserData.binaryData st) (UserData.sponsorData st)
      (UserData.allUsers st).
Proof.
  intros H. destruct pg; simpl;
    unfold Home.handleConfirmPayment, Dashboard.handleConfirmPayment;
    rewrite H; destruct st; reflexivity.
Qed.

Lemma confirm_missing (pg : page) (toLowerCase : string -> string) (now : Z)
      (isoNow : string) (confirmationId : string) (st : UserData.t) :
  find (fun c => String.eqb (Confirmation.id c) confirmationId)
       (UserData.pendingConfirmations st) = None ->
  confirm pg toLowerCase now isoNow confirmationId st = st.
Proof.
  intros H. destruct pg; simpl;
    unfold Home.handleConfirmPayment, Dashboard.handleConfirmPayment;
    now rewrite H.
Qed.

Lemma reject_missing (pg : page) (now : Z) (confirmationId : string)
      (st : UserData.t) :
  find (fun c => String.eqb (Confirmation.id c) confirmationId)
       (UserData.pendingConfirmations st) = None ->
  reject pg now confirmationId st = st.
Proof.
  intros H. destruct pg; simpl;
    unfold Home.handleRejectPayment, Dashboard.handleRejectPayment;
    now rewrite H.
Qed.

(** X1. Confirming an existing pending confirmation removes it (and keeps
    every confirmation with another id), sets the status of the payments
    with its [paymentId] to [confirmed] whatever it was, leaving their other
    fields and all other payments as they were, and puts exactly one ledger
    line with the confirmation's amount and one unread [payment_confirmed]
    notification in front of the existing ones.  Nothing else changes:
    the disputes, the binary data, the listed users, the profile and the
    sponsor data are the same, and no payment is added or removed. *)
Theorem confirm_confirms_only_the_payment
    (pg : page) (toLowerCase : string -> string) (now : Z) (isoNow : string)
    (confirmationId : string) (st : UserData.t) (c : Confirmation.t) :
  find (fun c => String.eqb (Confirmation.id c) confirmationId)
       (UserData.pendingConfirmations st) = Some c ->
  (forall c',
     In c' (UserData.pendingConfirmations
              (confirm pg toLowerCase now isoNow confirmationId st))
     <-> In c' (UserData.pendingConfirmations st)
         /\ Confirmation.id c' <> confirmationId)
  /\ (forall i p,
        nth_error (UserData.paymentsData st) i = Some p ->
        (Confirmation.paymentId c = Some (Payment.id p) ->
         nth_error
           (UserData.paymentsData
              (confirm pg toLowerCase now isoNow confirmationId st)) i
         = Some (Payment.with_status p Payment.confirmed))
        /\ (Confirmation.paymentId c <> Some (Payment.id p) ->
            nth_error
              (UserData.paymentsData
                 (confirm pg toLowerCase now isoNow confirmationId st)) i
            = Some p))
  /\ (exists line,
        UserData.transactionsData
          (confirm pg toLowerCase now isoNow confirmationId st)
        = line :: UserData.transactionsData st
        /\ Transaction.amount line = Confirmation.amount c
        /\ Transaction.status line = "confirmed"%string)
  /\ (exists note,
        UserData.notifications
          (confirm pg toLowerCase now isoNow confirmationId st)
        = note :: UserData.notifications st
        /\ Notification.type note = Notification.payment_confirmed
        /\ Notification.isRead note = false)
  /\ UserData.disputes (confirm pg toLowerCase now isoNow confirmationId st)
     = UserData.disputes st
  /\ UserData.binaryData (confirm pg toLowerCase now isoNow confirmationId st)
     = UserData.binaryData st
  /\ UserData.allUsers (confirm pg toLowerCase now isoNow confirmationId st)
     = UserData.allUsers st
  /\ UserData.profile (confirm pg toLowerCase now isoNow confirmationId st)
     = UserData.profile st
  /\ UserData.sponsorData
       (confirm pg toLowerCase now isoNow confirmationId st)
     = UserData.sponsorData st
  /\ List.length
       (UserData.paymentsData
          (confirm pg toLowerCase now isoNow confirmationId st))
     = List.length (UserData.paymentsData st)
  /\ UserData.pendingConfirmations
       (confirm pg toLowerCase now isoNow confirmationId st)
     = filter (fun c' => negb (String.eqb (Confirmation.id c')
                                          confirmationId))
              (UserData.pendingConfirmations st).
Proof.
  intros Hfind. rewrite (confirm_run pg toLowerCase now isoNow _ st Hfind).
  cbn [UserData.paymentsData UserData.pendingConfirmations
       UserData.transactionsData UserData.notifications UserData.disputes
       UserData.binaryData UserData.allUsers UserData.profile
       UserData.sponsorData].
  split.
  { intros c'. rewrite filter_In, negb_true_iff, String.eqb_neq. tauto. }
  split.
  { intros i p Hn. rewrite nth_error_map, Hn. simpl. split.
    - intros Hp. apply idIs_true in Hp. now rewrite Hp.
    - intros Hp. destruct (idIs (Confirmation.paymentId c) p) eqn:E; auto.
      apply idIs_true in E. contradiction. }
  split; [eexists; repeat split|].
  split; [eexists; repeat split|].
  repeat split. apply length_map.
Qed.

Lemma confirm_confirms_only_the_payment_witness :
  find (fun c => String.eqb (Confirmation.id c) "conf_1")
       (UserData.pendingConfirmations
          (Sample.state "me"
             [Sample.payment "pay_ref" "referral" Payment.pending "TX"
                             (Some "img") (Some 5)]
             [Sample.confirmation "conf_1" "pay_ref" 7] []))
  = Some (Sample.confirmation "conf_1" "pay_ref" 7)
  /\ UserData.disputes
       (confirm HomePage (fun s => s) Sample.clock Sample.iso "conf_1"
          (Sample.state "me"
             [Sample.payment "pay_ref" "referral" Payment.pending "TX"
                             (Some "img") (Some 5)]
             [Sample.confirmation "conf_1" "pay_ref" 7] []))
     = [].
Proof.
  split; [reflexivity|].
  exact (proj1 (proj2 (proj2 (proj2 (proj2
           (@confirm_confirms_only_the_payment HomePage (fun s => s)
              Sample.clock Sample.iso "conf_1"
              (Sample.state "me"
                 [Sample.payment "pay_ref" "referral" Payment.pending "TX"
                                 (Some "img") (Some 5)]
                 [Sample.confirmation "conf_1" "pay_ref" 7] [])
              (Sample.confirmation "conf_1" "pay_ref" 7)
              eq_refl)))))).
Defined.

(** X2. A confirmation id can be acted on once: after [confirm] or [reject]
    with an id, a further [confirm] or [reject] with the same id changes
    nothing, whether or not the first call found a confirmation. *)
Theorem confirmation_is_consumed
    (pg : page) (toLowerCase : string -> string) (now now' : Z)
    (isoNow isoNow' : string) (confirmationId : string) (st : UserData.t) :
  let confirmed := confirm pg toLowerCase now isoNow confirmationId st in
  let rejected := reject pg now confirmationId st in
  confirm pg toLowerCase now' isoNow' confirmationId confirmed = confirmed
  /\ reject pg now' confirmationId confirmed = confirmed
  /\ confirm pg toLowerCase now' isoNow' confirmationId rejected = rejected
  /\ reject pg now' confirmationId rejected = rejected.
Proof.
  intros confirmed rejected.
  assert (Hc : find (fun c => String.eqb (Confirmation.id c) confirmationId)
                    (UserData.pendingConfirmations confirmed) = None).
  { subst confirmed.
    destruct (find (fun c => String.eqb (Confirmation.id c) confirmationId)
                   (UserData.pendingConfirmations st)) as [c|] eqn:E.
    - rewrite (confirm_run pg toLowerCase now isoNow _ st E).
      apply find_after_filter.
    - now rewrite (confirm_missing pg toLowerCase now isoNow _ st E). }
  assert (Hr : find (fun c => String.eqb (Confirmation.id c) confirmationId)
                    (UserData.pendingConfirmations rejected) = None).
  { subst rejected.
    destruct (find (fun c => String.eqb (Confirmation.id c) confirmationId)
                   (UserData.pendingConfirmations st)) as [c|] eqn:E.
    - rewrite (reject_run pg now _ st E). apply find_after_filter.
    - now rewrite (reject_missing pg now _ st E). }
  repeat split.
  - now apply confirm_missing.
  - now apply reject_missing.
  - now apply confirm_missing.
  - now apply reject_missing.
Qed.

(** X3. Resolving an existing dispute removes it and settles the payments
    with its [paymentId]: in favour of the sender they become [confirmed],
    in favour of the receiver they are reset ([unpaid], no transaction id,
    no proof, [assignedTimestamp = now]); other payments are untouched.  In
    [src/Home.tsx] every listed user whose id is the dispute's [receiverId]
    becomes [active] whichever side wins, and the other users keep their
    status; the second dashboard writes no user.  A resolution adds neither
    a ledger line nor a notification.  An unknown dispute id changes
    nothing. *)
Theorem resolveDispute_outcome
    (pg : page) (now : Z) (disputeId : string) (f : favor)
    (st : UserData.t) :
  (find (fun d => String.eqb (Confirmation.id d) disputeId)
        (UserData.disputes st) = None ->
   resolveDispute pg now disputeId f st = st)
  /\ forall d,
       find (fun d => String.eqb (Confirmation.id d) disputeId)
            (UserData.disputes st) = Some d ->
       (forall d',
          In d' (UserData.disputes (resolveDispute pg now disputeId f st))
          <-> In d' (UserData.disputes st)
              /\ Confirmation.id d' <> disputeId)
       /\ (forall i p,
             nth_error (UserData.paymentsData st) i = Some p ->
             nth_error
               (UserData.paymentsData (resolveDispute pg now disputeId f st))
               i
             = Some (if idIs (Confirmation.paymentId d) p
                     then match f with
                          | sender => Payment.with_status p Payment.confirmed
                          | receiver => Payment.reset p now
                          end
                     else p))
       /\ (forall j u,
             nth_error (UserData.allUsers st) j = Some u ->
             nth_error
               (UserData.allUsers (resolveDispute pg now disputeId f st)) j
             = Some (match pg with
                     | HomePage =>
                       if String.eqb (AdminUser.id u)
                                     (Confirmation.receiverId d)
                       then AdminUser.with_status u AdminUser.active
                       else u
                     | DashboardPage => u
                     end))
       /\ UserData.transactionsData (resolveDispute pg now disputeId f st)
          = UserData.transactionsData st
       /\ UserData.notifications (resolveDispute pg now disputeId f st)
          = UserData.notifications st
       /\ UserData.pendingConfirmations
            (resolveDispute pg now disputeId f st)
          = UserData.pendingConfirmations st.
Proof.
  split.
  - intros H. destruct pg; simpl;
      unfold Home.handleResolveDispute, Dashboard.handleResolveDispute;
      now rewrite H.
  - intros d H.
    assert (Hfilter : forall d',
               In d' (filter (fun d0 => negb (String.eqb (Confirmation.id d0)
                                                         disputeId))
                             (UserData.disputes st))
               <-> In d' (UserData.disputes st)
                   /\ Confirmation.id d' <> disputeId).
    { intros d'. rewrite filter_In, negb_true_iff, String.eqb_neq. tauto. }
    destruct pg; simpl;
      unfold Home.handleResolveDispute, Dashboard.handleResolveDispute;
      rewrite H.
    + destruct f;
        cbn [UserData.disputes UserData.paymentsData UserData.allUsers
             UserData.transactionsData UserData.notifications
             UserData.pendingConfirmations UserData.set_disputes
             UserData.set_paymentsData UserData.set_allUsers];
        (split; [exact Hfilter|]);
        (split; [intros i p Hn; now rewrite nth_error_map, Hn|]);
        (split; [intros j u Hn; now rewrite nth_error_map, Hn|]);
        repeat split.
    + unfold Dashboard.onUpdateUserData, Updates.apply.
      cbn [UserData.disputes UserData.paymentsData UserData.allUsers
           UserData.transactionsData UserData.notifications
           UserData.pendingConfirmations Updates.paymentsData
           Updates.pendingConfirmations Updates.transactionsData
           Updates.disputes Updates.notifications Updates.orElse].
      split; [exact Hfilter|].
      split; [intros i p Hn; now rewrite nth_error_map, Hn|].
      split; [intros j u Hn; exact Hn|].
      repeat split.
Qed.

Lemma find_first_in_app (cid : string) (c : Confirmation.t)
      (old added : list Confirmation.t) :
  (forall d, In d old -> Confirmation.id d <> cid) ->
  (forall d, In d added -> Confirmation.id d = cid -> d = c) ->
  In c added -> Confirmation.id c = cid ->
  find (fun d => String.eqb (Confirmation.id d) cid) (old ++ added) = Some c.
Proof.
  intros Hold Hadd Hin Hid.
  induction old as [|x t IH]; simpl.
  - clear Hold. induction added as [|y u IHa]; [contradiction|]. simpl.
    destruct (String.eqb (Confirmation.id y) cid) eqn:E.
    + apply String.eqb_eq in E. f_equal. apply Hadd; auto. now left.
    + destruct Hin as [Hy|Hin].
      * subst y. rewrite Hid, String.eqb_refl in E. discriminate.
      * apply IHa; auto. intros d Hd. apply Hadd. now right.
  - replace (String.eqb (Confirmation.id x) cid) with false.
    + apply IH. intros d Hd. apply Hold. now right.
    + symmetry. apply String.eqb_neq. apply Hold. now left.
Qed.

(** X4. In [src/Home.tsx] a hold placed by the confirmation sweep is lifted
    by the resolution of the dispute.  Let a timed-out pending confirmation
    be about a stored upline payment, carry that payment's [receiverId], and
    have an id used by no other pending confirmation and no existing
    dispute.  After the sweep and the resolution of the dispute with that id
    the payment is [confirmed] (sender) or reset with a fresh timestamp
    (receiver), and every listed user with that [receiverId] is [active]. *)
Theorem hold_is_lifted_on_resolution
    (now now' : Z) (f : favor) (st : UserData.t) (c : Confirmation.t)
    (k : nat) (p : Payment.t) :
  In c (UserData.pendingConfirmations st) ->
  now > Confirmation.submittedTimestamp c + Home.PAYMENT_TIMER_DURATION ->
  JS.findIndex (idIs (Confirmation.paymentId c)) (UserData.paymentsData st)
  = Z.of_nat k ->
  nth_error (UserData.paymentsData st) k = Some p ->
  isMatrix p = true ->
  Confirmation.receiverId c = Payment.receiverId p ->
  (forall c', In c' (UserData.pendingConfirmations st) ->
              Confirmation.id c' = Confirmation.id c -> c' = c) ->
  (forall d, In d (UserData.disputes st) ->
             Confirmation.id d <> Confirmation.id c) ->
  let swept := Home.confirmationTimerInterval now st in
  let resolved :=
    Home.handleResolveDispute now' (Confirmation.id c) f swept in
  nth_error (UserData.paymentsData swept) k
  = Some (Payment.with_status p Payment.disputed)
  /\ nth_error (UserData.paymentsData resolved) k
     = Some (match f with
             | sender => Payment.with_status p Payment.confirmed
             | receiver => Payment.reset p now'
             end)
  /\ ~ In c (UserData.disputes resolved)
  /\ forall j u,
       nth_error (UserData.allUsers st) j = Some u ->
       AdminUser.id u = Payment.receiverId p ->
       nth_error (UserData.allUsers swept) j
       = Some (AdminUser.with_status u AdminUser.on_hold)
       /\ nth_error (UserData.allUsers resolved) j
          = Some (AdminUser.with_status u AdminUser.active).
Proof.
  intros Hin Hlate Hk Hn Hm Hrid Huniq Hfresh swept resolved.
  set (expired := filter (confirmationTimedOut Home.PAYMENT_TIMER_DURATION now)
                         (UserData.pendingConfirmations st)).
  assert (Hexp : In c expired).
  { apply filter_In. split; auto. now apply timedOut_iff. }
  assert (Hne : expired <> []) by (intros E; now rewrite E in Hexp).
  pose proof (home_sweep_run now st Hne) as Hrun. fold expired in Hrun.
  pose proof (sweep_result now (UserData.paymentsData st) expired)
    as (Hlen & Hnth & Hdis & Hhold).
  set (acc := fold_left (Home.sweepStep now) expired
                        (Home.mkSweep (UserData.paymentsData st) [] [])) in *.
  assert (Hund : underlying (UserData.paymentsData st) c = Some p).
  { unfold underlying. now rewrite Hk, at_of_nat. }
  assert (Hesc : escalates (UserData.paymentsData st) c = true).
  { unfold escalates. now rewrite Hund. }
  assert (Hadded : In c (Home.newDisputes acc)).
  { rewrite Hdis. apply filter_In. auto. }
  assert (Hpay : nth_error (Home.newPayments acc) k
                 = Some (Payment.with_status p Payment.disputed)).
  { rewrite (Hnth _ _ Hn).
    replace (existsb (targets (UserData.paymentsData st) k) expired)
      with true.
    - unfold settled. now rewrite Hm.
    - symmetry. apply existsb_exists. exists c. split; auto.
      unfold targets. rewrite Hk. apply Z.eqb_refl. }
  assert (Hfind : find (fun d => String.eqb (Confirmation.id d)
                                            (Confirmation.id c))
                       (UserData.disputes swept) = Some c).
  { subst swept. rewrite Hrun. cbn [UserData.disputes].
    apply find_first_in_app; auto.
    intros d Hd Hid. rewrite Hdis in Hd. apply filter_In in Hd.
    destruct Hd as [Hd _]. apply filter_In in Hd. destruct Hd as [Hd _].
    now apply Huniq. }
  assert (Hpid : idIs (Confirmation.paymentId c)
                      (Payment.with_status p Payment.disputed) = true).
  { pose proof (findIndex_found (idIs (Confirmation.paymentId c))
                                (UserData.paymentsData st)) as F.
    destruct (existsb (idIs (Confirmation.paymentId c))
                      (UserData.paymentsData st)) eqn:Ex.
    - destruct (F eq_refl) as (k' & w & Hk' & Hw & Hidw & _).
      rewrite Hk in Hk'. apply Nat2Z.inj in Hk'. subst k'.
      rewrite Hn in Hw. inversion Hw; subst w.
      unfold idIs in *. destruct (Confirmation.paymentId c); auto.
    - rewrite (findIndex_absent _ _ Ex) in Hk. lia. }
  split.
  { subst swept. rewrite Hrun. exact Hpay. }
  subst resolved. unfold Home.handleResolveDispute. rewrite Hfind.
  split.
  { destruct f;
      cbn [UserData.paymentsData UserData.set_paymentsData
           UserData.set_disputes UserData.set_allUsers];
      rewrite nth_error_map; subst swept; rewrite Hrun;
      cbn [UserData.paymentsData]; rewrite Hpay; simpl;
      rewrite Hpid; reflexivity. }
  split.
  { destruct f;
      cbn [UserData.disputes UserData.set_paymentsData
           UserData.set_disputes UserData.set_allUsers];
      intros H; apply filter_In in H; destruct H as [_ H];
      rewrite String.eqb_refl in H; discriminate. }
  intros j u Hu Hid.
  assert (Hheld : nth_error (UserData.allUsers swept) j
                  = Some (AdminUser.with_status u AdminUser.on_hold)).
  { subst swept. rewrite Hrun. cbn [UserData.allUsers].
    rewrite (nonempty_In _ _ Hadded), nth_error_map, Hu. simpl.
    rewrite Hhold, Hid.
    replace (existsb (holds (UserData.paymentsData st) (Payment.receiverId p))
                     expired) with true; [reflexivity|].
    symmetry. apply existsb_exists. exists c. split; auto.
    unfold holds. rewrite Hund, Hm. apply String.eqb_refl. }
  split; [exact Hheld|].
  destruct f;
    cbn [UserData.allUsers UserData.set_paymentsData UserData.set_disputes
         UserData.set_allUsers];
    rewrite nth_error_map, Hheld; simpl;
    rewrite Hid, Hrid, String.eqb_refl; reflexivity.
Qed.

Lemma hold_is_lifted_on_resolution_witness :
  nth_error
    (UserData.allUsers
       (Home.handleResolveDispute Sample.clock "conf_7" receiver
          (Home.confirmationTimerInterval Sample.clock Scenario.awaiting)))
    0
  = Some (AdminUser.with_status (Sample.user "U1") AdminUser.active)
  /\ nth_error
       (UserData.allUsers
          (Home.confirmationTimerInterval Sample.clock Scenario.awaiting))
       0
     = Some (AdminUser.with_status (Sample.user "U1") AdminUser.on_hold).
Proof.
  assert (U : forall c',
             In c' (UserData.pendingConfirmations Scenario.awaiting) ->
             Confirmation.id c' = Confirmation.id Scenario.uplineConf ->
             c' = Scenario.uplineConf).
  { intros c' [H|[]] _. now symmetry. }
  assert (F : forall d,
             In d (UserData.disputes Scenario.awaiting) ->
             Confirmation.id d <> Confirmation.id Scenario.uplineConf).
  { intros d []. }
  pose proof (@hold_is_lifted_on_resolution Sample.clock Sample.clock
                receiver Scenario.awaiting Scenario.uplineConf 0%nat
                Scenario.upline (or_introl eq_refl) eq_refl eq_refl eq_refl
                eq_refl eq_refl U F) as (_ & _ & _ & H).
  destruct (H 0%nat (Sample.user "U1") eq_refl eq_refl) as [H1 H2].
  split; [exact H2 | exact H1].
Defined.

(** ** Timers and resets together *)

Lemma reset_not_due (duration now now' : Z) (p : Payment.t) :
  now' <= now + duration ->
  paymentTimedOut duration now' (Payment.reset p now) = false.
Proof.
  intros H. destruct (paymentTimedOut duration now' (Payment.reset p now))
    eqn:E; auto.
  apply paymentTimedOut_iff in E.
  destruct E as (_ & _ & t & Et & _ & Hgt). simpl in Et.
  inversion Et; subst. lia.
Qed.

Lemma reset_due (duration now now' : Z) (p : Payment.t) :
  now' > now + duration -> now <> 0 -> Payment.type p <> "admin"%string ->
  paymentTimedOut duration now' (Payment.reset p now) = true.
Proof.
  intros H H0 Hty. apply paymentTimedOut_iff. repeat split; auto.
  exists now. auto.
Qed.

(** X5. A rejection restarts the timing window of the payment it resets:
    the payment-expiry sweep leaves the payment [unpaid] at every time up to
    the rejection time plus the timer duration, and expires it at every
    later time (for a payment that is not the admin fee, the rejection time
    being a non-zero timestamp). *)
Theorem reject_restarts_the_window
    (pg : page) (systemConfig : SystemConfig.t) (now now' : Z)
    (confirmationId : string) (st : UserData.t) (c : Confirmation.t)
    (i : nat) (p : Payment.t) :
  find (fun c => String.eqb (Confirmation.id c) confirmationId)
       (UserData.pendingConfirmations st) = Some c ->
  nth_error (UserData.paymentsData st) i = Some p ->
  Confirmation.paymentId c = Some (Payment.id p) ->
  (now' <= now + timerDuration pg systemConfig ->
   nth_error
     (UserData.paymentsData
        (expirePayments pg systemConfig now'
           (reject pg now confirmationId st))) i
   = Some (Payment.reset p now))
  /\ (now' > now + timerDuration pg systemConfig ->
      now <> 0 -> Payment.type p <> "admin"%string ->
      nth_error
        (UserData.paymentsData
           (expirePayments pg systemConfig now'
              (reject pg now confirmationId st))) i
      = Some (Payment.with_status (Payment.reset p now) Payment.expired)).
Proof.
  intros Hfind Hn Hp.
  rewrite expirePayments_run, (reject_run pg now _ st Hfind).
  cbn [UserData.paymentsData UserData.set_paymentsData
       UserData.set_pendingConfirmations].
  rewrite !nth_error_map, Hn. simpl.
  apply idIs_true in Hp. rewrite Hp.
  split.
  - intros H. now rewrite reset_not_due.
  - intros H H0 Hty. now rewrite reset_due.
Qed.

Lemma reject_restarts_the_window_witness :
  nth_error
    (UserData.paymentsData
       (expirePayments HomePage Sample.config
          (Sample.clock + Home.PAYMENT_TIMER_DURATION)
          (reject HomePage Sample.clock "conf_7" Scenario.awaiting))) 0
  = Some (Payment.reset Scenario.upline Sample.clock)
  /\ nth_error
       (UserData.paymentsData
          (expirePayments HomePage Sample.config
             (Sample.clock + Home.PAYMENT_TIMER_DURATION + 1)
             (reject HomePage Sample.clock "conf_7" Scenario.awaiting))) 0
     = Some (Payment.with_status (Payment.reset Scenario.upline Sample.clock)
                                 Payment.expired).
Proof.
  split.
  - apply (proj1 (@reject_restarts_the_window HomePage Sample.config
                    Sample.clock (Sample.clock + Home.PAYMENT_TIMER_DURATION)
                    "conf_7" Scenario.awaiting Scenario.uplineConf 0%nat
                    Scenario.upline eq_refl eq_refl eq_refl)).
    discriminate.
  - apply (proj2 (@reject_restarts_the_window HomePage Sample.config
                    Sample.clock
                    (Sample.clock + Home.PAYMENT_TIMER_DURATION + 1)
                    "conf_7" Scenario.awaiting Scenario.uplineConf 0%nat
                    Scenario.upline eq_refl eq_refl eq_refl)).
    + reflexivity.
    + discriminate.
    + discriminate.
Defined.

Lemma expired_not_due (duration now : Z) (p : Payment.t) :
  paymentTimedOut duration now (Payment.with_status p Payment.expired)
  = false.
Proof.
  reflexivity.
Qed.

Lemma due_later (duration now now' : Z) (p : Payment.t) :
  now <= now' ->
  paymentTimedOut duration now p = true ->
  paymentTimedOut duration now' p = true.
Proof.
  intros Hle H. apply paymentTimedOut_iff in H. apply paymentTimedOut_iff.
  destruct H as (Hs & Hty & t & Et & Ht & Hgt).
  repeat split; auto. exists t. repeat split; auto. lia.
Qed.

(** X6. Payment-expiry sweeps compose: a sweep at a later time after a sweep
    at an earlier time gives the state of the later sweep alone.  In
    particular a sweep repeated at the same time changes nothing more, and a
    payment once [expired] stays [expired] under every later sweep. *)
Theorem expirePayments_compose
    (pg : page) (systemConfig : SystemConfig.t) (now now' : Z)
    (st : UserData.t) :
  now <= now' ->
  expirePayments pg systemConfig now' (expirePayments pg systemConfig now st)
  = expirePayments pg systemConfig now' st.
Proof.
  intros Hle. rewrite !expirePayments_run.
  cbn [UserData.paymentsData UserData.set_paymentsData].
  destruct st as [pr pays pc tx di no bd sp au].
  unfold UserData.set_paymentsData; cbn. f_equal.
  rewrite map_map. apply map_ext. intros p.
  destruct (paymentTimedOut (timerDuration pg systemConfig) now p) eqn:E.
  - rewrite expired_not_due. now rewrite (@due_later _ now now' p Hle E).
  - reflexivity.
Qed.

Lemma expirePayments_compose_witness :
  expirePayments DashboardPage Sample.config (Sample.clock + 1)
    (expirePayments DashboardPage Sample.config Sample.clock Scenario.fresh)
  = expirePayments DashboardPage Sample.config (Sample.clock + 1)
                   Scenario.fresh.
Proof.
  apply expirePayments_compose. discriminate.
Defined.

(** ** Filling in and submitting a payment *)

Lemma updatePayment_run (pg : page) (id : string) (field : paymentField)
      (value : string) (st : UserData.t) :
  updatePayment pg id field value st
  = UserData.set_paymentsData st
      (map (fun p => if String.eqb (Payment.id p) id
                     then setField p field value else p)
           (UserData.paymentsData st)).
Proof.
  destruct pg; destruct st; reflexivity.
Qed.

(** X7. What the user types is what the receiver gets to confirm.  For a
    stored unpaid payment, after [handleUpdatePayment] has stored a non-empty
    transaction id and a non-empty proof, the card of that payment (any
    non-crypto method) offers submission, and confirming the dialog turns the
    payment to [pending] with both entries kept and appends one confirmation
    that carries the payment's id, amount and receiver, the typed
    transaction id and the proof, stamped with the submission time. *)
Theorem typed_details_reach_the_confirmation
    (pg : page) (now : Z) (isoNow : string) (activeMethod tx pr : string)
    (st : UserData.t) (i : nat) (p : Payment.t) :
  nth_error (UserData.paymentsData st) i = Some p ->
  Payment.status p = Payment.unpaid ->
  activeMethod <> "crypto"%string ->
  tx <> ""%string ->
  pr <> ""%string ->
  let filled :=
    updatePayment pg (Payment.id p) fieldProof pr
      (updatePayment pg (Payment.id p) fieldTransactionId tx st) in
  exists shown,
    nth_error (UserData.paymentsData filled) i = Some shown
    /\ PaymentCard.click activeMethod shown = Some (PaymentCard.onSubmit shown)
    /\ (let submitted :=
          JoinTab.handleConfirmSubmit (JoinTab.handleSubmitClick shown)
                                      (submit pg now isoNow) filled in
        (exists stored,
           nth_error (UserData.paymentsData submitted) i = Some stored
           /\ Payment.status stored = Payment.pending
           /\ Payment.transactionId stored = tx
           /\ Payment.proof stored = Some pr
           /\ Payment.assignedTimestamp stored = Payment.assignedTimestamp p
           /\ sameSlot p stored)
        /\ exists c,
             UserData.pendingConfirmations submitted
             = UserData.pendingConfirmations st ++ [c]
             /\ Confirmation.paymentId c = Some (Payment.id p)
             /\ Confirmation.amount c = Payment.amount p
             /\ Confirmation.receiverId c = Payment.receiverId p
             /\ Confirmation.transactionId c = tx
             /\ Confirmation.proof c = Some pr
             /\ Confirmation.submittedTimestamp c = now).
Proof.
  intros Hn Hs Hm Htx Hpr filled. subst filled.
  rewrite !updatePayment_run.
  cbn [UserData.paymentsData UserData.set_paymentsData].
  rewrite map_map.
  exists (setField (setField p fieldTransactionId tx) fieldProof pr).
  split.
  { rewrite nth_error_map, Hn. simpl.
    repeat (rewrite String.eqb_refl; simpl). reflexivity. }
  split.
  { unfold PaymentCard.click, PaymentCard.canSubmit, PaymentCard.isCrypto.
    cbn [setField Payment.status Payment.transactionId Payment.proof].
    rewrite Hs. cbn [Payment.status_eqb].
    apply String.eqb_neq in Hm. rewrite Hm.
    unfold JS.truthyOptString, JS.truthyString.
    apply String.eqb_neq in Htx. apply String.eqb_neq in Hpr.
    now rewrite Htx, Hpr. }
  unfold JoinTab.handleConfirmSubmit, JoinTab.handleSubmitClick.
  rewrite submit_run.
  cbn [UserData.paymentsData UserData.set_paymentsData
       UserData.pendingConfirmations UserData.set_pendingConfirmations].
  split.
  - eexists. split.
    + rewrite !nth_error_map, Hn. simpl.
      repeat (rewrite String.eqb_refl; simpl). reflexivity.
    + repeat split.
  - eexists. split; [reflexivity|]. repeat split.
Qed.

Lemma typed_details_reach_the_confirmation_witness :
  exists shown,
    nth_error
      (UserData.paymentsData
         (updatePayment HomePage "pay_ref" fieldProof "img"
            (updatePayment HomePage "pay_ref" fieldTransactionId "TX9"
                           Scenario.fresh))) 0
    = Some shown
    /\ PaymentCard.click "bank" shown = Some (PaymentCard.onSubmit shown).
Proof.
  destruct (@typed_details_reach_the_confirmation HomePage Sample.clock
              Sample.iso "bank" "TX9" "img" Scenario.fresh 0%nat
              Scenario.blank eq_refl eq_refl)
    as (shown & H1 & H2 & _); try discriminate.
  exists shown. split; [exact H1 | exact H2].
Defined.

(** ** Notifications *)

Lemma markNotificationRead_run (pg : page) (notificationId : string)
      (st : UserData.t) :
  markNotificationRead pg notificationId st
  = UserData.set_notifications st
      (map (fun n => if String.eqb (Notification.id n) notificationId
                     then markRead n else n)
           (UserData.notifications st)).
Proof.
  destruct pg; destruct st; reflexivity.
Qed.

Lemma markAllNotificationsRead_run (pg : page) (st : UserData.t) :
  markAllNotificationsRead pg st
  = UserData.set_notifications st (map markRead (UserData.notifications st)).
Proof.
  destruct pg; destruct st; reflexivity.
Qed.

Lemma unread_after_mark (notificationId : string)
      (l : list Notification.t) :
  Header.unreadCount
    (map (fun n => if String.eqb (Notification.id n) notificationId
                   then markRead n else n) l)
  = Header.unreadCount l
    - Header.unreadCount
        (filter (fun n => String.eqb (Notification.id n) notificationId) l).
Proof.
  unfold Header.unreadCount.
  assert (H : (List.length
                 (filter (fun n => negb (Notification.isRead n))
                         (map (fun n => if String.eqb (Notification.id n)
                                                      notificationId
                                        then markRead n else n) l))
               + List.length
                   (filter (fun n => negb (Notification.isRead n))
                           (filter (fun n => String.eqb (Notification.id n)
                                                        notificationId) l))
               = List.length
                   (filter (fun n => negb (Notification.isRead n)) l))%nat).
  { induction l as [|n t IH]; simpl; auto.
    destruct (String.eqb (Notification.id n) notificationId) eqn:E; simpl;
      destruct (Notification.isRead n); simpl; lia. }
  lia.
Qed.

Lemma unread_after_mark_all (l : list Notification.t) :
  Header.unreadCount (map markRead l) = 0.
Proof.
  unfold Header.unreadCount. induction l as [|n t IH]; simpl; auto.
Qed.

(** X8. Marking notifications as read only lowers the header's unread
    count: marking all brings it to 0, marking one id lowers it by the
    number of unread notifications with that id; in both cases the list
    keeps its length, order, ids, types, messages and timestamps, and a
    notification that was read stays read.  A click on a panel item that is
    already read does nothing. *)
Theorem marking_read_lowers_the_unread_count
    (pg : page) (notificationId : string) (st : UserData.t) :
  Header.unreadCount
    (UserData.notifications (markAllNotificationsRead pg st)) = 0
  /\ Header.unreadCount
       (UserData.notifications (markNotificationRead pg notificationId st))
     = Header.unreadCount (UserData.notifications st)
       - Header.unreadCount
           (filter (fun n => String.eqb (Notification.id n) notificationId)
                   (UserData.notifications st))
  /\ (forall i n,
        nth_error (UserData.notifications st) i = Some n ->
        exists n',
          nth_error
            (UserData.notifications
               (markNotificationRead pg notificationId st)) i = Some n'
          /\ Notification.id n' = Notification.id n
          /\ Notification.type n' = Notification.type n
          /\ Notification.message n' = Notification.message n
          /\ Notification.timestamp n' = Notification.timestamp n
          /\ Notification.isRead n'
             = Notification.isRead n
               || String.eqb (Notification.id n) notificationId)
  /\ (forall i n,
        nth_error (UserData.notifications st) i = Some n ->
        nth_error (UserData.notifications (markAllNotificationsRead pg st)) i
        = Some (markRead n))
  /\ (forall n,
        Notification.isRead n = true ->
        Header.clickItem (markNotificationRead pg) n st = st).
Proof.
  rewrite markAllNotificationsRead_run, markNotificationRead_run.
  cbn [UserData.notifications UserData.set_notifications].
  split; [apply unread_after_mark_all|].
  split; [apply unread_after_mark|].
  split.
  { intros i n Hn. rewrite nth_error_map, Hn. simpl.
    destruct (String.eqb (Notification.id n) notificationId);
      eexists; (split; [reflexivity|]); repeat split; simpl;
      now rewrite ?orb_true_r, ?orb_false_r. }
  split.
  { intros i n Hn. now rewrite nth_error_map, Hn. }
  intros n Hr. unfold Header.clickItem. now rewrite Hr.
Qed.

(** ** Binary qualification *)

Lemma existsb_markPaid (side : string) (l : list SponsorData.direct_t) :
  existsb (fun d => String.eqb (SponsorData.position d) side
                    && String.eqb (SponsorData.status d) "paid")
          (map markPaid l)
  = existsb (fun d => String.eqb (SponsorData.position d) side) l.
Proof.
  induction l as [|d t IH]; simpl; auto.
  now rewrite IH, andb_true_r.
Qed.

(** X9. After [handleQualifyForBinary] the participant is qualified for
    binary income exactly when the sponsor list has a direct on the left leg
    and a direct on the right leg, whatever their status was; the directs
    keep their order, dates, names, positions and amounts and none is added
    or removed, a second call changes nothing more, and no other aggregate
    is touched: the payments, the pending confirmations, the ledger, the
    disputes, the notifications, the binary data, the profile and the listed
    users are the same. *)
Theorem qualifyForBinary_outcome (pg : page) (st : UserData.t) :
  isQualifiedForBinary (UserData.sponsorData (qualifyForBinary pg st))
  = existsb (fun d => String.eqb (SponsorData.position d) "left")
            (SponsorData.directs (UserData.sponsorData st))
    && existsb (fun d => String.eqb (SponsorData.position d) "right")
               (SponsorData.directs (UserData.sponsorData st))
  /\ (forall i d,
        nth_error (SponsorData.directs (UserData.sponsorData st)) i = Some d
        -> nth_error
             (SponsorData.directs
                (UserData.sponsorData (qualifyForBinary pg st))) i
           = Some (SponsorData.mkDirect (SponsorData.date d)
                     (SponsorData.name d) (SponsorData.position d)
                     (SponsorData.amount d) "paid"))
  /\ qualifyForBinary pg (qualifyForBinary pg st) = qualifyForBinary pg st
  /\ UserData.paymentsData (qualifyForBinary pg st)
     = UserData.paymentsData st
  /\ UserData.binaryData (qualifyForBinary pg st) = UserData.binaryData st
  /\ UserData.notifications (qualifyForBinary pg st)
     = UserData.notifications st
  /\ UserData.transactionsData (qualifyForBinary pg st)
     = UserData.transactionsData st
  /\ UserData.profile (qualifyForBinary pg st) = UserData.profile st
  /\ UserData.pendingConfirmations (qualifyForBinary pg st)
     = UserData.pendingConfirmations st
  /\ UserData.disputes (qualifyForBinary pg st) = UserData.disputes st
  /\ UserData.allUsers (qualifyForBinary pg st) = UserData.allUsers st
  /\ List.length
       (SponsorData.directs (UserData.sponsorData (qualifyForBinary pg st)))
     = List.length (SponsorData.directs (UserData.sponsorData st)).
Proof.
  assert (R : qualifyForBinary pg st
              = UserData.set_sponsorData st
                  (SponsorData.mk
                     (map markPaid
                          (SponsorData.directs (UserData.sponsorData st)))))
    by (destruct pg; reflexivity).
  split.
  { rewrite R. unfold isQualifiedForBinary.
    cbn [UserData.sponsorData UserData.set_sponsorData SponsorData.directs].
    now rewrite !existsb_markPaid. }
  split.
  { intros i d Hd. rewrite R.
    cbn [UserData.sponsorData UserData.set_sponsorData SponsorData.directs].
    now rewrite nth_error_map, Hd. }
  split.
  { assert (R2 : forall s, qualifyForBinary pg s
                           = UserData.set_sponsorData s
                               (SponsorData.mk
                                  (map markPaid
                                       (SponsorData.directs
                                          (UserData.sponsorData s)))))
      by (intros s; destruct pg; reflexivity).
    rewrite (R2 (qualifyForBinary pg st)), R.
    cbn [UserData.sponsorData UserData.set_sponsorData SponsorData.directs].
    unfold UserData.set_sponsorData; cbn. f_equal. f_equal.
    rewrite map_map. apply map_ext. intros d. reflexivity. }
  rewrite R. repeat split.
  cbn [UserData.sponsorData UserData.set_sponsorData SponsorData.directs].
  apply length_map.
Qed.

Lemma sum_from (g : MatchedPair.t -> Z) (l : list MatchedPair.t) :
  forall a, fold_left (fun sum p => sum + g p) l a
            = a + fold_left (fun sum p => sum + g p) l 0.
Proof.
  induction l as [|x t IH]; intros a; simpl; [lia|].
  rewrite (IH (a + g x)), (IH (g x)). lia.
Qed.

Lemma totalAmount_app (l l' : list MatchedPair.t) :
  totalAmount (l ++ l') = totalAmount l + totalAmount l'.
Proof.
  unfold totalAmount. rewrite fold_left_app. apply sum_from.
Qed.

Lemma totalAmount_paidOut (isoNow : string) (l : list MatchedPair.t) :
  totalAmount (map (paidOut isoNow) l) = totalAmount l.
Proof.
  unfold totalAmount. generalize 0.
  induction l as [|x t IH]; intros a; simpl; auto.
Qed.

Lemma ledger_total (isoNow : string) (l : list MatchedPair.t) :
  fold_left (fun sum line => sum + Transaction.amount line)
            (map (payoutLine isoNow) (map (paidOut isoNow) l)) 0
  = totalAmount l.
Proof.
  unfold totalAmount. generalize 0.
  induction l as [|x t IH]; intros a; simpl; auto.
Qed.

(** X10. The qualification payout conserves money: on every run of the
    effect the sum of the matched total and the pending total shown on the
    binary tab is unchanged.  When the payout fires, the pending total goes
    to 0, the matched total grows by the old pending total, and that same
    amount is the sum of the ledger lines added and the lump sum named in
    the notification. *)
Theorem payout_conserves_the_binary_totals
    (pg : page) (toLocaleString : Z -> string) (now : Z) (isoNow : string)
    (prev : bool) (st : UserData.t) :
  let st' := snd (onQualificationChange pg toLocaleString now isoNow prev st)
  in
  BinaryTab.totalBinaryIncome (UserData.binaryData st')
  + BinaryTab.totalPendingIncome (UserData.binaryData st')
  = BinaryTab.totalBinaryIncome (UserData.binaryData st)
    + BinaryTab.totalPendingIncome (UserData.binaryData st)
  /\ (prev = false ->
      isQualifiedForBinary (UserData.sponsorData st) = true ->
      BinaryData.pendingPairs (UserData.binaryData st) <> [] ->
      BinaryTab.totalPendingIncome (UserData.binaryData st') = 0
      /\ BinaryTab.totalBinaryIncome (UserData.binaryData st')
         = BinaryTab.totalBinaryIncome (UserData.binaryData st)
           + BinaryTab.totalPendingIncome (UserData.binaryData st)
      /\ exists lines note,
           UserData.transactionsData st'
           = lines ++ UserData.transactionsData st
           /\ fold_left (fun sum line => sum + Transaction.amount line)
                        lines 0
              = BinaryTab.totalPendingIncome (UserData.binaryData st)
           /\ UserData.notifications st' = note :: UserData.notifications st
           /\ Notification.message note
              = ("Congratulations! You've qualified for binary income. Pending income of ₹"
                   ++ toLocaleString
                        (BinaryTab.totalPendingIncome (UserData.binaryData st))
                   ++ " has been paid out.")%string).
Proof.
  intros st'. subst st'. rewrite onQualificationChange_run. cbn [snd].
  change BinaryTab.totalBinaryIncome
    with (fun bd => totalAmount (BinaryData.matchedPairs bd)).
  change BinaryTab.totalPendingIncome
    with (fun bd => totalAmount (BinaryData.pendingPairs bd)).
  cbv beta. split.
  - destruct (_ && _ && _); [|reflexivity].
    cbn [UserData.binaryData BinaryData.matchedPairs BinaryData.pendingPairs].
    rewrite totalAmount_app, totalAmount_paidOut. cbn. lia.
  - intros Hp Hq Hne. rewrite Hp, Hq, (nonempty_length Hne).
    cbn [andb negb UserData.binaryData UserData.notifications
         UserData.transactionsData BinaryData.matchedPairs
         BinaryData.pendingPairs].
    split; [reflexivity|]. split.
    + now rewrite totalAmount_app, totalAmount_paidOut.
    + eexists. eexists. split; [reflexivity|].
      split; [apply ledger_total|]. split; reflexivity.
Qed.

Lemma payout_conserves_the_binary_totals_witness :
  BinaryTab.totalPendingIncome
    (UserData.binaryData
       (snd (onQualificationChange HomePage JS.numberToString Sample.clock
               Sample.iso false
               (Sample.qualified [Sample.pair 2 MatchedPair.pending;
                                  Sample.pair 3 MatchedPair.pending]))))
  = 0
  /\ BinaryTab.totalBinaryIncome
       (UserData.binaryData
          (snd (onQualificationChange HomePage JS.numberToString Sample.clock
                  Sample.iso false
                  (Sample.qualified [Sample.pair 2 MatchedPair.pending;
                                     Sample.pair 3 MatchedPair.pending]))))
     = 1000 + 2000.
Proof.
  destruct (proj2 (payout_conserves_the_binary_totals HomePage
                     JS.numberToString Sample.clock Sample.iso false
                     (Sample.qualified [Sample.pair 2 MatchedPair.pending;
                                        Sample.pair 3 MatchedPair.pending]))
                  eq_refl eq_refl ltac:(discriminate))
    as (H1 & H2 & _).
  split; [exact H1 | exact H2].
Defined.

(** ** The queue over several calls *)

Lemma sync_ids (q : list QueueUser.t) (b : bool) :
  map QueueUser.id
      (map (fun user =>
              if String.eqb (QueueUser.id user) Home.currentUser
              then QueueUser.mk (QueueUser.id user) (QueueUser.name user)
                     (QueueUser.profilePicture user) (QueueUser.joinTime user)
                     (QueueUser.queuePosition user) b
              else user) q)
  = map QueueUser.id q.
Proof.
  rewrite map_map. apply map_ext. intros u.
  destruct (String.eqb (QueueUser.id u) Home.currentUser); reflexivity.
Qed.

(** X11. In [src/Home.tsx], while the participant is not sponsor-qualified
    the matcher never consumes the participant: once the qualification flag
    has been copied into the queue, every queue entry of the participant is
    unqualified, and a call of the matcher then leaves [matchedPairs] as it
    was and keeps as many entries of the participant in the queue as
    before. *)
Theorem unqualified_participant_is_never_consumed
    (toLocaleString : Z -> string) (systemConfig : SystemConfig.t)
    (now : Z) (isoNow : string) (st : UserData.t) :
  isQualifiedForBinary (UserData.sponsorData st) = false ->
  (forall u, In u (queueOf (Home.qualificationSyncEffect st)) ->
             QueueUser.id u = Home.currentUser ->
             QueueUser.isQualified u = false)
  /\ map QueueUser.id (queueOf (Home.qualificationSyncEffect st))
     = map QueueUser.id (queueOf st)
  /\ exists st',
       Home.handleProcessBinaryQueue toLocaleString systemConfig now isoNow
                                     (Home.qualificationSyncEffect st)
       = Some st'
       /\ BinaryData.matchedPairs (UserData.binaryData st')
          = BinaryData.matchedPairs (UserData.binaryData st)
       /\ count_occ string_dec (map QueueUser.id (queueOf st'))
                    Home.currentUser
          = count_occ string_dec (map QueueUser.id (queueOf st))
                      Home.currentUser.
Proof.
  intros Hq.
  assert (Hsync : forall u, In u (queueOf (Home.qualificationSyncEffect st)) ->
                            QueueUser.id u = Home.currentUser ->
                            QueueUser.isQualified u = false).
  { unfold queueOf, Home.qualificationSyncEffect. rewrite Hq.
    cbn [UserData.binaryData UserData.set_binaryData
         BinaryData.matchingQueue].
    intros u Hin Hid. apply in_map_iff in Hin.
    destruct Hin as (v & Hv & _).
    destruct (String.eqb (QueueUser.id v) Home.currentUser) eqn:E.
    - now subst u.
    - subst u. apply String.eqb_neq in E. contradiction. }
  assert (Hids : map QueueUser.id (queueOf (Home.qualificationSyncEffect st))
                 = map QueueUser.id (queueOf st)).
  { unfold queueOf, Home.qualificationSyncEffect.
    cbn [UserData.binaryData UserData.set_binaryData
         BinaryData.matchingQueue].
    apply sync_ids. }
  split; [exact Hsync|]. split; [exact Hids|].
  destruct (existsb QueueUser.isQualified
                    (queueOf (Home.qualificationSyncEffect st))) eqn:Ex.
  - destruct (processQueue_run HomePage toLocaleString systemConfig now
                isoNow (Home.qualificationSyncEffect st) Ex)
      as (k & w & st' & (Hn & Hw & _) & Hrun & Hqueue & _ & Hmatched & _).
    exists st'. split; [exact Hrun|].
    assert (Hne : QueueUser.id w <> Home.currentUser).
    { intros E. rewrite (Hsync w) in Hw; [discriminate| |exact E].
      eapply nth_error_In; eauto. }
    split.
    + rewrite Hmatched. unfold isLocal, localParticipant.
      apply String.eqb_neq in Hne. rewrite Hne. reflexivity.
    + rewrite <- Hids.
      pose proof (rotation_ids_perm _ _ Hn) as P. rewrite <- Hqueue in P.
      rewrite (proj1 (Permutation_count_occ string_dec _ _) P).
      simpl. destruct (string_dec (QueueUser.id w) Home.currentUser);
        [contradiction|reflexivity].
  - unfold Home.handleProcessBinaryQueue. unfold queueOf in Ex.
    rewrite Ex. cbn [negb]. eexists. split; [reflexivity|].
    split; [reflexivity|].
    change (queueOf (UserData.set_notifications
                       (Home.qualificationSyncEffect st)
                       (Notification.mk ("n" ++ JS.numberToString now)
                          Notification.system
                          "Binary queue process ran, but no qualified users were found to receive a match."
                          now false
                        :: UserData.notifications
                             (Home.qualificationSyncEffect st))))
      with (queueOf (Home.qualificationSyncEffect st)).
    now rewrite Hids.
Qed.

Lemma unqualified_participant_is_never_consumed_witness :
  exists st',
    Home.handleProcessBinaryQueue JS.numberToString Sample.config
      Sample.clock Sample.iso
      (Home.qualificationSyncEffect
         (Sample.state "me" [] []
            [Sample.entrant "bq_5" "John" 1 true;
             Sample.entrant "B" "Bob" 2 true]))
    = Some st'
    /\ BinaryData.matchedPairs (UserData.binaryData st')
       = [Sample.pair 1 MatchedPair.paid]
    /\ count_occ string_dec (map QueueUser.id (queueOf st'))
                 Home.currentUser = 1%nat.
Proof.
  destruct (@unqualified_participant_is_never_consumed JS.numberToString
              Sample.config Sample.clock Sample.iso
              (Sample.state "me" [] []
                 [Sample.entrant "bq_5" "John" 1 true;
                  Sample.entrant "B" "Bob" 2 true]) eq_refl)
    as (_ & _ & st' & H1 & H2 & H3).
  exists st'. split; [exact H1|]. split; [exact H2 | exact H3].
Defined.

Lemma qualifiedCount_renumber (l : list QueueUser.t) :
  forall i,
    qualifiedCount
      (JS.mapi_from (fun user index =>
                       QueueUser.with_queuePosition user (index + 1)) i l)
    = qualifiedCount l.
Proof.
  unfold qualifiedCount.
  induction l as [|x t IH]; intros i; simpl; auto.
  destruct (QueueUser.isQualified x); simpl; now rewrite IH.
Qed.

Lemma unqualifiedIds_renumber (l : list QueueUser.t) :
  forall i,
    unqualifiedIds
      (JS.mapi_from (fun user index =>
                       QueueUser.with_queuePosition user (index + 1)) i l)
    = unqualifiedIds l.
Proof.
  unfold unqualifiedIds.
  induction l as [|x t IH]; intros i; simpl; auto.
  destruct (QueueUser.isQualified x); simpl; now rewrite IH.
Qed.

Lemma rotation_counts (q : list QueueUser.t) (k : nat) (w : QueueUser.t) :
  nth_error q k = Some w -> QueueUser.isQualified w = true ->
  qualifiedCount q = S (qualifiedCount (rotation q k))
  /\ Permutation (unqualifiedIds (rotation q k)) (unqualifiedIds q).
Proof.
  intros Hn Hw. unfold rotation, JS.mapi.
  rewrite qualifiedCount_renumber, unqualifiedIds_renumber.
  pose proof (split_at _ _ Hn) as E.
  remember (firstn k q) as a eqn:Ea.
  remember (skipn (S k) q) as b eqn:Eb.
  clear Ea Eb Hn. subst q.
  unfold qualifiedCount, unqualifiedIds.
  rewrite !filter_app, !map_app, !length_app. simpl. rewrite Hw. simpl.
  split; [lia|]. apply Permutation_app_comm.
Qed.

Lemma qualified_left (q : list QueueUser.t) (n : nat) :
  qualifiedCount q = S n -> existsb QueueUser.isQualified q = true.
Proof.
  unfold qualifiedCount. intros H.
  destruct (filter QueueUser.isQualified q) as [|u t] eqn:E;
    [discriminate|].
  assert (Hin : In u (filter QueueUser.isQualified q))
    by (rewrite E; now left).
  apply filter_In in Hin. apply existsb_exists. now exists u.
Qed.

Lemma nobody_qualified (q : list QueueUser.t) :
  qualifiedCount q = 0%nat ->
  existsb QueueUser.isQualified q = false
  /\ filter (fun u => negb (QueueUser.isQualified u)) q = q.
Proof.
  unfold qualifiedCount.
  induction q as [|x t IH]; simpl; auto.
  destruct (QueueUser.isQualified x); simpl; [discriminate|].
  intros H. destruct (IH H) as [H1 H2]. now rewrite H1, H2.
Qed.

(** The matcher when nobody is qualified. *)
Lemma processQueue_idle (pg : page) (toLocaleString : Z -> string)
      (systemConfig : SystemConfig.t) (now : Z) (isoNow : string)
      (st : UserData.t) :
  existsb QueueUser.isQualified (queueOf st) = false ->
  exists st' note,
    processQueue pg toLocaleString systemConfig now isoNow st = Some st'
    /\ UserData.binaryData st' = UserData.binaryData st
    /\ UserData.notifications st' = note :: UserData.notifications st
    /\ Notification.type note = Notification.system.
Proof.
  intros H. unfold queueOf in H.
  destruct pg; simpl;
    unfold Home.handleProcessBinaryQueue, Dashboard.handleProcessBinaryQueue;
    rewrite H; cbn [negb]; eexists; eexists;
    (split; [reflexivity|]); repeat split.
Qed.

Lemma processQueue_drain (pg : page) (toLocaleString : Z -> string)
      (systemConfig : SystemConfig.t) (now : Z) (isoNow : string) :
  forall (n : nat) (st : UserData.t),
    qualifiedCount (queueOf st) = n ->
    exists st',
      processQueueTimes n pg toLocaleString systemConfig now isoNow st
      = Some st'
      /\ qualifiedCount (queueOf st') = 0%nat
      /\ Permutation (unqualifiedIds (queueOf st'))
                     (unqualifiedIds (queueOf st))
      /\ (List.length (queueOf st') + n = List.length (queueOf st))%nat.
Proof.
  induction n as [|n IH]; intros st Hc; simpl.
  - exists st. repeat split; auto.
  - pose proof (qualified_left _ Hc) as Ex.
    destruct (processQueue_run pg toLocaleString systemConfig now isoNow st Ex)
      as (k & w & st1 & (Hn & Hw & _) & Hrun & Hqueue & _).
    rewrite Hrun.
    destruct (rotation_counts _ _ Hn Hw) as [Hcount Hperm].
    rewrite <- Hqueue in Hcount, Hperm.
    assert (Hc1 : qualifiedCount (queueOf st1) = n) by lia.
    destruct (IH st1 Hc1) as (st' & Hrun' & Hz & Hp & Hl).
    exists st'. split; [exact Hrun'|]. split; [exact Hz|].
    split; [eapply Permutation_trans; eauto|].
    rewrite Hqueue in Hl.
    rewrite rotation_length in Hl by (eapply nth_error_lt; eauto).
    pose proof (nth_error_lt _ _ Hn). lia.
Qed.

(** X12. Calling the matcher as many times as there are qualified entrants
    drains them: every one of those calls succeeds, the queue that is left
    consists of exactly the entrants that were unqualified at the start (the
    same ids, each entrant once per original entry), it is shorter by the
    number of qualified entrants, and every further call leaves the binary
    data unchanged and only adds a system notification. *)
Theorem processQueue_drains_the_qualified
    (pg : page) (toLocaleString : Z -> string)
    (systemConfig : SystemConfig.t) (now now' : Z) (isoNow isoNow' : string)
    (st : UserData.t) :
  exists st',
    processQueueTimes (qualifiedCount (queueOf st)) pg toLocaleString
                      systemConfig now isoNow st = Some st'
    /\ (forall u, In u (queueOf st') -> QueueUser.isQualified u = false)
    /\ Permutation (map QueueUser.id (queueOf st'))
                   (unqualifiedIds (queueOf st))
    /\ (List.length (queueOf st') + qualifiedCount (queueOf st)
        = List.length (queueOf st))%nat
    /\ exists st'' note,
         processQueue pg toLocaleString systemConfig now' isoNow' st'
         = Some st''
         /\ UserData.binaryData st'' = UserData.binaryData st'
         /\ UserData.notifications st''
            = note :: UserData.notifications st'
         /\ Notification.type note = Notification.system.
Proof.
  destruct (@processQueue_drain pg toLocaleString systemConfig now isoNow
              (qualifiedCount (queueOf st)) st eq_refl)
    as (st' & Hrun & Hz & Hp & Hl).
  destruct (nobody_qualified _ Hz) as [Hex Hall].
  exists st'. split; [exact Hrun|]. split.
  { intros u Hin. rewrite <- Hall in Hin. apply filter_In in Hin.
    destruct Hin as [_ H]. now apply negb_true_iff in H. }
  split.
  { unfold unqualifiedIds in Hp at 1. now rewrite Hall in Hp. }
  split; [exact Hl|].
  now apply processQueue_idle.
Qed.

(** ** Pages of the queue *)

Lemma totalPages_eq (bd : BinaryData.t) :
  BinaryTab.totalPages bd
  = (Z.of_nat (List.length (BinaryData.matchingQueue bd)) + 4) / 5.
Proof.
  unfold BinaryTab.totalPages, BinaryTab.itemsPerPage, Qceiling.
  set (n := Z.of_nat (List.length (BinaryData.matchingQueue bd))).
  cbn. rewrite Z.mul_1_r.
  pose proof (Z.div_mod (- n) 5 ltac:(lia)) as E.
  pose proof (Z.mod_pos_bound (- n) 5 ltac:(lia)) as B.
  apply Z.div_unique with (4 - (- n) mod 5); lia.
Qed.

Lemma slice_window {A} (l : list A) (a b : Z) :
  0 <= a <= b ->
  JS.slice l a b = firstn (Z.to_nat (b - a)) (skipn (Z.to_nat a) l).
Proof.
  intros H. unfold JS.slice, JS.rel.
  replace (a <? 0) with false by (symmetry; apply Z.ltb_ge; lia).
  replace (b <? 0) with false by (symmetry; apply Z.ltb_ge; lia).
  set (len := Z.of_nat (List.length l)).
  destruct (Z_le_gt_dec len a) as [Ha|Ha].
  - rewrite Z.min_r by lia.
    rewrite !skipn_all2 by lia. now rewrite !firstn_nil.
  - rewrite (Z.min_l a) by lia.
    destruct (Z_le_gt_dec b len) as [Hb|Hb].
    + rewrite Z.min_l by lia. now rewrite Z.max_l by lia.
    + rewrite Z.min_r by lia. rewrite Z.max_l by lia.
      rewrite !firstn_all2; auto; rewrite length_skipn; lia.
Qed.

Lemma firstn_more {A} (l : list A) (a b : nat) :
  firstn (a + b) l = firstn a l ++ firstn b (skipn a l).
Proof.
  revert l. induction a as [|a IH]; intros l; simpl; auto.
  destruct l as [|x t]; simpl.
  - now rewrite firstn_nil.
  - now rewrite IH.
Qed.

Lemma page_window (bd : BinaryData.t) (page : Z) :
  1 <= page ->
  BinaryTab.currentQueueItems bd page
  = firstn 5 (skipn (5 * Z.to_nat (page - 1))
                    (BinaryData.matchingQueue bd)).
Proof.
  intros H. unfold BinaryTab.currentQueueItems, BinaryTab.endIndex,
    BinaryTab.startIndex, BinaryTab.itemsPerPage.
  rewrite slice_window by lia.
  replace (Z.to_nat ((page - 1) * 5 + 5 - (page - 1) * 5)) with 5%nat by lia.
  f_equal. f_equal. lia.
Qed.

Lemma pages_concat (bd : BinaryData.t) (m : nat) :
  concat (map (fun i => BinaryTab.currentQueueItems bd (Z.of_nat i))
              (seq 1 m))
  = firstn (5 * m) (BinaryData.matchingQueue bd).
Proof.
  induction m as [|m IH].
  - reflexivity.
  - rewrite seq_S, map_app, concat_app, IH. cbn [map concat].
    rewrite app_nil_r, page_window by lia.
    replace (5 * S m)%nat with (5 * m + 5)%nat by lia.
    rewrite firstn_more. f_equal. f_equal. f_equal. lia.
Qed.

(** X13. The pages of the binary tab partition the queue: with
    [totalPages = ceil(length / 5)], the pages [1 .. totalPages] put one
    after the other are the queue, each of them holds between one and five
    entrants, and a page beyond [totalPages] is empty.  The pagination
    buttons keep the page within [1 .. totalPages]. *)
Theorem pages_partition_the_queue (bd : BinaryData.t) :
  concat (map (fun i => BinaryTab.currentQueueItems bd (Z.of_nat i))
              (seq 1 (Z.to_nat (BinaryTab.totalPages bd))))
  = BinaryData.matchingQueue bd
  /\ (forall page,
        1 <= page <= BinaryTab.totalPages bd ->
        (1 <= List.length (BinaryTab.currentQueueItems bd page) <= 5)%nat)
  /\ (forall page,
        1 <= page -> BinaryTab.totalPages bd < page ->
        BinaryTab.currentQueueItems bd page = [])
  /\ (forall page b,
        1 <= page <= BinaryTab.totalPages bd ->
        1 <= PaginationControls.click page (BinaryTab.totalPages bd) b
          <= BinaryTab.totalPages bd).
Proof.
  pose proof (totalPages_eq bd) as T.
  set (q := BinaryData.matchingQueue bd) in *.
  set (n := Z.of_nat (List.length q)) in *.
  assert (Hn : 0 <= n) by (subst n; lia).
  pose proof (Z.div_mod (n + 4) 5 ltac:(lia)) as E.
  pose proof (Z.mod_pos_bound (n + 4) 5 ltac:(lia)) as B.
  rewrite <- T in E.
  split.
  { rewrite pages_concat. apply firstn_all2. fold q. lia. }
  split.
  { intros page Hp. rewrite page_window by lia. fold q.
    rewrite length_firstn, length_skipn. lia. }
  split.
  { intros page H1 H2. rewrite page_window by lia. fold q.
    rewrite skipn_all2; [apply firstn_nil|]. lia. }
  intros page b Hp. unfold PaginationControls.click,
    PaginationControls.rendered.
  destruct (BinaryTab.totalPages bd <=? 1) eqn:R; simpl; [lia|].
  destruct b.
  - destruct (page =? 1) eqn:P; [lia|]. apply Z.eqb_neq in P. lia.
  - destruct (page =? BinaryTab.totalPages bd) eqn:P; [lia|].
    apply Z.eqb_neq in P. lia.
Qed.

(** X14. The page shown is not adjusted when the queue shrinks: when the
    queue holds [5 k + 1] entrants ([k >= 1]), one of them qualified, and the
    tab shows the last page [k + 1], a call of the matcher leaves that page
    empty; for [k = 1] the pagination controls disappear as well. *)
Theorem rotation_can_empty_the_shown_page
    (pg : page) (toLocaleString : Z -> string)
    (systemConfig : SystemConfig.t) (now : Z) (isoNow : string)
    (st : UserData.t) (k : nat) :
  (1 <= k)%nat ->
  List.length (queueOf st) = (5 * k + 1)%nat ->
  (exists u, In u (queueOf st) /\ QueueUser.isQualified u = true) ->
  BinaryTab.totalPages (UserData.binaryData st) = Z.of_nat k + 1
  /\ BinaryTab.currentQueueItems (UserData.binaryData st) (Z.of_nat k + 1)
     <> []
  /\ exists st',
       processQueue pg toLocaleString systemConfig now isoNow st = Some st'
       /\ BinaryTab.totalPages (UserData.binaryData st') = Z.of_nat k
       /\ BinaryTab.currentQueueItems (UserData.binaryData st')
                                      (Z.of_nat k + 1) = []
       /\ (k = 1%nat ->
           PaginationControls.rendered
             (BinaryTab.totalPages (UserData.binaryData st')) = false).
Proof.
  intros Hk Hlen Hq. unfold queueOf in Hlen.
  assert (T : BinaryTab.totalPages (UserData.binaryData st) = Z.of_nat k + 1).
  { rewrite totalPages_eq, Hlen.
    symmetry. apply Z.div_unique with 0; lia. }
  split; [exact T|]. split.
  { rewrite page_window by lia. intros E.
    apply (f_equal (@List.length _)) in E.
    rewrite length_firstn, length_skipn, Hlen in E.
    cbn [List.length] in E. lia. }
  apply qualified_entrant_found in Hq.
  destruct (processQueue_run pg toLocaleString systemConfig now isoNow st Hq)
    as (j & w & st' & (Hn & _) & Hrun & Hqueue & _).
  exists st'. split; [exact Hrun|].
  assert (Hlen' : List.length
                    (BinaryData.matchingQueue (UserData.binaryData st'))
                  = (5 * k)%nat).
  { unfold queueOf in Hqueue. rewrite Hqueue.
    rewrite rotation_length by (eapply nth_error_lt; eauto).
    unfold queueOf. lia. }
  assert (T' : BinaryTab.totalPages (UserData.binaryData st') = Z.of_nat k).
  { rewrite totalPages_eq, Hlen'.
    symmetry. apply Z.div_unique with 4; lia. }
  split; [exact T'|]. split.
  { rewrite page_window by lia. rewrite skipn_all2; [apply firstn_nil|].
    rewrite Hlen'. lia. }
  intros K. rewrite T'. now subst k.
Qed.

Lemma rotation_can_empty_the_shown_page_witness :
  BinaryTab.currentQueueItems
    (UserData.binaryData (Sample.state "me" [] [] Scenario.sixEntrants)) 2
  <> []
  /\ exists st',
       processQueue HomePage JS.numberToString Sample.config Sample.clock
                    Sample.iso (Sample.state "me" [] [] Scenario.sixEntrants)
       = Some st'
       /\ BinaryTab.currentQueueItems (UserData.binaryData st') 2 = []
       /\ PaginationControls.rendered
            (BinaryTab.totalPages (UserData.binaryData st')) = false.
Proof.
  destruct (@rotation_can_empty_the_shown_page HomePage JS.numberToString
              Sample.config Sample.clock Sample.iso
              (Sample.state "me" [] [] Scenario.sixEntrants) 1%nat
              (le_n 1) eq_refl
              (ex_intro _ (Sample.entrant "F" "Fay" 6 true)
                 (conj (or_intror (or_intror (or_intror (or_intror
                          (or_intror (or_introl eq_refl))))))
                       eq_refl)))
    as (_ & H0 & st' & H1 & _ & H2 & H3).
  split; [exact H0|].
  exists st'. split; [exact H1|]. split; [exact H2 | exact (H3 eq_refl)].
Defined.

(** ** The badge of the queue table *)



(** ** Activation of the account *)

Lemma isAccountActive_eq (pg : page) (st : UserData.t) :
  isAccountActive pg st
  = forallb (fun p => Payment.status_eqb (Payment.status p) Payment.confirmed)
            (UserData.paymentsData st).
Proof.
  now destruct pg.
Qed.

Lemma confirmed_count (l : list Payment.t) :
  (List.length
     (filter (fun p => Payment.status_eqb (Payment.status p)
                                          Payment.confirmed) l)
   <= List.length l)%nat
  /\ (forallb (fun p => Payment.status_eqb (Payment.status p)
                                           Payment.confirmed) l = true
      <-> List.length
            (filter (fun p => Payment.status_eqb (Payment.status p)
                                                 Payment.confirmed) l)
          = List.length l).
Proof.
  induction l as [|x t [IH1 IH2]]; simpl.
  - split; [lia|tauto].
  - destruct (Payment.status_eqb (Payment.status x) Payment.confirmed);
      simpl.
    + split; [lia|]. rewrite IH2. lia.
    + split; [lia|]. split; [discriminate | lia].
Qed.

(** X16. The account is active exactly when the join tab finds no
    unconfirmed payment to open, and exactly when its progress counter has
    reached the number of payments; the payment-expiry sweep never changes
    whether the account is active. *)
Theorem activation_seen_from_the_join_tab (pg : page) (st : UserData.t) :
  (isAccountActive pg st = true
   <-> JoinTabView.activePaymentId (UserData.paymentsData st) = None)
  /\ (isAccountActive pg st = true
      <-> JoinTabView.confirmedCount (UserData.paymentsData st)
          = Z.of_nat (List.length (UserData.paymentsData st)))
  /\ forall systemConfig now,
       isAccountActive pg (expirePayments pg systemConfig now st)
       = isAccountActive pg st.
Proof.
  rewrite isAccountActive_eq. split; [|split].
  - unfold JoinTabView.activePaymentId.
    induction (UserData.paymentsData st) as [|x t IH]; simpl; [tauto|].
    destruct (Payment.status_eqb (Payment.status x) Payment.confirmed);
      simpl; [exact IH|]. split; discriminate.
  - unfold JoinTabView.confirmedCount.
    destruct (confirmed_count (UserData.paymentsData st)) as [_ H].
    rewrite H. lia.
  - intros systemConfig now.
    rewrite isAccountActive_eq, expirePayments_run.
    destruct st as [pr pays cs ts ds ns bd sd us]; simpl.
    induction pays as [|x t IH]; simpl; auto.
    rewrite IH. f_equal.
    destruct (paymentTimedOut (timerDuration pg systemConfig) now x) eqn:E;
      auto.
    apply paymentTimedOut_iff in E. destruct E as (E & _).
    destruct x; simpl in *. now rewrite E.
Qed.

(** X17. What confirming and rejecting do to activation.  After [confirm] on
    an existing confirmation the account is active exactly when every payment
    the confirmation does not name was confirmed already; after [reject] on
    an existing confirmation that names one of the payments, the account is
    not active, whatever the payment's status was. *)
Theorem activation_after_confirm_and_reject
    (pg : page) (toLowerCase : string -> string) (now : Z) (isoNow : string)
    (confirmationId : string) (st : UserData.t) (c : Confirmation.t) :
  find (fun c => String.eqb (Confirmation.id c) confirmationId)
       (UserData.pendingConfirmations st) = Some c ->
  (isAccountActive pg (confirm pg toLowerCase now isoNow confirmationId st)
   = true
   <-> forall p, In p (UserData.paymentsData st) ->
                 Confirmation.paymentId c <> Some (Payment.id p) ->
                 Payment.status p = Payment.confirmed)
  /\ (existsb (idIs (Confirmation.paymentId c)) (UserData.paymentsData st)
      = true ->
      isAccountActive pg (reject pg now confirmationId st) = false).
Proof.
  intros H. split.
  - rewrite isAccountActive_eq, (confirm_run pg toLowerCase now isoNow _ _ H).
    simpl. rewrite forallb_forall. split.
    + intros A p Hin Hne.
      specialize (A _ (in_map _ _ _ Hin)). simpl in A.
      destruct (idIs (Confirmation.paymentId c) p) eqn:E.
      * apply idIs_true in E. contradiction.
      * now apply status_eqb_eq.
    + intros A q Hq. apply in_map_iff in Hq. destruct Hq as (p & <- & Hin).
      destruct (idIs (Confirmation.paymentId c) p) eqn:E.
      * now destruct p.
      * apply status_eqb_eq, A; auto.
        intros K. apply idIs_true in K. congruence.
  - intros E. rewrite isAccountActive_eq, (reject_run pg now _ _ H). simpl.
    apply existsb_exists in E. destruct E as (p & Hin & Hp).
    destruct (forallb _ _) eqn:F; auto.
    rewrite forallb_forall in F.
    specialize (F _ (in_map _ _ _ Hin)). simpl in F. rewrite Hp in F.
    now destruct p.
Qed.

Lemma activation_after_confirm_and_reject_witness :
  isAccountActive HomePage
    (confirm HomePage (fun s => s) Sample.clock Sample.iso "conf_7"
             Scenario.awaiting) = true
  /\ isAccountActive HomePage
       (reject HomePage Sample.clock "conf_7" Scenario.awaiting) = false.
Proof.
  destruct (@activation_after_confirm_and_reject HomePage (fun s => s)
              Sample.clock Sample.iso "conf_7" Scenario.awaiting
              Scenario.uplineConf eq_refl) as [H1 H2].
  split.
  - apply H1. intros p [<-|[]] K. now elim K.
  - apply H2. reflexivity.
Defined.

(** ** Numbers on the screen *)

Lemma floor_ratio (a b : Z) :
  0 < b -> Qfloor (inject_Z a / inject_Z b) = a / b.
Proof.
  intros H. symmetry. apply Zdiv_Qdiv.
Qed.

Lemma above1_ratio (s d : Z) :
  0 < d -> TimeAgo.above1 (inject_Z s / inject_Z d) = (d <? s).
Proof.
  intros H. unfold TimeAgo.above1.
  destruct d as [|p|p]; try lia.
  unfold Qle_bool. cbn.
  now rewrite !Z.mul_1_r, Z.leb_antisym, negb_involutive.
Qed.

Lemma hours_eq (t : Z) : CountdownTimer.hours t = t / 3600000.
Proof.
  unfold CountdownTimer.hours. now rewrite floor_ratio.
Qed.

Lemma residue (t a : Z) :
  0 < a ->
  (t - 60 * (t / (a * 60)) * a) / a = (t / a) mod 60.
Proof.
  intros Ha. rewrite <- Z.div_div by lia.
  pose proof (Z.div_mod t a ltac:(lia)) as E1.
  pose proof (Z.mod_pos_bound t a ltac:(lia)) as B1.
  pose proof (Z.div_mod (t / a) 60 ltac:(lia)) as E2.
  symmetry. apply Z.div_unique with (t mod a); [lia|].
  set (s := t / a) in *. set (k := s / 60) in *.
  set (m := s mod 60) in *. nia.
Qed.

Lemma seconds_eq (t : Z) :
  0 <= t -> CountdownTimer.seconds t = (t / 1000) mod 60.
Proof.
  intros H. unfold CountdownTimer.seconds, JSMath.rem.
  assert (K : JSMath.trunc (inject_Z t / inject_Z 1000 / inject_Z 60)
              = t / 60000).
  { unfold JSMath.trunc.
    replace (Qle_bool 0 (inject_Z t / inject_Z 1000 / inject_Z 60))
      with true.
    - unfold Qfloor. cbn. now rewrite !Z.mul_1_r.
    - symmetry. unfold Qle_bool. cbn. apply Z.leb_le. lia. }
  rewrite K. unfold Qfloor. cbn -[Z.mul Z.add Z.opp Z.div Z.modulo].
  rewrite <- (@residue t 1000) by lia. f_equal. simpl (1000 * 60). lia.
Qed.

Lemma minutes_eq (t : Z) :
  0 <= t -> CountdownTimer.minutes t = (t / 60000) mod 60.
Proof.
  intros H. unfold CountdownTimer.minutes, JSMath.rem.
  assert (K : JSMath.trunc
                (inject_Z t / inject_Z 1000 / inject_Z 60 / inject_Z 60)
              = t / 3600000).
  { unfold JSMath.trunc.
    replace (Qle_bool 0 (inject_Z t / inject_Z 1000 / inject_Z 60
                         / inject_Z 60))
      with true.
    - unfold Qfloor. cbn. now rewrite !Z.mul_1_r.
    - symmetry. unfold Qle_bool. cbn. apply Z.leb_le. lia. }
  rewrite K. unfold Qfloor. cbn -[Z.mul Z.add Z.opp Z.div Z.modulo].
  rewrite <- (@residue t 60000) by lia. f_equal. simpl (60000 * 60). lia.
Qed.

(** X18. The countdown: after every run of the interval callback the time
    left is [max (expiry - now) 0], the interval is cleared exactly when the
    expiry has been reached, the minutes and seconds shown lie in [0 .. 59],
    and the three numbers add up to the whole seconds left.  A lapsed timer
    reads [00:00:00] after the callback ran, but the first render, which
    does not clamp, shows a negative number of hours. *)
Theorem countdown_display (expiryTimestamp now : Z) :
  let timeLeft := fst (CountdownTimer.tick expiryTimestamp now) in
  timeLeft = Z.max (expiryTimestamp - now) 0
  /\ (snd (CountdownTimer.tick expiryTimestamp now) = true
      <-> expiryTimestamp <= now)
  /\ 0 <= CountdownTimer.hours timeLeft
  /\ 0 <= CountdownTimer.minutes timeLeft < 60
  /\ 0 <= CountdownTimer.seconds timeLeft < 60
  /\ CountdownTimer.hours timeLeft * 3600
     + CountdownTimer.minutes timeLeft * 60
     + CountdownTimer.seconds timeLeft
     = timeLeft / 1000
  /\ (expiryTimestamp <= now ->
      CountdownTimer.display timeLeft = "00:00:00"%string)
  /\ (expiryTimestamp < now ->
      CountdownTimer.hours (CountdownTimer.initial expiryTimestamp now) < 0).
Proof.
  intros timeLeft.
  assert (T : timeLeft = Z.max (expiryTimestamp - now) 0).
  { subst timeLeft. unfold CountdownTimer.tick. simpl.
    destruct (expiryTimestamp - now >? 0) eqn:E.
    - apply Z.gtb_lt in E. lia.
    - rewrite Z.gtb_ltb in E. apply Z.ltb_ge in E. lia. }
  assert (P : 0 <= timeLeft) by lia.
  split; [exact T|]. split.
  { unfold CountdownTimer.tick. simpl. rewrite Z.leb_le. lia. }
  rewrite hours_eq, minutes_eq, seconds_eq by assumption.
  pose proof (Z.mod_pos_bound (timeLeft / 60000) 60 ltac:(lia)).
  pose proof (Z.mod_pos_bound (timeLeft / 1000) 60 ltac:(lia)).
  split; [apply Z.div_pos; lia|]. split; [assumption|].
  split; [assumption|]. split.
  { replace 3600000 with (1000 * 60 * 60) by reflexivity.
    replace 60000 with (1000 * 60) by reflexivity.
    rewrite <- !Z.div_div by lia.
    set (s := timeLeft / 1000).
    pose proof (Z.div_mod s 60 ltac:(lia)).
    pose proof (Z.div_mod (s / 60) 60 ltac:(lia)).
    lia. }
  split.
  { intros E. replace timeLeft with 0 by lia. reflexivity. }
  intros E. rewrite hours_eq. unfold CountdownTimer.initial.
  apply Z.div_lt_upper_bound; lia.
Qed.

Lemma update_cascade (now timestamp : Z) :
  let s := (now - timestamp) / 1000 in
  TimeAgo.update now timestamp
  = if 31536000 <? s
    then (JS.numberToString (s / 31536000) ++ "y ago")%string
    else if 2592000 <? s
    then (JS.numberToString (s / 2592000) ++ "mo ago")%string
    else if 86400 <? s
    then (JS.numberToString (s / 86400) ++ "d ago")%string
    else if 3600 <? s
    then (JS.numberToString (s / 3600) ++ "h ago")%string
    else if 60 <? s
    then (JS.numberToString (s / 60) ++ "m ago")%string
    else "Just now"%string.
Proof.
  intros s. unfold TimeAgo.update.
  rewrite (@floor_ratio (now - timestamp) 1000) by lia. fold s.
  rewrite !above1_ratio, !floor_ratio by lia. reflexivity.
Qed.

(** X19. The age of a notification as the panel words it, with
    [s = floor ((now - timestamp) / 1000)]: [Just now] up to and including
    60 seconds (and for a timestamp in the future); then whole minutes from
    1 to 60, whole hours from 1 to 24, whole days from 1 to 30, months of 30
    days from 1 to 12, and years of 365 days from 1.  Every unit starts
    strictly after its first full interval, so exactly one hour reads
    [60m ago]. *)
Theorem timeAgo_ranges (now timestamp : Z) :
  let s := (now - timestamp) / 1000 in
  let shows (n : Z) (unit : string) :=
    TimeAgo.update now timestamp
    = (JS.numberToString n ++ unit)%string in
  (s <= 60 -> TimeAgo.update now timestamp = "Just now"%string)
  /\ (60 < s <= 3600 -> shows (s / 60) "m ago"%string /\ 1 <= s / 60 <= 60)
  /\ (3600 < s <= 86400 ->
      shows (s / 3600) "h ago"%string /\ 1 <= s / 3600 <= 24)
  /\ (86400 < s <= 2592000 ->
      shows (s / 86400) "d ago"%string /\ 1 <= s / 86400 <= 30)
  /\ (2592000 < s <= 31536000 ->
      shows (s / 2592000) "mo ago"%string /\ 1 <= s / 2592000 <= 12)
  /\ (31536000 < s ->
      shows (s / 31536000) "y ago"%string /\ 1 <= s / 31536000).
Proof.
  intros s shows. subst shows. cbv beta.
  rewrite update_cascade. fold s.
  assert (R : forall d lo hi, 0 < d -> d * lo <= s -> s < d * (hi + 1) ->
                              lo <= s / d <= hi).
  { intros d lo hi Hd H1 H2. split.
    - apply Z.div_le_lower_bound; lia.
    - apply Z.lt_succ_r. apply Z.div_lt_upper_bound; lia. }
  assert (L : forall a, (a <? s) = true <-> a < s)
    by (intros; apply Z.ltb_lt).
  assert (G : forall a, (a <? s) = false <-> s <= a)
    by (intros; apply Z.ltb_ge).
  assert (C : forall a, (a < s -> (a <? s) = true)
                        /\ (s <= a -> (a <? s) = false)).
  { intros a. split; intros K; [now apply L | now apply G]. }
  split; [|split; [|split; [|split; [|split]]]]; intros H;
    rewrite ?(proj1 (C 31536000)), ?(proj2 (C 31536000)),
            ?(proj1 (C 2592000)), ?(proj2 (C 2592000)),
            ?(proj1 (C 86400)), ?(proj2 (C 86400)),
            ?(proj1 (C 3600)), ?(proj2 (C 3600)),
            ?(proj1 (C 60)), ?(proj2 (C 60)) by lia;
    [reflexivity | split; [reflexivity | apply R; lia] ..
     | split; [reflexivity | apply Z.div_le_lower_bound; lia]].
Qed.

(** ** Accounts *)

Lemma getOwn_set_same {A} (o : JSObject.t A) (k : string) (v : A) :
  JSObject.getOwn (JSObject.set o k v) k = Some v.
Proof.
  induction o as [|[k' x] t IH]; simpl.
  - now rewrite String.eqb_refl.
  - destruct (String.eqb k' k) eqn:E; simpl; now rewrite E.
Qed.

Lemma getOwn_set_other {A} (o : JSObject.t A) (k k' : string) (v : A) :
  k' <> k ->
  JSObject.getOwn (JSObject.set o k v) k' = JSObject.getOwn o k'.
Proof.
  intros H. induction o as [|[k0 x] t IH]; simpl.
  - apply String.eqb_neq in H. rewrite String.eqb_sym in H. now rewrite H.
  - destruct (String.eqb k0 k) eqn:E; simpl.
    + apply String.eqb_eq in E. subst k0.
      destruct (String.eqb_spec k k'); [congruence | reflexivity].
    + now rewrite IH.
Qed.

Lemma get_set_same {A} (o : JSObject.t A) (k : string) (v : A) :
  JSObject.get (JSObject.set o k v) k = JSObject.own v.
Proof.
  unfold JSObject.get. now rewrite getOwn_set_same.
Qed.

Lemma get_set_other {A} (o : JSObject.t A) (k k' : string) (v : A) :
  k' <> k ->
  JSObject.get (JSObject.set o k v) k' = JSObject.get o k'.
Proof.
  intros H. unfold JSObject.get. now rewrite getOwn_set_other.
Qed.

Lemma signup_run (formData : FormData.t) (now : Z) (newUser : UserData.t)
      (s : App.t) :
  JSObject.get (AppDatabase.accounts (App.db s)) (FormData.email formData)
  = JSObject.undefined ->
  App.handleSignup formData now newUser s
  = (App.mk
       (AppDatabase.mk
          (JSObject.set (AppDatabase.accounts (App.db s))
                        (FormData.email formData)
                        (Account.mk (FormData.password formData)
                                    (App.newUserIdAt now)))
          (JSObject.set (AppDatabase.users (App.db s))
                        (App.newUserIdAt now) newUser)
          (AppDatabase.systemConfig (App.db s)))
       (Some (App.newUserIdAt now)) (App.publicView s),
     None).
Proof.
  intros H. unfold App.handleSignup. now rewrite H.
Qed.

Lemma newUserId_truthy (now : Z) :
  JS.truthyString (App.newUserIdAt now) = true.
Proof.
  reflexivity.
Qed.

(** X20. Signing up and logging in.  With an email that [db.accounts] does
    not answer to, [handleSignup] alerts nothing, logs the new user in under
    the id [user_<now>] and hands the generated record to the dashboard;
    after a logout, [handleLogin] with the same email and password logs the
    same user in again, any other password is refused with an alert and
    nothing changes, and a further signup with that email, whatever the
    other fields, is refused and changes nothing. *)
Theorem signup_then_login
    (formData : FormData.t) (now : Z) (newUser : UserData.t) (s : App.t) :
  JSObject.get (AppDatabase.accounts (App.db s)) (FormData.email formData)
  = JSObject.undefined ->
  let s1 := fst (App.handleSignup formData now newUser s) in
  let out := App.handleLogout s1 in
  snd (App.handleSignup formData now newUser s) = None
  /\ App.currentUserId s1 = Some (App.newUserIdAt now)
  /\ App.currentUserData s1 = Some newUser
  /\ App.currentUserData out = None
  /\ App.handleLogin (FormData.email formData) (FormData.password formData)
                     out
     = (App.set_currentUserId out (Some (App.newUserIdAt now)), None)
  /\ App.currentUserData
       (fst (App.handleLogin (FormData.email formData)
                             (FormData.password formData) out))
     = Some newUser
  /\ (forall password,
        password <> FormData.password formData ->
        App.handleLogin (FormData.email formData) password out
        = (out, Some App.invalidLogin))
  /\ (forall again now' newUser',
        FormData.email again = FormData.email formData ->
        App.handleSignup again now' newUser' s1
        = (s1, Some App.emailTaken)).
Proof.
  intros H s1 out. subst out s1. rewrite (signup_run _ _ _ _ H).
  cbn [fst snd].
  split; [reflexivity|]. split; [reflexivity|]. split.
  { unfold App.currentUserData, App.loggedInAs. cbn [App.currentUserId].
    rewrite newUserId_truthy. cbn [App.db AppDatabase.users].
    now rewrite get_set_same. }
  split; [reflexivity|]. split.
  { unfold App.handleLogin, App.handleLogout.
    cbn [App.db AppDatabase.accounts].
    rewrite get_set_same. cbn [Account.password Account.userId].
    now rewrite String.eqb_refl. }
  split.
  { unfold App.handleLogin, App.handleLogout.
    cbn [App.db AppDatabase.accounts].
    rewrite get_set_same. cbn [Account.password Account.userId].
    rewrite String.eqb_refl. cbn [fst].
    unfold App.currentUserData, App.loggedInAs, App.set_currentUserId.
    cbn [App.currentUserId]. rewrite newUserId_truthy.
    cbn [App.db AppDatabase.users]. now rewrite get_set_same. }
  split.
  { intros password Hp. unfold App.handleLogin, App.handleLogout.
    cbn [App.db AppDatabase.accounts].
    rewrite get_set_same. cbn [Account.password].
    apply not_eq_sym in Hp. apply String.eqb_neq in Hp. now rewrite Hp. }
  intros again now' newUser' He. unfold App.handleSignup.
  cbn [App.db AppDatabase.accounts]. rewrite He, get_set_same. reflexivity.
Qed.

Lemma signup_then_login_witness :
  App.currentUserData
    (fst (App.handleLogin "ann@example.com" "pw"
            (App.handleLogout
               (fst (App.handleSignup Registry.ann Sample.clock
                                      Registry.annData Registry.landing)))))
  = Some Registry.annData.
Proof.
  exact (proj1 (proj2 (proj2 (proj2 (proj2 (proj2
           (@signup_then_login Registry.ann Sample.clock Registry.annData
                               Registry.landing eq_refl))))))).
Defined.

(** X21. [handleSignup] refuses every email that names a property plain
    objects inherit ([constructor], [toString], ...), on any database, with
    the alert for a taken email; [handleLogin] refuses such an email as
    well, whatever the password. *)
Theorem inherited_names_are_taken
    (formData : FormData.t) (now : Z) (newUser : UserData.t)
    (password : string) (s : App.t) :
  JS.includes JSObject.prototypeKeys (FormData.email formData) = true ->
  App.handleSignup formData now newUser s = (s, Some App.emailTaken)
  /\ (JSObject.getOwn (AppDatabase.accounts (App.db s))
                      (FormData.email formData) = None ->
      App.handleLogin (FormData.email formData) password s
      = (s, Some App.invalidLogin)).
Proof.
  intros H. split.
  - unfold App.handleSignup, JSObject.get. rewrite H.
    now destruct (JSObject.getOwn _ _).
  - intros E. unfold App.handleLogin, JSObject.get. now rewrite E, H.
Qed.

Lemma inherited_names_are_taken_witness :
  App.handleSignup (FormData.mk "Ann Lee" "constructor" "pw") Sample.clock
                   Registry.annData Registry.landing
  = (Registry.landing, Some App.emailTaken).
Proof.
  exact (proj1 (@inherited_names_are_taken
                  (FormData.mk "Ann Lee" "constructor" "pw") Sample.clock
                  Registry.annData "pw" Registry.landing eq_refl)).
Defined.

(** X22. The id of a new user is made from the clock alone: two signups
    with different emails at the same clock reading get the same id, the
    second record replaces the first, and the first user, logging in with
    their own email and password, is shown the second user's data. *)
Theorem signups_in_the_same_millisecond_share_a_record
    (first second : FormData.t) (now : Z) (data1 data2 : UserData.t)
    (s : App.t) :
  JSObject.get (AppDatabase.accounts (App.db s)) (FormData.email first)
  = JSObject.undefined ->
  JSObject.get (AppDatabase.accounts (App.db s)) (FormData.email second)
  = JSObject.undefined ->
  FormData.email first <> FormData.email second ->
  let s1 := App.handleLogout
              (fst (App.handleSignup first now data1 s)) in
  let s2 := App.handleLogout
              (fst (App.handleSignup second now data2 s1)) in
  snd (App.handleSignup second now data2 s1) = None
  /\ App.handleLogin (FormData.email first) (FormData.password first) s2
     = (App.set_currentUserId s2 (Some (App.newUserIdAt now)), None)
  /\ App.currentUserData
       (fst (App.handleLogin (FormData.email first)
                             (FormData.password first) s2))
     = Some data2.
Proof.
  intros H1 H2 Hne s1 s2. subst s2 s1.
  rewrite (signup_run _ _ _ _ H1). cbn [fst].
  assert (F : JSObject.get
                (AppDatabase.accounts
                   (App.db
                      (App.handleLogout
                         (App.mk
                            (AppDatabase.mk
                               (JSObject.set
                                  (AppDatabase.accounts (App.db s))
                                  (FormData.email first)
                                  (Account.mk (FormData.password first)
                                              (App.newUserIdAt now)))
                               (JSObject.set (AppDatabase.users (App.db s))
                                             (App.newUserIdAt now) data1)
                               (AppDatabase.systemConfig (App.db s)))
                            (Some (App.newUserIdAt now))
                            (App.publicView s)))))
                (FormData.email second)
              = JSObject.undefined).
  { cbn [App.handleLogout App.db AppDatabase.accounts].
    rewrite get_set_other by congruence. exact H2. }
  rewrite (signup_run _ _ _ _ F). cbn [fst snd].
  split; [reflexivity|].
  unfold App.handleLogin, App.handleLogout.
  cbn [App.db AppDatabase.accounts AppDatabase.users].
  rewrite get_set_other by congruence. rewrite get_set_same.
  cbn [Account.password Account.userId]. rewrite String.eqb_refl.
  split; [reflexivity|]. cbn [fst].
  unfold App.currentUserData, App.loggedInAs, App.set_currentUserId.
  cbn [App.currentUserId]. rewrite newUserId_truthy.
  cbn [App.db AppDatabase.users]. now rewrite get_set_same.
Qed.

Lemma signups_in_the_same_millisecond_share_a_record_witness :
  App.currentUserData
    (fst (App.handleLogin "ann@example.com" "pw"
            (App.handleLogout
               (fst (App.handleSignup Registry.bob Sample.clock
                       Registry.bobData
                       (App.handleLogout
                          (fst (App.handleSignup Registry.ann Sample.clock
                                  Registry.annData Registry.landing))))))))
  = Some Registry.bobData.
Proof.
  exact (proj2 (proj2
           (@signups_in_the_same_millisecond_share_a_record
              Registry.ann Registry.bob Sample.clock Registry.annData
              Registry.bobData Registry.landing eq_refl eq_refl
              ltac:(discriminate)))).
Defined.


(** ** The dialog of the confirmations tab *)

(** X24. The dialog of the confirmations tab keeps the id of the card that
    opened it and nothing else.  Pressing its confirm button closes it and,
    for a non-empty id, runs the handler on the first pending confirmation
    with that id, [found], which need not be the card clicked: the payment
    named by [found] is confirmed or reset, and every pending confirmation
    with that id is removed.  With an empty id nothing but the closing
    happens, and a press on the closed dialog changes nothing. *)
Theorem dialog_acts_on_the_first_confirmation_with_the_id
    (pg : page) (toLowerCase : string -> string) (now : Z) (isoNow : string)
    (a : ConfirmationsTab.action) (card found : Confirmation.t)
    (st : UserData.t) :
  find (fun c => String.eqb (Confirmation.id c) (Confirmation.id card))
       (UserData.pendingConfirmations st) = Some found ->
  let press d s :=
    ConfirmationsTab.handleDialogConfirm d
      (confirm pg toLowerCase now isoNow) (reject pg now) s in
  let closed := ConfirmationsTab.mkDialog None None in
  let after := press (ConfirmationsTab.openConfirmationDialog a card) st in
  fst after = closed
  /\ press closed (snd after) = (closed, snd after)
  /\ (Confirmation.id card = ""%string -> snd after = st)
  /\ (Confirmation.id card <> ""%string ->
      UserData.pendingConfirmations (snd after)
      = filter (fun c => negb (String.eqb (Confirmation.id c)
                                          (Confirmation.id card)))
               (UserData.pendingConfirmations st)
      /\ UserData.paymentsData (snd after)
         = map (fun p =>
                  if idIs (Confirmation.paymentId found) p
                  then match a with
                       | ConfirmationsTab.actConfirm =>
                         Payment.with_status p Payment.confirmed
                       | ConfirmationsTab.actReject => Payment.reset p now
                       end
                  else p)
               (UserData.paymentsData st)).
Proof.
  intros H press closed after. subst after press closed.
  unfold ConfirmationsTab.handleDialogConfirm,
    ConfirmationsTab.openConfirmationDialog.
  cbn [fst snd ConfirmationsTab.dialogAction ConfirmationsTab.confirmationId].
  split; [reflexivity|]. split; [reflexivity|]. split.
  - intros E. rewrite E. reflexivity.
  - intros E. unfold JS.truthyString.
    apply String.eqb_neq in E. rewrite E. cbn [negb].
    destruct a.
    + rewrite (confirm_run pg toLowerCase now isoNow _ _ H).
      split; reflexivity.
    + rewrite (reject_run pg now _ _ H). split; reflexivity.
Qed.

Lemma dialog_acts_on_the_first_confirmation_with_the_id_witness :
  UserData.pendingConfirmations
    (snd (ConfirmationsTab.handleDialogConfirm
            (ConfirmationsTab.openConfirmationDialog
               ConfirmationsTab.actConfirm Scenario.referralConf)
            (confirm HomePage (fun s => s) Sample.clock Sample.iso)
            (reject HomePage Sample.clock) Scenario.twins))
  = []
  /\ map Payment.status
         (UserData.paymentsData
            (snd (ConfirmationsTab.handleDialogConfirm
                    (ConfirmationsTab.openConfirmationDialog
                       ConfirmationsTab.actConfirm Scenario.referralConf)
                    (confirm HomePage (fun s => s) Sample.clock Sample.iso)
                    (reject HomePage Sample.clock) Scenario.twins)))
     = [Payment.confirmed; Payment.pending].
Proof.
  destruct (proj2 (proj2 (proj2
             (@dialog_acts_on_the_first_confirmation_with_the_id
                HomePage (fun s => s) Sample.clock Sample.iso
                ConfirmationsTab.actConfirm Scenario.referralConf
                Scenario.uplineConf Scenario.twins eq_refl)))
             ltac:(discriminate)) as [H1 H2].
  split.
  - exact H1.
  - rewrite H2. reflexivity.
Defined.

(** ** Simulated notifications *)

Lemma random_index (random : Q) (n : Z) :
  (0 <= random)%Q -> (random < 1)%Q -> 0 < n ->
  0 <= Qfloor (random * inject_Z n) < n.
Proof.
  intros H0 H1 Hn.
  assert (P : (0 < inject_Z n)%Q)
    by (change 0%Q with (inject_Z 0); now rewrite <- Zlt_Qlt).
  split.
  - change 0 with (Qfloor (inject_Z 0)) at 1. apply Qfloor_resp_le.
    change (inject_Z 0) with 0%Q. apply Qmult_le_0_compat; auto.
    now apply Qlt_le_weak.
  - rewrite Zlt_Qlt.
    apply Qle_lt_trans with (random * inject_Z n)%Q; [apply Qfloor_le|].
    rewrite <- (Qmult_1_l (inject_Z n)) at 2.
    now apply Qmult_lt_compat_r.
Qed.

(** *** Rounding to binary64 *)

From Stdlib Require Import Lqa.

Lemma pow2_pos (e : Z) : (0 < Binary64.pow2 e)%Q.
Proof.
  apply Qpower_0_lt. reflexivity.
Qed.

Lemma pow2_add (a b : Z) :
  (Binary64.pow2 (a + b) == Binary64.pow2 a * Binary64.pow2 b)%Q.
Proof.
  apply Qpower_plus. discriminate.
Qed.

Lemma pow2_le (a b : Z) :
  a <= b -> (Binary64.pow2 a <= Binary64.pow2 b)%Q.
Proof.
  intros H. apply Qpower_le_compat_l; [exact H | discriminate].
Qed.

Lemma pow2_lt_inv (a b : Z) :
  (Binary64.pow2 a < Binary64.pow2 b)%Q -> a < b.
Proof.
  intros H. apply (Qpower_lt_compat_l_inv (2 # 1)); [exact H | reflexivity].
Qed.

Lemma pow2_Z (e : Z) : 0 <= e -> (Binary64.pow2 e == inject_Z (2 ^ e))%Q.
Proof.
  intros H. unfold Binary64.pow2. now rewrite Zpower_Qpower.
Qed.

Lemma ilog2_spec (x : Q) :
  (0 < x)%Q ->
  (Binary64.pow2 (Binary64.ilog2 x) <= x)%Q
  /\ (x < Binary64.pow2 (Binary64.ilog2 x + 1))%Q.
Proof.
  intros Hx. destruct x as [a b].
  assert (Ha : 0 < a) by (unfold Qlt in Hx; simpl in Hx; lia).
  unfold Binary64.ilog2. cbn [Qnum Qden].
  set (la := Z.log2 a). set (lb := Z.log2 (Z.pos b)).
  destruct (Z.log2_spec a Ha) as [A1 A2]. fold la in A1, A2.
  destruct (Z.log2_spec (Z.pos b) ltac:(lia)) as [B1 B2]. fold lb in B1, B2.
  assert (La : 0 <= la) by apply Z.log2_nonneg.
  assert (Lb : 0 <= lb) by apply Z.log2_nonneg.
  assert (E : (a # b == inject_Z a / inject_Z (Z.pos b))%Q)
    by apply Qmake_Qdiv.
  assert (Pb : (0 < inject_Z (Z.pos b))%Q) by reflexivity.
  assert (QA1 : (Binary64.pow2 la <= inject_Z a)%Q)
    by (rewrite pow2_Z by lia; now rewrite <- Zle_Qle).
  assert (QA2 : (inject_Z a < Binary64.pow2 (la + 1))%Q)
    by (rewrite pow2_Z by lia; now rewrite <- Zlt_Qlt).
  assert (QB1 : (Binary64.pow2 lb <= inject_Z (Z.pos b))%Q)
    by (rewrite pow2_Z by lia; now rewrite <- Zle_Qle).
  assert (QB2 : (inject_Z (Z.pos b) < Binary64.pow2 (lb + 1))%Q)
    by (rewrite pow2_Z by lia; now rewrite <- Zlt_Qlt).
  assert (Low : (Binary64.pow2 (la - lb - 1) <= a # b)%Q).
  { rewrite E. apply Qle_shift_div_l; [exact Pb|].
    apply Qle_trans with (Binary64.pow2 la); [|exact QA1].
    replace la with ((la - lb - 1) + (lb + 1)) at 2 by lia.
    rewrite pow2_add.
    apply Qmult_le_l; [apply pow2_pos|]. now apply Qlt_le_weak. }
  assert (Up : (a # b < Binary64.pow2 (la - lb + 1))%Q).
  { rewrite E. apply Qlt_shift_div_r; [exact Pb|].
    apply Qlt_le_trans with (Binary64.pow2 (la + 1)); [exact QA2|].
    replace (la + 1) with ((la - lb + 1) + lb) by lia.
    rewrite pow2_add.
    apply Qmult_le_l; [apply pow2_pos|]. exact QB1. }
  destruct (Qle_bool (Binary64.pow2 (la - lb)) (a # b)) eqn:C.
  - apply Qle_bool_iff in C. split; assumption.
  - replace (la - lb - 1 + 1) with (la - lb) by lia. split; [exact Low|].
    apply Qnot_le_lt. intros K. apply Qle_bool_iff in K. congruence.
Qed.

Lemma roundEven_bounds (q : Q) :
  Qfloor q <= Binary64.roundEven q
  /\ (inject_Z (Binary64.roundEven q) <= q + (1 # 2))%Q.
Proof.
  unfold Binary64.roundEven.
  pose proof (Qfloor_le q) as L. pose proof (Qlt_floor q) as U.
  rewrite inject_Z_plus in U. change (inject_Z 1) with 1%Q in U.
  set (f := Qfloor q) in *.
  destruct (Qcompare (q - inject_Z f) (1 # 2)) eqn:C.
  - apply Qeq_alt in C.
    destruct (Z.even f); split; try lia;
      rewrite ?inject_Z_plus; change (inject_Z 1) with 1%Q; lra.
  - split; [lia|]. lra.
  - apply Qgt_alt in C. split; [lia|].
    rewrite inject_Z_plus. change (inject_Z 1) with 1%Q. lra.
Qed.

Lemma round_positive (x : Q) :
  (0 < x)%Q ->
  Binary64.round x
  = (inject_Z (Binary64.roundEven
                 (x / Binary64.pow2
                        (Z.max (Binary64.ilog2 x - 52) (-1074))))
     * Binary64.pow2 (Z.max (Binary64.ilog2 x - 52) (-1074)))%Q.
Proof.
  intros H. unfold Binary64.round.
  destruct (Qle_bool x 0) eqn:C; [|reflexivity].
  apply Qle_bool_iff in C. lra.
Qed.

Lemma double_below_one (r : Q) :
  Binary64.isDouble r = true -> (0 <= r)%Q -> (r < 1)%Q ->
  (r <= 1 - Binary64.pow2 (-53))%Q.
Proof.
  intros D H0 H1.
  assert (P53 : (Binary64.pow2 (-53) == 1 # 9007199254740992)%Q)
    by reflexivity.
  destruct (Qlt_le_dec r (1 # 2)) as [Hs|Hh]; [rewrite P53; lra|].
  assert (Hpos : (0 < r)%Q) by lra.
  apply Qeq_bool_iff in D. rewrite (round_positive Hpos) in D.
  destruct (ilog2_spec Hpos) as [L U].
  set (k := Binary64.ilog2 r) in *.
  assert (Hk : k = -1).
  { assert (k < 0).
    { apply pow2_lt_inv. apply Qle_lt_trans with r; [exact L|].
      change (Binary64.pow2 0) with 1%Q. exact H1. }
    assert (-1 < k + 1).
    { apply pow2_lt_inv. apply Qle_lt_trans with r; [|exact U].
      change (Binary64.pow2 (-1)) with (1 # 2). exact Hh. }
    lia. }
  rewrite Hk in D. change (Z.max (-1 - 52) (-1074)) with (-53) in D.
  set (n := Binary64.roundEven (r / Binary64.pow2 (-53))) in *.
  rewrite P53 in D |- *.
  assert (Hn : n < 9007199254740992).
  { rewrite Zlt_Qlt.
    change (inject_Z 9007199254740992) with (9007199254740992 # 1).
    rewrite <- D in H1. lra. }
  assert (Hn' : (inject_Z n <= inject_Z 9007199254740991)%Q)
    by (rewrite <- Zle_Qle; lia).
  change (inject_Z 9007199254740991) with (9007199254740991 # 1) in Hn'.
  rewrite <- D. lra.
Qed.

Lemma random_index64 (r : Q) :
  Binary64.isDouble r = true -> (0 <= r)%Q -> (r < 1)%Q ->
  0 <= Qfloor (Binary64.mul r (inject_Z 5)) < 5.
Proof.
  intros D H0 H1. pose proof (double_below_one D H0 H1) as B.
  assert (P53 : (Binary64.pow2 (-53) == 1 # 9007199254740992)%Q)
    by reflexivity.
  rewrite P53 in B.
  unfold Binary64.mul. change (inject_Z 5) with (5 # 1).
  set (x := (r * (5 # 1))%Q).
  assert (Hx : (x <= 5 - (5 # 9007199254740992))%Q) by (subst x; lra).
  destruct (Qlt_le_dec 0 x) as [Hpos|Hz].
  - rewrite (round_positive Hpos).
    destruct (ilog2_spec Hpos) as [L _].
    set (k := Binary64.ilog2 x) in *.
    assert (Hk : k < 3).
    { apply pow2_lt_inv. apply Qle_lt_trans with x; [exact L|].
      change (Binary64.pow2 3) with (8 # 1). lra. }
    set (e := Z.max (k - 52) (-1074)).
    assert (He : e <= -50) by (subst e; lia).
    pose proof (pow2_pos e) as Pe.
    pose proof (pow2_le He) as Le.
    change (Binary64.pow2 (-50)) with (1 # 1125899906842624) in Le.
    destruct (roundEven_bounds (x / Binary64.pow2 e)) as [Lo Hi].
    set (n := Binary64.roundEven (x / Binary64.pow2 e)) in *.
    assert (Hq : (0 <= x / Binary64.pow2 e)%Q).
    { apply Qle_shift_div_l; [exact Pe|]. lra. }
    assert (Hn0 : 0 <= n).
    { apply Z.le_trans with (Qfloor (x / Binary64.pow2 e)); [|exact Lo].
      change 0 with (Qfloor 0). now apply Qfloor_resp_le. }
    assert (Hres : (inject_Z n * Binary64.pow2 e
                    <= x + (1 # 2) * Binary64.pow2 e)%Q).
    { apply Qle_trans
        with ((x / Binary64.pow2 e + (1 # 2)) * Binary64.pow2 e)%Q.
      - apply Qmult_le_compat_r; [exact Hi | now apply Qlt_le_weak].
      - apply Qle_lteq. right. field. intros K. rewrite K in Pe.
        discriminate Pe. }
    split.
    + change 0 with (Qfloor 0). apply Qfloor_resp_le.
      apply Qmult_le_0_compat; [|now apply Qlt_le_weak].
      change 0%Q with (inject_Z 0). now rewrite <- Zle_Qle.
    + rewrite Zlt_Qlt.
      apply Qle_lt_trans with (inject_Z n * Binary64.pow2 e)%Q;
        [apply Qfloor_le|].
      change (inject_Z 5) with (5 # 1). lra.
  - unfold Binary64.round.
    replace (Qle_bool x 0) with true
      by (symmetry; now apply Qle_bool_iff).
    split; reflexivity.
Qed.

(** X25. In [src/Home.tsx], whatever binary64 number in [0, 1)
    [Math.random()] returns, a run of the notification simulator picks an
    entry inside the pool, the index being the floor of the product of
    doubles, and puts one unread notification built from that entry in front
    of the list, so the unread count of the header goes up by exactly
    one. *)
Theorem simulated_notification_is_from_the_pool
    (random : Q) (now : Z) (st : UserData.t) :
  Binary64.isDouble random = true ->
  (0 <= random)%Q -> (random < 1)%Q ->
  exists type message,
    In (type, message) Home.notificationPool
    /\ Home.simulateNotification random now st
       = Some (UserData.set_notifications st
                 (Notification.mk ("n" ++ JS.numberToString now)%string type
                                  message now false
                  :: UserData.notifications st))
    /\ forall st',
         Home.simulateNotification random now st = Some st' ->
         Header.unreadCount (UserData.notifications st')
         = Header.unreadCount (UserData.notifications st) + 1.
Proof.
  intros D H0 H1. unfold Home.simulateNotification.
  change (inject_Z (Z.of_nat (List.length Home.notificationPool)))
    with (inject_Z 5).
  pose proof (random_index64 D H0 H1) as B.
  set (k := Qfloor _) in *.
  assert (K : k = 0 \/ k = 1 \/ k = 2 \/ k = 3 \/ k = 4) by lia.
  destruct K as [K|[K|[K|[K|K]]]]; rewrite K; cbn [JS.at_ Z.ltb Z.compare];
    cbv [Home.notificationPool Z.to_nat Pos.to_nat Pos.iter_op Nat.add
         nth_error];
    eexists; eexists; (split; [|split; [reflexivity|]]);
    try (simpl; tauto);
    intros st' E; inversion E; subst st'; destruct st; unfold Header.unreadCount;
    cbn [UserData.set_notifications UserData.notifications filter
         Notification.isRead negb List.length]; lia.
Qed.

(** At the double nearest to [0.6] the product of doubles is [3]: the
    simulator takes the entry at index 3 of the pool. *)
Lemma simulated_notification_is_from_the_pool_witness :
  exists st',
    Home.simulateNotification (5404319552844595 # 9007199254740992)
                              Sample.clock Scenario.fresh = Some st'
    /\ Header.unreadCount (UserData.notifications st') = 1
    /\ map Notification.type (UserData.notifications st')
       = [Notification.payment_received].
Proof.
  destruct (@simulated_notification_is_from_the_pool
              (5404319552844595 # 9007199254740992) Sample.clock
              Scenario.fresh eq_refl ltac:(discriminate) eq_refl)
    as (type & message & _ & E & H).
  eexists. split; [exact E|]. split; [exact (H _ E)|].
  assert (E' : Home.simulateNotification
                 (5404319552844595 # 9007199254740992) Sample.clock
                 Scenario.fresh
               = Some (UserData.set_notifications Scenario.fresh
                         (Notification.mk
                            ("n" ++ JS.numberToString Sample.clock)%string
                            type message Sample.clock false
                          :: UserData.notifications Scenario.fresh)))
    by exact E.
  vm_compute in E'. injection E' as <- _. reflexivity.
Defined.

(** ** Notes of the admin view *)

Lemma notes_then_status (userId notes : string) (c : AdminUser.t -> bool)
      (s : AdminUser.status_t) (l : list AdminUser.t) :
  (forall u, c (AdminUser.mk (AdminUser.id u) (AdminUser.name u)
                  (AdminUser.profilePicture u) (AdminUser.joinDate u)
                  (AdminUser.paymentsConfirmed u) (AdminUser.totalPayments u)
                  notes (AdminUser.status u) (AdminUser.transactions u))
             = c u) ->
  map (fun u => if String.eqb (AdminUser.id u) userId
                then AdminUser.mk (AdminUser.id u) (AdminUser.name u)
                       (AdminUser.profilePicture u) (AdminUser.joinDate u)
                       (AdminUser.paymentsConfirmed u)
                       (AdminUser.totalPayments u) notes
                       (AdminUser.status u) (AdminUser.transactions u)
                else u)
      (map (fun u => if c u then AdminUser.with_status u s else u) l)
  = map (fun u => if c u then AdminUser.with_status u s else u)
        (map (fun u => if String.eqb (AdminUser.id u) userId
                       then AdminUser.mk (AdminUser.id u) (AdminUser.name u)
                              (AdminUser.profilePicture u)
                              (AdminUser.joinDate u)
                              (AdminUser.paymentsConfirmed u)
                              (AdminUser.totalPayments u) notes
                              (AdminUser.status u) (AdminUser.transactions u)
                       else u) l).
Proof.
  intros Hc. rewrite !map_map. apply map_ext. intros u.
  destruct (String.eqb (AdminUser.id u) userId) eqn:E.
  - rewrite Hc. destruct (c u); simpl; now rewrite E.
  - destruct (c u); simpl; now rewrite E.
Qed.

(** X26. In [src/Home.tsx] the admin's notes and the holds do not disturb
    each other: saving a note commutes with resolving a dispute and with the
    confirmation sweep, the two handlers that change a user's status; and
    saving a note changes the [notes] of the users with that id only. *)
Theorem notes_commute_with_status_changes
    (userId notes : string) (now : Z) (disputeId : string) (f : favor)
    (st : UserData.t) :
  Home.handleSaveNotes userId notes
    (Home.handleResolveDispute now disputeId f st)
  = Home.handleResolveDispute now disputeId f
      (Home.handleSaveNotes userId notes st)
  /\ Home.handleSaveNotes userId notes (Home.confirmationTimerInterval now st)
     = Home.confirmationTimerInterval now
         (Home.handleSaveNotes userId notes st)
  /\ map AdminUser.status
         (UserData.allUsers (Home.handleSaveNotes userId notes st))
     = map AdminUser.status (UserData.allUsers st)
  /\ forall i u,
       nth_error (UserData.allUsers st) i = Some u ->
       exists v,
         nth_error (UserData.allUsers (Home.handleSaveNotes userId notes st))
                   i = Some v
         /\ AdminUser.id v = AdminUser.id u
         /\ AdminUser.notes v
            = (if String.eqb (AdminUser.id u) userId
               then notes else AdminUser.notes u).
Proof.
  destruct st as [pr pays cs ts ds ns bd sd us].
  split; [|split; [|split]].
  - unfold Home.handleResolveDispute, Home.handleSaveNotes.
    cbn [UserData.disputes UserData.set_allUsers UserData.allUsers].
    destruct (find _ ds) as [d|]; [|reflexivity].
    destruct f;
      unfold UserData.set_allUsers, UserData.set_paymentsData,
        UserData.set_disputes;
      cbn -[AdminUser.with_status]; f_equal;
      apply (@notes_then_status userId notes
               (fun u => String.eqb (AdminUser.id u)
                                    (Confirmation.receiverId d)));
      reflexivity.
  - unfold Home.confirmationTimerInterval, Home.handleSaveNotes.
    cbn [UserData.pendingConfirmations UserData.set_allUsers
         UserData.allUsers UserData.set_pendingConfirmations
         UserData.paymentsData].
    destruct (0 <? Z.of_nat (List.length (filter _ cs))); [|reflexivity].
    set (acc := fold_left _ _ _).
    destruct (0 <? Z.of_nat (List.length (Home.newDisputes acc)));
      [|reflexivity].
    unfold UserData.set_allUsers, UserData.set_paymentsData,
      UserData.set_disputes, UserData.set_pendingConfirmations.
    cbn -[AdminUser.with_status]. f_equal.
    apply (@notes_then_status userId notes
             (fun u => JS.includes (Home.usersToPutOnHold acc)
                                   (AdminUser.id u)));
      reflexivity.
  - unfold Home.handleSaveNotes. cbn. rewrite map_map. apply map_ext.
    intros u. now destruct (String.eqb (AdminUser.id u) userId).
  - intros i u H. unfold Home.handleSaveNotes. cbn in *.
    rewrite nth_error_map, H. cbn.
    destruct (String.eqb (AdminUser.id u) userId); eexists;
      (split; [reflexivity|]); split; reflexivity.
Qed.

(** ** The payments a new user owes *)

Lemma random_option (adminOptions : list AdminPaymentOption.t) (random : Q) :
  (0 <= random)%Q -> (random < 1)%Q ->
  exists o,
    InitialPayments.getRandomAdminOption adminOptions random = Some o.
Proof.
  intros H0 H1. unfold InitialPayments.getRandomAdminOption.
  destruct (Z.of_nat (List.length adminOptions) =? 0) eqn:E;
    [now eexists|].
  apply Z.eqb_neq in E.
  pose proof (@random_index random (Z.of_nat (List.length adminOptions))
                H0 H1 ltac:(lia)) as B.
  set (k := Qfloor _) in *.
  unfold JS.at_.
  replace (k <? 0) with false by (symmetry; apply Z.ltb_ge; lia).
  destruct (nth_error adminOptions (Z.to_nat k)) as [o|] eqn:N;
    [now eexists|].
  apply nth_error_None in N. lia.
Qed.

Lemma timedOut_when_late (duration now t : Z) (p : Payment.t) :
  Payment.status p = Payment.unpaid ->
  Payment.assignedTimestamp p = Some t ->
  0 < t -> t + duration < now ->
  paymentTimedOut duration now p
  = negb (String.eqb (Payment.type p) "admin").
Proof.
  intros Hs Ht H0 H1. unfold paymentTimedOut. rewrite Hs, Ht. simpl.
  replace (t =? 0) with false by (symmetry; apply Z.eqb_neq; lia).
  replace (now >? t + duration) with true
    by (symmetry; apply Z.gtb_lt; lia).
  simpl. now rewrite andb_true_r.
Qed.

Lemma late_sweep (duration now : Z) (l : list Payment.t) :
  (forall p, In p l ->
             Payment.status p = Payment.unpaid
             /\ exists t, Payment.assignedTimestamp p = Some t
                          /\ 0 < t /\ t + duration < now) ->
  map Payment.status
      (map (fun p => if paymentTimedOut duration now p
                     then Payment.with_status p Payment.expired else p) l)
  = map (fun p => if String.eqb (Payment.type p) "admin"
                  then Payment.unpaid else Payment.expired) l.
Proof.
  intros H. rewrite map_map. apply map_ext_in. intros p Hp.
  destruct (H p Hp) as (Hs & t & Ht & H0 & H1).
  rewrite (@timedOut_when_late duration now t p Hs Ht H0 H1).
  destruct (String.eqb (Payment.type p) "admin"); simpl; auto.
Qed.

(** X27. The payments [generateInitialPayments] returns, whatever the
    configuration, the admin options and the draws in [0, 1): eight payments
    with the distinct ids [pay_ref], [pay_bin], [pay_up1] .. [pay_up5],
    [pay_adm] and the configured amounts, all unpaid with nothing filled in;
    the five upline payments are the matrix payments; the join tab opens
    [pay_ref].  Once the clock has passed every deadline, a run of the
    payment sweep of [src/Home.tsx] expires all of them but the admin fee. *)
Theorem initial_payments
    (d : Draws.t) (config : SystemConfig.t)
    (adminOptions : list AdminPaymentOption.t) :
  (0 <= Draws.mathRandom d 0)%Q -> (Draws.mathRandom d 0 < 1)%Q ->
  (0 <= Draws.mathRandom d 1)%Q -> (Draws.mathRandom d 1 < 1)%Q ->
  exists payments,
    InitialPayments.generateInitialPayments d config adminOptions
    = Some payments
    /\ map Payment.id payments
       = ["pay_ref"; "pay_bin"; "pay_up1"; "pay_up2"; "pay_up3"; "pay_up4";
          "pay_up5"; "pay_adm"]%string
    /\ NoDup (map Payment.id payments)
    /\ map Payment.amount payments
       = [SystemConfig.referralAmount config;
          SystemConfig.binaryAmount config;
          SystemConfig.uplineAmount config; SystemConfig.uplineAmount config;
          SystemConfig.uplineAmount config; SystemConfig.uplineAmount config;
          SystemConfig.uplineAmount config;
          SystemConfig.adminFeeAmount config]
    /\ (forall p, In p payments ->
                  Payment.status p = Payment.unpaid
                  /\ Payment.transactionId p = ""%string
                  /\ Payment.proof p = None)
    /\ map Payment.id (filter isMatrix payments)
       = ["pay_up1"; "pay_up2"; "pay_up3"; "pay_up4"; "pay_up5"]%string
    /\ JoinTabView.activePaymentId payments = Some "pay_ref"%string
    /\ forall now st,
         (forall k, (k < 8)%nat ->
                    0 < Draws.dateNow d k
                    /\ Draws.dateNow d k + Home.PAYMENT_TIMER_DURATION
                       < now) ->
         map Payment.status
             (UserData.paymentsData
                (Home.timerInterval now
                   (UserData.set_paymentsData st payments)))
         = [Payment.expired; Payment.expired; Payment.expired;
            Payment.expired; Payment.expired; Payment.expired;
            Payment.expired; Payment.unpaid].
Proof.
  intros A0 A1 B0 B1.
  destruct (random_option adminOptions A0 A1) as [binaryOption Eb].
  destruct (random_option adminOptions B0 B1) as [adminOption Ea].
  unfold InitialPayments.generateInitialPayments. rewrite Eb, Ea.
  eexists. split; [reflexivity|].
  split; [reflexivity|]. split.
  { cbn. repeat constructor; cbn; intuition discriminate. }
  split; [reflexivity|]. split.
  { intros p Hp. cbn in Hp.
    repeat (destruct Hp as [<-|Hp]; [repeat split|]). destruct Hp. }
  split; [reflexivity|]. split; [reflexivity|].
  intros now st H.
  change (Home.timerInterval now ?s)
    with (expirePayments HomePage config now s).
  rewrite expirePayments_run. cbn [timerDuration].
  destruct st as [pr pays cs ts ds ns bd sd us].
  cbn [UserData.set_paymentsData UserData.paymentsData].
  rewrite (@late_sweep Home.PAYMENT_TIMER_DURATION now); [reflexivity|].
  intros p Hp. cbn in Hp.
  repeat (destruct Hp as [<-|Hp];
          [split; [reflexivity|];
           eexists; split; [reflexivity|]; apply H; lia|]).
  destruct Hp.
Qed.

Lemma initial_payments_witness :
  exists payments,
    InitialPayments.generateInitialPayments Onboarding.draws Sample.config
      Onboarding.initialAdminPaymentOptions = Some payments
    /\ map Payment.id payments
       = ["pay_ref"; "pay_bin"; "pay_up1"; "pay_up2"; "pay_up3"; "pay_up4";
          "pay_up5"; "pay_adm"]%string
    /\ map Payment.receiverContact payments
       = ["+91 12345 67890"; "+91 12345 67891"; "+91 12345 67892";
          "+91 12345 67893"; "+91 12345 67894"; "+91 12345 67895";
          "+91 12345 67896"; "+91 12345 67891"]%string.
Proof.
  destruct (@initial_payments Onboarding.draws Sample.config
              Onboarding.initialAdminPaymentOptions
              ltac:(discriminate) eq_refl ltac:(discriminate) eq_refl)
    as (payments & E & Hid & _).
  exists payments. split; [exact E|]. split; [exact Hid|].
  assert (E' : InitialPayments.generateInitialPayments Onboarding.draws
                 Sample.config Onboarding.initialAdminPaymentOptions
               = Some payments) by exact E.
  vm_compute in E'. inversion E'. reflexivity.
Defined.

(** ** The shared configuration *)

(** X28. In [src/unnamed/part_000] a payment's deadline is not stored with the
    payment but recomputed from the one configuration all users share:
    after [handleUpdateSystemConfig] shortens the timer, the next run of the
    dashboard's payment sweep expires a payment that, under the previous
    configuration, still had time left.  The call itself changes no user's
    data and no account. *)
Theorem deadline_follows_the_shared_configuration
    (newConfig : SystemConfig.t) (now : Z) (s : App.t) (u : UserData.t)
    (i : nat) (p : Payment.t) (t : Z) :
  App.currentUserData s = Some u ->
  nth_error (UserData.paymentsData u) i = Some p ->
  Payment.status p = Payment.unpaid ->
  Payment.type p <> "admin"%string ->
  Payment.assignedTimestamp p = Some t ->
  t <> 0 ->
  t + Dashboard.paymentTimerDurationMs newConfig < now ->
  now <= t + Dashboard.paymentTimerDurationMs
               (AppDatabase.systemConfig (App.db s)) ->
  let s' := App.handleUpdateSystemConfig newConfig s in
  App.currentUserData s' = Some u
  /\ AppDatabase.users (App.db s') = AppDatabase.users (App.db s)
  /\ AppDatabase.accounts (App.db s') = AppDatabase.accounts (App.db s)
  /\ nth_error
       (UserData.paymentsData
          (Dashboard.timerInterval (AppDatabase.systemConfig (App.db s))
                                   now u)) i
     = Some p
  /\ nth_error
       (UserData.paymentsData
          (Dashboard.timerInterval (AppDatabase.systemConfig (App.db s'))
                                   now u)) i
     = Some (Payment.with_status p Payment.expired).
Proof.
  intros Hu Hn Hs Hty Ht H0 Hnew Hold s'. subst s'.
  split; [exact Hu|]. split; [reflexivity|]. split; [reflexivity|].
  change (Dashboard.timerInterval ?c now u)
    with (expirePayments DashboardPage c now u).
  rewrite !expirePayments_run.
  cbn [UserData.paymentsData UserData.set_paymentsData timerDuration
       App.handleUpdateSystemConfig App.db AppDatabase.systemConfig].
  rewrite !nth_error_map, Hn. cbn [option_map]. split; f_equal.
  - destruct (paymentTimedOut _ now p) eqn:E; auto.
    apply paymentTimedOut_iff in E.
    destruct E as (_ & _ & t' & Ht' & _ & Hlate).
    rewrite Ht in Ht'. inversion Ht'. subst t'. lia.
  - replace (paymentTimedOut (Dashboard.paymentTimerDurationMs newConfig)
                             now p) with true; auto.
    symmetry. apply paymentTimedOut_iff. repeat split; auto.
    exists t. repeat split; auto. lia.
Qed.

Lemma deadline_follows_the_shared_configuration_witness :
  nth_error
    (UserData.paymentsData
       (Dashboard.timerInterval Sample.config (5 + 5400000) Scenario.fresh))
    0
  = Some Scenario.blank
  /\ nth_error
       (UserData.paymentsData
          (Dashboard.timerInterval Registry.oneHour (5 + 5400000)
                                   Scenario.fresh)) 0
     = Some (Payment.with_status Scenario.blank Payment.expired).
Proof.
  destruct (@deadline_follows_the_shared_configuration Registry.oneHour
              (5 + 5400000) Registry.session Scenario.fresh 0%nat
              Scenario.blank 5 eq_refl eq_refl eq_refl
              ltac:(discriminate) eq_refl ltac:(discriminate)
              eq_refl ltac:(discriminate))
    as (_ & _ & _ & H1 & H2).
  split; [exact H1 | exact H2].
Defined.

(** ** Assigned timestamps *)

Lemma stamped_map_if (c : Payment.t -> bool) (g : Payment.t -> Payment.t)
      (l : list Payment.t) :
  (forall p, stamped p -> stamped (g p)) ->
  (forall p, In p l -> stamped p) ->
  forall p, In p (map (fun p => if c p then g p else p) l) -> stamped p.
Proof.
  intros Hg Hl p Hin. apply in_map_iff in Hin.
  destruct Hin as (p0 & <- & Hin0).
  destruct (c p0); auto.
Qed.

Lemma stamped_with_status (s : Payment.status_t) (p : Payment.t) :
  stamped p -> stamped (Payment.with_status p s).
Proof.
  intros H. exact H.
Qed.

Lemma stamped_reset (now : Z) (p : Payment.t) :
  now <> 0 -> stamped (Payment.reset p now).
Proof.
  intros H. exists now. split; [reflexivity | exact H].
Qed.

Lemma stamped_settled (now : Z) (p : Payment.t) :
  now <> 0 -> stamped p -> stamped (settled now p).
Proof.
  intros H0 H. unfold settled. destruct (isMatrix p); auto.
  now apply stamped_reset.
Qed.

(** The timestamps are kept by everything that writes the payments:
    when every payment carries its timestamp, so does every payment after
    either sweep, a submission, a rejection, a confirmation, the resolution
    of a dispute or an edit of the payment form (the clock never reading
    [0]). *)
Lemma assigned_timestamps_stay_set
      (pg : page) (systemConfig : SystemConfig.t) (now : Z) (isoNow : string)
      (st st' : UserData.t) :
  now <> 0 ->
  (forall p, In p (UserData.paymentsData st) -> stamped p) ->
  st' = expirePayments pg systemConfig now st
  \/ st' = expireConfirmations pg systemConfig now st
  \/ (exists payment, st' = submit pg now isoNow payment st)
  \/ (exists confirmationId, st' = reject pg now confirmationId st)
  \/ (exists toLowerCase confirmationId,
        st' = confirm pg toLowerCase now isoNow confirmationId st)
  \/ (exists disputeId f, st' = resolveDispute pg now disputeId f st)
  \/ (exists id field value, st' = updatePayment pg id field value st) ->
  forall p, In p (UserData.paymentsData st') -> stamped p.
Proof.
  intros H0 Hst Hstep.
  destruct Hstep as [E|[E|[(payment & E)|[(cid & E)|[(tl & cid & E)
                    |[(d & f & E)|(id & field & value & E)]]]]]]; subst st'.
  - rewrite expirePayments_run. cbn [UserData.paymentsData
      UserData.set_paymentsData].
    apply stamped_map_if; auto.
  - destruct pg; cbn [expireConfirmations].
    + destruct (filter (confirmationTimedOut Home.PAYMENT_TIMER_DURATION now)
                       (UserData.pendingConfirmations st)) as [|c0 t0] eqn:F.
      * unfold Home.confirmationTimerInterval. rewrite F. exact Hst.
      * rewrite home_sweep_run by (rewrite F; discriminate).
        cbn [UserData.paymentsData]. rewrite F. intros p Hin.
        destruct (sweep_result now (UserData.paymentsData st) (c0 :: t0))
          as (Hlen & Hnth & _).
        apply In_nth_error in Hin. destruct Hin as (i & Hi).
        pose proof (nth_error_lt _ _ Hi) as Hlt. rewrite Hlen in Hlt.
        destruct (nth_error (UserData.paymentsData st) i) as [p0|] eqn:N;
          [|apply nth_error_None in N; lia].
        rewrite (Hnth _ _ N) in Hi. injection Hi as <-.
        assert (S0 : stamped p0) by (eapply Hst, nth_error_In; eauto).
        match goal with
        | |- stamped (if ?b then _ else _) => destruct b
        end; auto.
        now apply stamped_settled.
    + unfold Dashboard.confirmationTimerInterval.
      destruct (0 <? _); [|exact Hst].
      cbn [Dashboard.onUpdateUserData Updates.apply Updates.paymentsData
           Updates.orElse UserData.paymentsData].
      intros p Hin. apply in_map_iff in Hin.
      destruct Hin as (p0 & <- & Hin0).
      destruct (Dashboard.expiredConfOf _ p0); auto.
      now apply stamped_with_status, Hst.
  - rewrite submit_run. cbn [UserData.paymentsData
      UserData.set_paymentsData UserData.set_pendingConfirmations].
    destruct st. cbn. cbn in Hst. apply stamped_map_if; auto.
  - destruct (find (fun c => String.eqb (Confirmation.id c) cid)
                   (UserData.pendingConfirmations st)) as [c|] eqn:F.
    + rewrite (reject_run pg now _ _ F). cbn [UserData.paymentsData
        UserData.set_paymentsData].
      apply stamped_map_if; auto. intros. now apply stamped_reset.
    + now rewrite (reject_missing pg now _ _ F).
  - destruct (find (fun c => String.eqb (Confirmation.id c) cid)
                   (UserData.pendingConfirmations st)) as [c|] eqn:F.
    + rewrite (confirm_run pg tl now isoNow _ _ F).
      cbn [UserData.paymentsData]. apply stamped_map_if; auto.
    + now rewrite (confirm_missing pg tl now isoNow _ _ F).
  - destruct pg; cbn [resolveDispute];
      unfold Home.handleResolveDispute, Dashboard.handleResolveDispute;
      destruct (find _ (UserData.disputes st)) as [dispute|]; auto;
      destruct st; destruct f; cbn in *; apply stamped_map_if; auto;
      intros; now apply stamped_reset.
  - rewrite updatePayment_run. cbn [UserData.paymentsData
      UserData.set_paymentsData].
    apply stamped_map_if; auto. intros p0 Hp0. destruct field; exact Hp0.
Qed.

(** The payments a new user starts from carry their timestamps as well. *)
Lemma initial_payments_are_stamped
      (d : Draws.t) (config : SystemConfig.t)
      (adminOptions : list AdminPaymentOption.t) (l : list Payment.t) :
  (forall k, (k < 8)%nat -> Draws.dateNow d k <> 0) ->
  InitialPayments.generateInitialPayments d config adminOptions = Some l ->
  forall p, In p l -> stamped p.
Proof.
  intros H E p Hin. unfold InitialPayments.generateInitialPayments in E.
  destruct (InitialPayments.getRandomAdminOption adminOptions
              (Draws.mathRandom d 0)); [|discriminate].
  destruct (InitialPayments.getRandomAdminOption adminOptions
              (Draws.mathRandom d 1)); [|discriminate].
  injection E as <-. cbn in Hin.
  repeat (destruct Hin as [<-|Hin];
          [eexists; split; [reflexivity|]; apply H; lia|]).
  destruct Hin.
Qed.

(** ** The recorded qualification *)

Lemma processQueue_keeps_the_rest (pg : page) (toLocaleString : Z -> string)
      (systemConfig : SystemConfig.t) (now : Z) (isoNow : string)
      (st st' : UserData.t) :
  processQueue pg toLocaleString systemConfig now isoNow st = Some st' ->
  UserData.sponsorData st' = UserData.sponsorData st
  /\ BinaryData.pendingPairs (UserData.binaryData st')
     = BinaryData.pendingPairs (UserData.binaryData st).
Proof.
  destruct pg; cbn [processQueue];
    unfold Home.handleProcessBinaryQueue, Dashboard.handleProcessBinaryQueue;
    destruct (existsb QueueUser.isQualified
                (BinaryData.matchingQueue (UserData.binaryData st)));
    cbn [negb];
    try destruct (JS.at_ _ _);
    intros E; try discriminate E; injection E as <-; destruct st;
    split; reflexivity.
Qed.

(** What [payoutPending] asks holds from the first render on and is kept by
    the handlers that write the sponsor data or the binary data: it holds
    when the pairs seeded as pending are there and the recorded flag is the
    flag itself, and [handleQualifyForBinary], the matcher and the effect of
    [src/Home.tsx] that copies the flag into the queue keep it. *)
Lemma payoutPending_kept (pg : page) (prev : bool) (st : UserData.t) :
  (BinaryData.pendingPairs (UserData.binaryData st) <> [] ->
   payoutPending (isQualifiedForBinary (UserData.sponsorData st)) st)
  /\ (payoutPending prev st -> payoutPending prev (qualifyForBinary pg st))
  /\ (forall toLocaleString systemConfig now isoNow st',
        payoutPending prev st ->
        processQueue pg toLocaleString systemConfig now isoNow st = Some st' ->
        payoutPending prev st')
  /\ (payoutPending prev st ->
      payoutPending prev (Home.qualificationSyncEffect st)).
Proof.
  split; [|split; [|split]]; [| | |intros I; destruct st; exact I].
  - intros Hne. split; [contradiction | auto].
  - intros [I1 I2].
    assert (R : qualifyForBinary pg st
                = UserData.set_sponsorData st
                    (SponsorData.mk
                       (map markPaid
                            (SponsorData.directs (UserData.sponsorData st)))))
      by (destruct pg; reflexivity).
    rewrite R. split.
    + destruct st; exact I1.
    + intros Hp. specialize (I2 Hp). unfold isQualifiedForBinary in *.
      cbn [UserData.sponsorData UserData.set_sponsorData
           SponsorData.directs].
      rewrite !existsb_markPaid.
      apply andb_true_iff in I2. destruct I2 as [L R'].
      apply andb_true_iff. split.
      * apply existsb_exists in L. destruct L as (x & Hin & Hx).
        apply existsb_exists. exists x. split; auto.
        apply andb_true_iff in Hx. tauto.
      * apply existsb_exists in R'. destruct R' as (x & Hin & Hx).
        apply existsb_exists. exists x. split; auto.
        apply andb_true_iff in Hx. tauto.
  - intros toLocaleString systemConfig now isoNow st' [I1 I2] Hrun.
    destruct (processQueue_keeps_the_rest _ _ _ _ _ _ Hrun) as [Es Ep].
    split.
    + rewrite Ep. exact I1.
    + rewrite Es. exact I2.
Qed.

Lemma stamped_with_status_tx (s : Payment.status_t) (tx : string)
      (p : Payment.t) :
  stamped p -> stamped (Payment.with_status_tx p s tx).
Proof.
  intros H. exact H.
Qed.

(** Auto-verification keeps the timestamps too: the handler and its timers
    only write statuses and transaction ids, in [src/Home.tsx] to the current
    payments and in [src/unnamed/part_000] to the payments of the render the
    handler ran in. *)
Lemma auto_verify_keeps_the_timestamps
      (random : Q) (now : Z) (isoNow : string) (st : UserData.t) :
  (forall p, In p (UserData.paymentsData st) -> stamped p) ->
  (forall payment p,
     In p (UserData.paymentsData (fst (Home.handleAutoVerify payment st))) ->
     stamped p)
  /\ (forall t p,
        In p (UserData.paymentsData (fst (Home.fire random isoNow t st))) ->
        stamped p)
  /\ (forall systemConfig payment p,
        In p (UserData.paymentsData
                (fst (Dashboard.handleAutoVerify systemConfig now payment
                                                 st))) ->
        stamped p)
  /\ (forall payment closure p,
        (forall q, In q (UserData.paymentsData closure) -> stamped q) ->
        In p (UserData.paymentsData
                (fst (Dashboard.fire random now isoNow
                                     (Dashboard.settle payment closure) st))) ->
        stamped p)
  /\ (forall payment notes closure p,
        (forall q, In q (UserData.paymentsData closure) -> stamped q) ->
        In p (UserData.paymentsData
                (fst (Dashboard.fire random now isoNow
                        (Dashboard.errorReset payment notes closure) st))) ->
        stamped p).
Proof.
  intros Hst. split; [|split; [|split; [|split]]].
  - intros payment. unfold Home.handleAutoVerify, Home.setStatusOf.
    cbn [fst UserData.paymentsData UserData.set_paymentsData].
    apply stamped_map_if; auto.
  - intros [payment|payment]; unfold Home.fire, Home.setStatusOf.
    + destruct (negb (Qle_bool random zeroPointOne));
        cbn [fst UserData.paymentsData UserData.set_paymentsData
             UserData.set_transactionsData];
        destruct st; cbn; apply stamped_map_if; auto.
    + cbn [fst UserData.paymentsData UserData.set_paymentsData].
      apply stamped_map_if; auto.
  - intros systemConfig payment. unfold Dashboard.handleAutoVerify.
    destruct (_ || _ || _); cbn [fst]; [exact Hst|].
    cbn [Dashboard.onUpdateUserData Updates.apply Updates.paymentsData
         Updates.orElse UserData.paymentsData].
    apply stamped_map_if; auto.
  - intros payment closure p Hc. unfold Dashboard.fire.
    destruct (negb (Qle_bool random zeroPointOne)); cbn [fst];
      [|apply Hst].
    cbn [Dashboard.onUpdateUserData Updates.apply Updates.paymentsData
         Updates.orElse UserData.paymentsData].
    revert p. apply stamped_map_if; auto.
  - intros payment notes closure p Hc. unfold Dashboard.fire. cbn [fst].
    cbn [Dashboard.onUpdateUserData Updates.apply Updates.paymentsData
         Updates.orElse UserData.paymentsData].
    revert p. apply stamped_map_if; auto.
Qed.
